(** * Grease Pencil UI panels: polls and draw methods

    A shallow embedding of the four UI scripts

      - release/scripts/startup/bl_ui/space_gpencil_morph_targets.py
      - scripts/startup/bl_ui/space_grease_pencil_shape_keys.py
      - scripts/startup/bl_ui/properties_data_gpencil.py
      - scripts/startup/bl_ui/properties_material_gpencil.py

    The scripts read the host's scene data through [context] and build a
    widget tree by calling methods on [UILayout] objects.  The model keeps
    both sides explicit: the scene data reachable from the context is an
    immutable-looking record that is nevertheless threaded through every
    draw method as part of the state, and the layout is a store of items
    addressed by handles, so that [row.enabled = ...] after [row = ...]
    updates the item that [row] names. *)

From Stdlib Require Import List String ZArith QArith Bool Lia Arith.
From Stdlib Require Import Sorting.Sorted Sorting.Permutation.
Import ListNotations.

Local Open Scope string_scope.
Local Open Scope Z_scope.

Set Implicit Arguments.

(** ** The host's data, as far as the scripts read it *)

(** A [bpy_prop_collection] with an active element ([layers],
    [morph_targets], [vertex_groups]).  [len(c)] and [bool(c)] look at
    [elems]; [c.active] is [None] when nothing is active. *)
Record Collection (A : Type) := {
  elems : list A;
  active : option A
}.

Record GPencilLayer := {
  (* float property, only compared with 0 by the scripts *)
  stroke_dryness : Q
}.

Record MorphTarget := {
  mt_name : string;
  order_nr : Z;
  morphed_layer_order : bool
}.

Record ShapeKey := {
  sk_name : string
}.

(** [gpd.grid]: passed to [prop], never inspected. *)
Record Grid := { grid_id : nat }.

(** The legacy Grease Pencil data-block ([context.gpencil], and the data of
    an object of type ['GPENCIL']). *)
Record GPData := {
  layers : Collection GPencilLayer;
  morph_targets : Collection MorphTarget;
  watercolor : bool;
  onion_mode : string;
  users : Z;
  use_ghost_custom_colors : bool;
  in_morph_edit_mode : bool;
  stroke_thickness_space : string;
  grid : Grid
}.

(** A layer of the v3 data-block: passed to [prop], never inspected. *)
Record GreasePencilLayer := { layer_id : nat }.

(** The Grease Pencil v3 data-block ([context.grease_pencil], and the data
    of an object of type ['GREASEPENCIL']). *)
Record GreasePencil := {
  shape_keys : list ShapeKey;
  gp_layers : Collection GreasePencilLayer   (* grease_pencil.layers *)
}.

(** [Material.grease_pencil] (MaterialGPencilStyle). *)
Record GPColor := {
  lock : bool;
  ghost : bool;
  mode : string;
  stroke_style : string;
  fill_style : string;
  gradient_type : string
}.

Record Material := {
  grease_pencil : option GPColor
}.

Record MaterialSlot := {
  material : option Material
}.

Record VertexGroup := {
  lock_weight : bool
}.

(** Object kinds other than the two Grease Pencil ones. *)
Inductive OtherKind :=
  MESH | CURVE | SURFACE | META | FONT | CURVES | POINTCLOUD | VOLUME
| ARMATURE | LATTICE | EMPTY | LIGHT | LIGHT_PROBE | CAMERA | SPEAKER.

Definition other_kind_name (k : OtherKind) : string :=
  match k with
  | MESH => "MESH" | CURVE => "CURVE" | SURFACE => "SURFACE"
  | META => "META" | FONT => "FONT" | CURVES => "CURVES"
  | POINTCLOUD => "POINTCLOUD" | VOLUME => "VOLUME"
  | ARMATURE => "ARMATURE" | LATTICE => "LATTICE" | EMPTY => "EMPTY"
  | LIGHT => "LIGHT" | LIGHT_PROBE => "LIGHT_PROBE" | CAMERA => "CAMERA"
  | SPEAKER => "SPEAKER"
  end.

(** [Object.data]: what it points to is tagged by [Object.type]. *)
Inductive ObData :=
| GPencilData (gpd : GPData)
| GreasePencilData (gp : GreasePencil)
| OtherData (k : OtherKind).

Record Object := {
  data : ObData;
  vertex_groups : Collection VertexGroup;
  show_in_front : bool
}.

(** [Object.type], the enum that names the kind of [Object.data]. *)
Definition type (ob : Object) : string :=
  match data ob with
  | GPencilData _ => "GPENCIL"
  | GreasePencilData _ => "GREASEPENCIL"
  | OtherData k => other_kind_name k
  end.

Record Palette := { shader_count : Z }.

Record Paint := { palette : option Palette }.

Record ToolSettings := { gpencil_paint : option Paint }.

Record Scene := { tool_settings : ToolSettings }.

(** [context.space_data]: passed to [template_ID], never inspected. *)
Record Space := { space_id : nat }.

(** The members of [bpy.context] the scripts read.  Each one the host may
    leave unset is an [option]; reading it gives [None]. *)
Record Context := {
  object : option Object;
  active_object : option Object;
  gpencil : option GPData;
  ctx_grease_pencil : option GreasePencil;   (* context.grease_pencil *)
  ctx_material : option Material;            (* context.material *)
  space_data : option Space;
  scene : Scene;
  ctx_tool_settings : ToolSettings           (* context.tool_settings *)
}.

(** ** Python values *)

(** Host objects as they are handed to [UILayout] methods. *)
Inductive PyObj :=
| OObject (ob : Object)
| OGPData (gpd : GPData)
| OGreasePencil (gp : GreasePencil)
| OOtherData (k : OtherKind)
| OLayer (gpl : GPencilLayer)
| OGreasePencilLayer (l : GreasePencilLayer)
| OLayers (c : Collection GPencilLayer)
| OMorphTarget (mt : MorphTarget)
| OMorphTargets (c : Collection MorphTarget)
| OShapeKey (sk : ShapeKey)
| OMaterial (ma : Material)
| OGPColor (gpcolor : GPColor)
| OVertexGroup (vg : VertexGroup)
| OVertexGroups (c : Collection VertexGroup)
| OGrid (g : Grid)
| OSpace (sp : Space)
| OToolSettings (ts : ToolSettings)
| OPaint (p : Paint).

Inductive PyVal :=
| VNone
| VBool (b : bool)
| VInt (z : Z)
| VNum (q : Q)
| VStr (s : string)
| VObj (o : PyObj).

(** Python's truth test ([__bool__] / [__len__]). *)
Class Truthy (A : Type) := truthy : A -> bool.

#[global] Instance truthy_bool : Truthy bool := fun b => b.
#[global] Instance truthy_option {A} : Truthy (option A) :=
  fun o => match o with Some _ => true | None => false end.
#[global] Instance truthy_list {A} : Truthy (list A) :=
  fun l => match l with [] => false | _ :: _ => true end.
#[global] Instance truthy_collection {A} : Truthy (Collection A) :=
  fun c => truthy (elems c).
#[global] Instance truthy_obj : Truthy PyObj :=
  fun o => match o with
           | OLayers c => truthy c
           | OMorphTargets c => truthy c
           | OVertexGroups c => truthy c
           | _ => true
           end.
#[global] Instance truthy_val : Truthy PyVal :=
  fun v => match v with
           | VNone => false
           | VBool b => b
           | VInt z => negb (z =? 0)
           | VNum q => negb (Qeq_bool q 0)
           | VStr s => negb (String.eqb s "")
           | VObj o => truthy o
           end.

(** Conversion of typed host data to a Python value. *)
Class ToPy (A : Type) := to_py : A -> PyVal.

#[global] Instance to_py_val : ToPy PyVal := fun v => v.
#[global] Instance to_py_bool : ToPy bool := VBool.
#[global] Instance to_py_Z : ToPy Z := VInt.
#[global] Instance to_py_Q : ToPy Q := VNum.
#[global] Instance to_py_string : ToPy string := VStr.
#[global] Instance to_py_option {A} `{ToPy A} : ToPy (option A) :=
  fun o => match o with Some a => to_py a | None => VNone end.
#[global] Instance to_py_object : ToPy Object := fun x => VObj (OObject x).
#[global] Instance to_py_gpdata : ToPy GPData := fun x => VObj (OGPData x).
#[global] Instance to_py_gp : ToPy GreasePencil := fun x => VObj (OGreasePencil x).
#[global] Instance to_py_obdata : ToPy ObData :=
  fun d => match d with
           | GPencilData g => to_py g
           | GreasePencilData g => to_py g
           | OtherData k => VObj (OOtherData k)
           end.
#[global] Instance to_py_layer : ToPy GPencilLayer := fun x => VObj (OLayer x).
#[global] Instance to_py_gp_layer : ToPy GreasePencilLayer :=
  fun x => VObj (OGreasePencilLayer x).
#[global] Instance to_py_layers : ToPy (Collection GPencilLayer) :=
  fun x => VObj (OLayers x).
#[global] Instance to_py_mt : ToPy MorphTarget := fun x => VObj (OMorphTarget x).
#[global] Instance to_py_mts : ToPy (Collection MorphTarget) :=
  fun x => VObj (OMorphTargets x).
#[global] Instance to_py_sk : ToPy ShapeKey := fun x => VObj (OShapeKey x).
#[global] Instance to_py_material : ToPy Material := fun x => VObj (OMaterial x).
#[global] Instance to_py_gpcolor : ToPy GPColor := fun x => VObj (OGPColor x).
#[global] Instance to_py_vg : ToPy VertexGroup := fun x => VObj (OVertexGroup x).
#[global] Instance to_py_vgs : ToPy (Collection VertexGroup) :=
  fun x => VObj (OVertexGroups x).
#[global] Instance to_py_grid : ToPy Grid := fun x => VObj (OGrid x).
#[global] Instance to_py_space : ToPy Space := fun x => VObj (OSpace x).
#[global] Instance to_py_ts : ToPy ToolSettings := fun x => VObj (OToolSettings x).
#[global] Instance to_py_paint : ToPy Paint := fun x => VObj (OPaint x).

(** [a or b] on Python values. *)
Definition py_or (a b : PyVal) : PyVal := if truthy a then a else b.

(** ** Exceptions and results *)

Inductive Exn :=
| AttributeError (attr : string).   (* 'NoneType' object has no attribute ... *)

Inductive Res (A : Type) :=
| Ok (a : A)
| Raise (e : Exn).
Arguments Raise {A} e.

Definition is_ok {A} (r : Res A) : bool :=
  match r with Ok _ => true | Raise _ => false end.

(** ** The layout store *)

Definition handle := nat.
Definition Kwargs := list (string * PyVal).

(** What a layout method call leaves behind.  [parent] is the layout the
    method was called on.  Sub-layouts and operator buttons are returned to
    the script, which may then assign attributes on them; these land in the
    last component. *)
Inductive Item :=
| ILayout (parent : handle) (kind : string) (kw : Kwargs) (attrs : Kwargs)
| IOperator (parent : handle) (idname : string) (kw : Kwargs) (props : Kwargs)
| IWidget (parent : handle) (method : string) (args : list PyVal) (kw : Kwargs).

(** Everything a draw method can see or touch: the scene data behind the
    context, and the layout items built so far. *)
Record World := {
  model : Context;
  ui : list Item
}.

(** ** The monad of draw methods: state and exceptions *)

Definition M (A : Type) := World -> Res A * World.

Definition ret {A} (a : A) : M A := fun w => (Ok a, w).

Definition bind {A B} (m : M A) (k : A -> M B) : M B :=
  fun w => match m w with
           | (Ok a, w') => k a w'
           | (Raise e, w') => (Raise e, w')
           end.

Definition raise {A} (e : Exn) : M A := fun w => (Raise e, w).

Declare Scope ui_scope.
Delimit Scope ui_scope with ui.
Notation "x <- m ;; k" := (bind m (fun x => k))
  (at level 61, m at next level, right associativity) : ui_scope.
Notation "m ;; k" := (bind m (fun _ => k))
  (at level 61, right associativity) : ui_scope.
Local Open Scope ui_scope.

(** [context]: the draw method's argument. *)
Definition context : M Context := fun w => (Ok (model w), w).

(** [x.attr] where [x] may be [None]. *)
Definition getattr {A B} (x : option A) (attr : string) (f : A -> B) : M B :=
  match x with
  | Some a => ret (f a)
  | None => raise (AttributeError attr)
  end.

Fixpoint set_kw (k : string) (v : PyVal) (kw : Kwargs) : Kwargs :=
  match kw with
  | [] => [(k, v)]
  | (k', v') :: kw' =>
      if String.eqb k k' then (k, v) :: kw' else (k', v') :: set_kw k v kw'
  end.

Fixpoint get_kw (k : string) (kw : Kwargs) : option PyVal :=
  match kw with
  | [] => None
  | (k', v') :: kw' => if String.eqb k k' then Some v' else get_kw k kw'
  end.

Definition item_setattr (k : string) (v : PyVal) (it : Item) : Item :=
  match it with
  | ILayout p kind kw attrs => ILayout p kind kw (set_kw k v attrs)
  | IOperator p idname kw props => IOperator p idname kw (set_kw k v props)
  | IWidget p m args kw => IWidget p m args kw
  end.

Definition item_attrs (it : Item) : Kwargs :=
  match it with
  | ILayout _ _ _ attrs => attrs
  | IOperator _ _ _ props => props
  | IWidget _ _ _ _ => []
  end.

Fixpoint update_nth {A} (n : nat) (f : A -> A) (l : list A) : list A :=
  match l, n with
  | [], _ => []
  | x :: l', O => f x :: l'
  | x :: l', S n' => x :: update_nth n' f l'
  end.

Definition add_item (it : Item) : M handle :=
  fun w => (Ok (List.length (ui w)), {| model := model w; ui := ui w ++ [it] |}).

(** [h.attr = v] on a layout or on the properties of an operator button. *)
Definition setattr {V} `{ToPy V} (h : handle) (attr : string) (v : V) : M unit :=
  fun w => (Ok tt, {| model := model w;
                      ui := update_nth h (item_setattr attr (to_py v)) (ui w) |}).

(** Reading a layout attribute back.  An attribute the script has not
    assigned yet has the host's default, which is [True] for the flags. *)
Definition readattr (h : handle) (attr : string) : M PyVal :=
  fun w => (Ok match nth_error (ui w) h with
               | Some it => match get_kw attr (item_attrs it) with
                            | Some v => v
                            | None => VBool true
                            end
               | None => VBool true
               end, w).

(** The methods of [bpy.types.UILayout] the scripts call.  Each call is
    recorded with the arguments the script passes, a [None] passed as data
    showing as [VNone].  Whether the host then refuses such a call is not
    in the scripts; the properties below that state a normal return are
    about runs in which the script has tested the data or has read an
    attribute of it. *)
Module UILayout.

(** [layout.row(...)], [layout.column(...)], [layout.split(...)],
  [layout.grid_flow(...)]: a new sub-layout of [parent]. *)
Definition sublayout (kind : string) (parent : handle) (kw : Kwargs) : M handle :=
add_item (ILayout parent kind kw []).

Definition row := sublayout "row".
Definition column := sublayout "column".
Definition split := sublayout "split".
Definition grid_flow := sublayout "grid_flow".

(** [layout.operator(idname, ...)]: returns the button's properties. *)
Definition operator (parent : handle) (idname : string) (kw : Kwargs) : M handle :=
add_item (IOperator parent idname kw []).

(** Every other layout method: it adds one widget and returns nothing the
  scripts use. *)
Definition widget (method : string) (parent : handle) (args : list PyVal)
  (kw : Kwargs) : M unit :=
_ <- add_item (IWidget parent method args kw) ;; ret tt.

Definition prop {D} `{ToPy D} (parent : handle) (d : D) (property : string)
  (kw : Kwargs) : M unit :=
widget "prop" parent [to_py d; VStr property] kw.

Definition label (parent : handle) (kw : Kwargs) : M unit :=
widget "label" parent [] kw.

Definition separator (parent : handle) (kw : Kwargs) : M unit :=
widget "separator" parent [] kw.

Definition menu (parent : handle) (name : string) (kw : Kwargs) : M unit :=
widget "menu" parent [VStr name] kw.

Definition popover (parent : handle) (kw : Kwargs) : M unit :=
widget "popover" parent [] kw.

Definition prop_decorator {D} `{ToPy D} (parent : handle) (d : D)
  (property : string) : M unit :=
widget "prop_decorator" parent [to_py d; VStr property] [].

Definition template_ID {D} `{ToPy D} (parent : handle) (d : D)
  (property : string) (kw : Kwargs) : M unit :=
widget "template_ID" parent [to_py d; VStr property] kw.

Definition template_palette {D} `{ToPy D} (parent : handle) (d : D)
  (property : string) (kw : Kwargs) : M unit :=
widget "template_palette" parent [to_py d; VStr property] kw.

Definition template_preview {D} `{ToPy D} (parent : handle) (d : D) : M unit :=
widget "template_preview" parent [to_py d] [].

Definition template_list {D C} `{ToPy D} `{ToPy C} (parent : handle)
  (listtype list_id : string) (d : D) (property : string)
  (active_data : C) (active_property : string) (kw : Kwargs) : M unit :=
widget "template_list" parent
  [VStr listtype; VStr list_id; to_py d; VStr property;
   to_py active_data; VStr active_property] kw.

Definition operator_menu_enum (parent : handle) (idname property : string)
  (kw : Kwargs) : M unit :=
widget "operator_menu_enum" parent [VStr idname; VStr property] kw.

End UILayout.

(** [for x in l: body x] *)
Fixpoint for_each {A} (l : list A) (body : A -> M unit) : M unit :=
  match l with
  | [] => ret tt
  | x :: l' => body x ;; for_each l' body
  end.

(** [if c: body] *)
Definition when (c : bool) (body : M unit) : M unit :=
  if c then body else ret tt.

(** Python's [sorted(l, key=...)] on integer keys: the stable ascending
    sort, here by insertion from the right, which keeps equal keys in their
    original order. *)
Section Sorted.
Variable A : Type.
Variable key : A -> Z.

Fixpoint insert_by (x : A) (l : list A) : list A :=
  match l with
  | [] => [x]
  | y :: l' => if key x <=? key y then x :: y :: l' else y :: insert_by x l'
  end.

Fixpoint sorted (l : list A) : list A :=
  match l with
  | [] => []
  | x :: l' => insert_by x (sorted l')
  end.
End Sorted.

(** The instance a draw method runs on: panels and menus use
    [self.layout], list types also [self.layout_type]. *)
Record Self := {
  layout : handle;
  layout_type : string
}.

Definition kw {V} `{ToPy V} (k : string) (v : V) : string * PyVal := (k, to_py v).

(** [len(c)] *)
Definition len {A} (l : list A) : Z := Z.of_nat (List.length l).

(** [a and f(a)] where [a] is a host object or [None]: a host object is
    always true, so the result is [None] or what [f] gives. *)
Definition and_then {A} (a : option A) (f : A -> PyVal) : PyVal :=
  match a with
  | Some x => f x
  | None => VNone
  end.

(** Attribute look-up on whatever [Object.data] points to: only the data
    types that have the attribute answer. *)
Definition data_morph_targets (d : ObData) : M (Collection MorphTarget) :=
  match d with
  | GPencilData gpd => ret (morph_targets gpd)
  | _ => raise (AttributeError "morph_targets")
  end.

Definition data_shape_keys (d : ObData) : M (list ShapeKey) :=
  match d with
  | GreasePencilData gp => ret (shape_keys gp)
  | _ => raise (AttributeError "shape_keys")
  end.

(** [d.layers]: both Grease Pencil data-blocks have the collection, each
    with layers of its own type; the scripts take [.active] from it and
    hand that on. *)
Definition py_collection {A} `{ToPy A} (c : Collection A) : Collection PyVal :=
  {| elems := map to_py (elems c); active := option_map to_py (active c) |}.

Definition data_layers (d : ObData) : M (Collection PyVal) :=
  match d with
  | GPencilData gpd => ret (py_collection (layers gpd))
  | GreasePencilData gp => ret (py_collection (gp_layers gp))
  | OtherData _ => raise (AttributeError "layers")
  end.

(** ** space_gpencil_morph_targets.py *)

Module GPENCIL_PT_MorphTargetsNPanel.

Definition poll : M PyVal :=
  context <- context ;;
  match object context with
  | None => ret (VBool false)
  | Some ob =>
      if negb (String.eqb (type ob) "GPENCIL") then ret (VBool false)
      else
        let gpd := data ob in
        mts <- data_morph_targets gpd ;;
        ret (VBool (len (elems mts) >? 0))
  end.

Definition draw (self : Self) : M unit :=
  context <- context ;;
  let layout := layout self in
  setattr layout "use_property_decorate" true ;;
  setattr layout "use_property_split" true ;;
  gpd <- getattr (object context) "data" data ;;
  mts <- data_morph_targets gpd ;;
  let mt_list := elems mts in
  col <- UILayout.column layout [kw "align" true] ;;
  for_each (sorted order_nr mt_list) (fun mt =>
    sub <- UILayout.split col [kw "factor" (9 # 10)%Q; kw "align" true] ;;
    UILayout.prop sub mt "value" [kw "text" (mt_name mt)] ;;
    row <- UILayout.row sub [kw "align" true] ;;
    setattr row "use_property_decorate" false ;;
    setattr row "emboss" "NONE" ;;
    UILayout.prop row mt "mute" []) ;;
  UILayout.separator layout [kw "factor" (2 # 10)%Q].

End GPENCIL_PT_MorphTargetsNPanel.

(** ** space_grease_pencil_shape_keys.py *)

Module GREASE_PENCIL_PT_ShapeKeysNPanel.

Definition poll : M PyVal :=
  context <- context ;;
  match object context with
  | None => ret (VBool false)
  | Some ob =>
      if negb (String.eqb (type ob) "GREASEPENCIL") then ret (VBool false)
      else
        let grease_pencil := data ob in
        sks <- data_shape_keys grease_pencil ;;
        ret (VBool (len sks >? 0))
  end.

Definition draw (self : Self) : M unit :=
  context <- context ;;
  let layout := layout self in
  setattr layout "use_property_decorate" true ;;
  setattr layout "use_property_split" true ;;
  let grease_pencil := ctx_grease_pencil context in
  col <- UILayout.column layout [kw "align" true] ;;
  sks <- getattr grease_pencil "shape_keys" shape_keys ;;
  for_each sks (fun shape_key =>
    sub <- UILayout.split col [kw "factor" (9 # 10)%Q; kw "align" true] ;;
    UILayout.prop sub shape_key "value"
      [kw "text" (sk_name shape_key); kw "slider" true] ;;
    row <- UILayout.row sub [kw "align" true] ;;
    setattr row "use_property_decorate" false ;;
    setattr row "emboss" "NONE" ;;
    UILayout.prop row shape_key "mute" []) ;;
  UILayout.separator layout [kw "factor" (2 # 10)%Q].

End GREASE_PENCIL_PT_ShapeKeysNPanel.

(** ** properties_data_gpencil.py *)

Module DataButtonsPanel.
Definition poll : M PyVal :=
  context <- context ;;
  ret (to_py (gpencil context)).
End DataButtonsPanel.

Module ObjectButtonsPanel.
Definition poll : M PyVal :=
  context <- context ;;
  let ob := object context in
  ret (and_then ob (fun ob => VBool (String.eqb (type ob) "GPENCIL"))).
End ObjectButtonsPanel.

Module LayerDataButtonsPanel.
Definition poll : M PyVal :=
  context <- context ;;
  let gpencil := gpencil context in
  ret (and_then gpencil (fun gpencil => to_py (active (layers gpencil)))).
End LayerDataButtonsPanel.

Module DATA_PT_context_gpencil.
Definition poll := DataButtonsPanel.poll.

Definition draw (self : Self) : M unit :=
  context <- context ;;
  let layout := layout self in
  let ob := object context in
  let space := space_data context in
  if truthy ob then UILayout.template_ID layout ob "data" []
  else UILayout.template_ID layout space "pin_id" [].
End DATA_PT_context_gpencil.

Module GPENCIL_MT_layer_context_menu.
Definition draw (self : Self) : M unit :=
  context <- context ;;
  let layout := layout self in
  let ob := object context in
  gpd <- getattr ob "data" data ;;
  gpd_layers <- data_layers gpd ;;
  let gpl := active gpd_layers in

  op <- UILayout.operator layout "gpencil.layer_duplicate"
          [kw "text" "Duplicate"; kw "icon" "DUPLICATE"] ;;
  setattr op "mode" "ALL" ;;
  op <- UILayout.operator layout "gpencil.layer_duplicate"
          [kw "text" "Duplicate Empty Keyframes"] ;;
  setattr op "mode" "EMPTY" ;;

  UILayout.separator layout [] ;;

  UILayout.operator layout "gpencil.reveal"
    [kw "icon" "RESTRICT_VIEW_OFF"; kw "text" "Show All"] ;;
  op <- UILayout.operator layout "gpencil.hide"
          [kw "icon" "RESTRICT_VIEW_ON"; kw "text" "Hide Others"] ;;
  setattr op "unselected" true ;;

  UILayout.separator layout [] ;;

  UILayout.operator layout "gpencil.lock_all"
    [kw "icon" "LOCKED"; kw "text" "Lock All"] ;;
  UILayout.operator layout "gpencil.unlock_all"
    [kw "icon" "UNLOCKED"; kw "text" "Unlock All"] ;;
  UILayout.prop layout gpd "use_autolock_layers"
    [kw "text" "Autolock Inactive Layers"] ;;
  UILayout.prop layout gpl "lock_material" [] ;;

  UILayout.separator layout [] ;;

  op <- UILayout.operator layout "gpencil.layer_merge"
          [kw "icon" "SORT_ASC"; kw "text" "Merge Down"] ;;
  setattr op "mode" "ACTIVE" ;;
  op <- UILayout.operator layout "gpencil.layer_merge"
          [kw "text" "Merge All"] ;;
  setattr op "mode" "ALL" ;;

  UILayout.separator layout [] ;;
  op <- UILayout.operator layout "gpencil.layer_duplicate_object"
          [kw "text" "Copy Layer to Selected"] ;;
  setattr op "only_active" true ;;
  op <- UILayout.operator layout "gpencil.layer_duplicate_object"
          [kw "text" "Copy All Layers to Selected"] ;;
  setattr op "only_active" false.
End GPENCIL_MT_layer_context_menu.

Module DATA_PT_gpencil_layers.
Definition poll := DataButtonsPanel.poll.

Definition draw_layers (self : Self) : handle -> GPData -> M unit :=
  let self_layout := layout self in
  fun layout gpd =>
  let gpl := active (layers gpd) in

  row <- UILayout.row layout [] ;;
  let layer_rows := 7 in

  col <- UILayout.column row [] ;;
  UILayout.template_list col "GPENCIL_UL_layer" "" gpd "layers"
    (layers gpd) "active_index"
    [kw "rows" layer_rows; kw "sort_reverse" true; kw "sort_lock" true] ;;

  col <- UILayout.column row [] ;;
  sub <- UILayout.column col [kw "align" true] ;;
  UILayout.operator sub "gpencil.layer_add" [kw "icon" "ADD"; kw "text" ""] ;;
  UILayout.operator sub "gpencil.layer_remove" [kw "icon" "REMOVE"; kw "text" ""] ;;

  UILayout.separator sub [] ;;

  when (truthy gpl) (
    UILayout.menu sub "GPENCIL_MT_layer_context_menu"
      [kw "icon" "DOWNARROW_HLT"; kw "text" ""] ;;

    when (len (elems (layers gpd)) >? 1) (
      UILayout.separator col [] ;;

      sub <- UILayout.column col [kw "align" true] ;;
      op <- UILayout.operator sub "gpencil.layer_move"
              [kw "icon" "TRIA_UP"; kw "text" ""] ;;
      setattr op "type" "UP" ;;
      op <- UILayout.operator sub "gpencil.layer_move"
              [kw "icon" "TRIA_DOWN"; kw "text" ""] ;;
      setattr op "type" "DOWN" ;;

      UILayout.separator col [] ;;

      sub <- UILayout.column col [kw "align" true] ;;
      op <- UILayout.operator sub "gpencil.layer_isolate"
              [kw "icon" "RESTRICT_VIEW_ON"; kw "text" ""] ;;
      setattr op "affect_visibility" true ;;
      op <- UILayout.operator sub "gpencil.layer_isolate"
              [kw "icon" "LOCKED"; kw "text" ""] ;;
      setattr op "affect_visibility" false)) ;;

  (* Layer main properties *)
  row <- UILayout.row layout [] ;;
  col <- UILayout.column layout [kw "align" true] ;;

  match gpl with
  | None => ret tt
  | Some gpl =>
    let layout := self_layout in
    setattr layout "use_property_split" true ;;
    setattr layout "use_property_decorate" true ;;
    col <- UILayout.column layout [kw "align" true] ;;

    when (negb (watercolor gpd)) (
      col <- UILayout.row layout [kw "align" true] ;;
      UILayout.prop col gpl "blend_mode" [kw "text" "Blend"]) ;;

    when (negb (watercolor gpd)) (
      col <- UILayout.row layout [kw "align" true] ;;
      UILayout.prop col gpl "opacity" [kw "text" "Opacity"; kw "slider" true] ;;
      col <- UILayout.row layout [kw "align" true] ;;
      UILayout.prop col gpl "use_lights" []) ;;

    when (watercolor gpd) (
      setattr layout "use_property_split" false ;;

      row <- UILayout.row layout [] ;;
      col <- UILayout.column row [] ;;
      setattr col "scale_x" (78 # 100)%Q ;;
      UILayout.label col [kw "text" ""] ;;
      col <- UILayout.column row [] ;;
      UILayout.prop col gpl "clear_underlying" [] ;;
      UILayout.prop col gpl "mix_with_underlying" [] ;;
      UILayout.prop col gpl "limit_to_underlying" [] ;;
      col <- UILayout.column row [] ;;
      UILayout.prop col gpl "gouache_style" [] ;;
      col <- UILayout.column col [] ;;
      setattr col "enabled" (Qeq_bool (stroke_dryness gpl) 0) ;;
      UILayout.prop col gpl "scale_pigment_flow" [] ;;
      UILayout.prop col gpl "is_wetted" [] ;;

      setattr layout "use_property_split" true ;;
      UILayout.separator layout [] ;;
      col <- UILayout.column layout [] ;;
      UILayout.prop col gpl "opacity" [kw "text" "Opacity"; kw "slider" true] ;;
      col <- UILayout.column layout [kw "align" true] ;;
      UILayout.prop col gpl "watercolor_alpha_variation" [kw "slider" true] ;;
      UILayout.prop col gpl "watercolor_color_variation" [kw "slider" true] ;;

      sub <- UILayout.grid_flow layout [kw "columns" 1; kw "align" true] ;;
      col <- UILayout.column sub [] ;;
      setattr col "enabled" (Qeq_bool (stroke_dryness gpl) 0) ;;
      UILayout.prop col gpl "stroke_wetness" [kw "slider" true] ;;
      col <- UILayout.column sub [] ;;
      setattr col "enabled" true ;;
      UILayout.prop col gpl "stroke_dryness" [kw "slider" true])
  end.

Definition draw (self : Self) : M unit :=
  context <- context ;;
  let layout := layout self in
  setattr layout "use_property_decorate" false ;;

  let gpd := gpencil context in

  (* Grease Pencil data... *)
  match gpd with
  | None =>
      UILayout.operator layout "gpencil.layer_add" [kw "text" "New Layer"] ;;
      ret tt
  | Some gpd =>
      if negb (truthy (layers gpd)) then
        UILayout.operator layout "gpencil.layer_add" [kw "text" "New Layer"] ;;
        ret tt
      else
        draw_layers self layout gpd
  end.
End DATA_PT_gpencil_layers.

Module DATA_PT_gpencil_layer_default_render.
Definition poll := LayerDataButtonsPanel.poll.

Definition draw (self : Self) : M unit :=
  context <- context ;;
  let layout := layout self in
  setattr layout "use_property_split" true ;;
  setattr layout "use_property_decorate" true ;;

  let gpd := gpencil context in
  gpl <- getattr gpd "layers" (fun gpd => active (layers gpd)) ;;

  col <- UILayout.column layout [] ;;
  UILayout.prop col gpl "blend_mode" [] ;;
  UILayout.prop col gpl "use_lights" [].
End DATA_PT_gpencil_layer_default_render.

Module DATA_PT_gpencil_onion_skinning.
Definition poll := DataButtonsPanel.poll.

Definition draw (self : Self) : M unit :=
  context <- context ;;
  let gpd := gpencil context in

  let layout := layout self in
  setattr layout "use_property_split" true ;;

  col <- UILayout.column layout [] ;;
  UILayout.prop col gpd "onion_mode" [] ;;
  UILayout.prop col gpd "onion_factor" [kw "text" "Opacity"; kw "slider" true] ;;
  UILayout.prop col gpd "onion_keyframe_type" [] ;;

  gpd_onion_mode <- getattr gpd "onion_mode" onion_mode ;;
  if String.eqb gpd_onion_mode "ABSOLUTE" then
    col <- UILayout.column layout [kw "align" true] ;;
    UILayout.prop col gpd "ghost_before_range" [kw "text" "Frames Before"] ;;
    UILayout.prop col gpd "ghost_after_range" [kw "text" "Frames After"]
  else if String.eqb gpd_onion_mode "RELATIVE" then
    col <- UILayout.column layout [kw "align" true] ;;
    UILayout.prop col gpd "ghost_before_range" [kw "text" "Keyframes Before"] ;;
    UILayout.prop col gpd "ghost_after_range" [kw "text" "Keyframes After"]
  else ret tt.
End DATA_PT_gpencil_onion_skinning.

Module DATA_PT_gpencil_onion_skinning_custom_colors.
Definition poll := DataButtonsPanel.poll.

Definition draw_header (self : Self) : M unit :=
  context <- context ;;
  let gpd := gpencil context in

  UILayout.prop (layout self) gpd "use_ghost_custom_colors" [kw "text" ""].

Definition draw (self : Self) : M unit :=
  context <- context ;;
  let gpd := gpencil context in

  let layout := layout self in
  setattr layout "use_property_split" true ;;
  gpd_users <- getattr gpd "users" users ;;
  enabled <- (if gpd_users <=? 1
              then getattr gpd "use_ghost_custom_colors" use_ghost_custom_colors
              else ret false) ;;
  setattr layout "enabled" enabled ;;

  UILayout.prop layout gpd "before_color" [kw "text" "Before"] ;;
  UILayout.prop layout gpd "after_color" [kw "text" "After"].
End DATA_PT_gpencil_onion_skinning_custom_colors.

Module DATA_PT_gpencil_onion_skinning_display.
Definition poll := DataButtonsPanel.poll.

Definition draw (self : Self) : M unit :=
  context <- context ;;
  let gpd := gpencil context in

  let layout := layout self in
  setattr layout "use_property_split" true ;;
  gpd_users <- getattr gpd "users" users ;;
  setattr layout "enabled" (gpd_users <=? 1) ;;

  UILayout.prop layout gpd "use_ghosts_always" [kw "text" "View in Render"] ;;

  col <- UILayout.column layout [kw "align" true] ;;
  UILayout.prop col gpd "use_onion_fade" [kw "text" "Fade"] ;;
  sub <- UILayout.column layout [] ;;
  gpd_onion_mode <- getattr gpd "onion_mode" onion_mode ;;
  setattr sub "active"
    (String.eqb gpd_onion_mode "RELATIVE" || String.eqb gpd_onion_mode "SELECTED") ;;
  UILayout.prop sub gpd "use_onion_loop" [kw "text" "Show Start Frame"].
End DATA_PT_gpencil_onion_skinning_display.

Module GPENCIL_MT_gpencil_vertex_group.
Definition draw (self : Self) : M unit :=
  context <- context ;;
  let layout := layout self in

  setattr layout "operator_context" "EXEC_AREA" ;;
  UILayout.operator layout "object.vertex_group_add" [] ;;

  let ob := active_object context in
  ob_vertex_groups <- getattr ob "vertex_groups" vertex_groups ;;
  when (truthy (active ob_vertex_groups)) (
    UILayout.separator layout [] ;;

    UILayout.operator layout "gpencil.vertex_group_assign"
      [kw "text" "Assign to Active Group"] ;;
    UILayout.operator layout "gpencil.vertex_group_remove_from"
      [kw "text" "Remove from Active Group"] ;;

    UILayout.separator layout [] ;;
    UILayout.operator_menu_enum layout "object.vertex_group_set_active" "group"
      [kw "text" "Set Active Group"] ;;
    op <- UILayout.operator layout "object.vertex_group_remove"
            [kw "text" "Remove Active Group"] ;;
    setattr op "all" false ;;
    op <- UILayout.operator layout "object.vertex_group_remove"
            [kw "text" "Remove All Groups"] ;;
    setattr op "all" true ;;

    UILayout.separator layout [] ;;
    UILayout.operator layout "gpencil.vertex_group_select"
      [kw "text" "Select Points"] ;;
    UILayout.operator layout "gpencil.vertex_group_deselect"
      [kw "text" "Deselect Points"] ;;
    ret tt).
End GPENCIL_MT_gpencil_vertex_group.

Module GPENCIL_UL_vgroups.
Definition draw_item (self : Self) (layout : handle) (item : VertexGroup)
    (icon : Z) : M unit :=
  let vgroup := item in
  if String.eqb (layout_type self) "DEFAULT"
     || String.eqb (layout_type self) "COMPACT" then
    UILayout.prop layout vgroup "name"
      [kw "text" ""; kw "emboss" false; kw "icon_value" icon] ;;
    let icon := if lock_weight vgroup then "LOCKED" else "UNLOCKED" in
    UILayout.prop layout vgroup "lock_weight"
      [kw "text" ""; kw "icon" icon; kw "emboss" false]
  else if String.eqb (layout_type self) "GRID" then
    setattr layout "alignment" "CENTER" ;;
    UILayout.label layout [kw "text" ""; kw "icon_value" icon]
  else ret tt.
End GPENCIL_UL_vgroups.

Module DATA_PT_gpencil_vertex_groups.
Definition poll := ObjectButtonsPanel.poll.

Definition draw (self : Self) : M unit :=
  context <- context ;;
  let layout := layout self in

  let ob := object context in
  ob_vertex_groups <- getattr ob "vertex_groups" vertex_groups ;;
  let group := active ob_vertex_groups in

  let rows := 2 in
  let rows := if truthy group then 4 else rows in

  row <- UILayout.row layout [] ;;
  UILayout.template_list row "GPENCIL_UL_vgroups" "" ob "vertex_groups"
    ob_vertex_groups "active_index" [kw "rows" rows] ;;

  col <- UILayout.column row [kw "align" true] ;;
  UILayout.operator col "object.vertex_group_add" [kw "icon" "ADD"; kw "text" ""] ;;
  op <- UILayout.operator col "object.vertex_group_remove"
          [kw "icon" "REMOVE"; kw "text" ""] ;;
  setattr op "all" false ;;

  when (truthy group) (
    UILayout.separator col [] ;;
    op <- UILayout.operator col "object.vertex_group_move"
            [kw "icon" "TRIA_UP"; kw "text" ""] ;;
    setattr op "direction" "UP" ;;
    op <- UILayout.operator col "object.vertex_group_move"
            [kw "icon" "TRIA_DOWN"; kw "text" ""] ;;
    setattr op "direction" "DOWN") ;;

  when (truthy ob_vertex_groups) (
    row <- UILayout.row layout [] ;;

    sub <- UILayout.row row [kw "align" true] ;;
    UILayout.operator sub "gpencil.vertex_group_assign" [kw "text" "Assign"] ;;
    UILayout.operator sub "gpencil.vertex_group_remove_from" [kw "text" "Remove"] ;;

    sub <- UILayout.row row [kw "align" true] ;;
    UILayout.operator sub "gpencil.vertex_group_select" [kw "text" "Select"] ;;
    UILayout.operator sub "gpencil.vertex_group_deselect" [kw "text" "Deselect"] ;;

    UILayout.prop layout (ctx_tool_settings context) "vertex_group_weight"
      [kw "text" "Weight"]).
End DATA_PT_gpencil_vertex_groups.

Module DATA_MT_morph_targets_context_menu.
Definition draw (self : Self) : M unit :=
  let layout := layout self in

  UILayout.operator layout "gpencil.morph_target_duplicate"
    [kw "icon" "DUPLICATE"; kw "text" "Duplicate"] ;;
  UILayout.separator layout [] ;;
  UILayout.operator layout "gpencil.morph_target_remove_all"
    [kw "icon" "X"; kw "text" "Delete All"] ;;
  UILayout.operator layout "gpencil.morph_target_apply_all"
    [kw "icon" "NODE_COMPOSITING"; kw "text" "Apply All"] ;;
  ret tt.
End DATA_MT_morph_targets_context_menu.

Module DATA_PT_gpencil_morph_targets.
Definition poll := DataButtonsPanel.poll.

Definition draw (self : Self) : M unit :=
  context <- context ;;
  let layout := layout self in

  let gpd := gpencil context in
  gpd_morph_targets <- getattr gpd "morph_targets" morph_targets ;;
  let gpmt := active gpd_morph_targets in

  row <- UILayout.row layout [] ;;
  let mt_rows := 6 in

  col <- UILayout.column row [] ;;
  UILayout.template_list col "GPENCIL_UL_morph_target" "" gpd "morph_targets"
    gpd_morph_targets "active_index"
    [kw "rows" mt_rows; kw "sort_reverse" false] ;;

  col <- UILayout.column row [] ;;
  sub <- UILayout.column col [kw "align" true] ;;
  UILayout.operator sub "gpencil.morph_target_add" [kw "icon" "ADD"; kw "text" ""] ;;
  UILayout.operator sub "gpencil.morph_target_remove"
    [kw "icon" "REMOVE"; kw "text" ""] ;;

  when (truthy gpmt) (
    UILayout.separator col [] ;;
    op <- UILayout.operator col "gpencil.morph_target_move"
            [kw "icon" "TRIA_UP"; kw "text" ""] ;;
    setattr op "direction" "UP" ;;
    op <- UILayout.operator col "gpencil.morph_target_move"
            [kw "icon" "TRIA_DOWN"; kw "text" ""] ;;
    setattr op "direction" "DOWN") ;;

  UILayout.separator sub [] ;;
  UILayout.menu sub "DATA_MT_morph_targets_context_menu"
    [kw "icon" "DOWNARROW_HLT"; kw "text" ""] ;;

  match gpmt with
  | None => ret tt
  | Some gpmt =>
    row <- UILayout.row layout [] ;;
    sub <- UILayout.column row [] ;;
    gpd_in_morph_edit_mode <- getattr gpd "in_morph_edit_mode" in_morph_edit_mode ;;
    setattr sub "active" (negb gpd_in_morph_edit_mode) ;;
    UILayout.operator sub "gpencil.morph_target_edit" [kw "text" "Edit"] ;;
    sub <- UILayout.column row [] ;;
    gpd_in_morph_edit_mode <- getattr gpd "in_morph_edit_mode" in_morph_edit_mode ;;
    setattr sub "active" gpd_in_morph_edit_mode ;;
    sub_active <- readattr sub "active" ;;
    UILayout.operator sub "gpencil.morph_target_edit_finish"
      [kw "text" "Finish Edit"; kw "depress" sub_active] ;;

    sub_active <- readattr sub "active" ;;
    when (truthy sub_active) (
      row <- UILayout.row layout [] ;;
      UILayout.label row
        [kw "text" "Note: do not add or remove points while editing.";
         kw "icon" "INFO"]) ;;

    setattr layout "use_property_split" true ;;
    UILayout.separator layout [] ;;
    col <- UILayout.column layout [] ;;
    UILayout.prop col gpmt "value" [kw "slider" true] ;;

    col <- UILayout.column layout [kw "align" true] ;;
    UILayout.prop col gpmt "slider_min" [kw "text" "Range Min"] ;;
    UILayout.prop col gpmt "slider_max" [kw "text" "Max"] ;;

    when (morphed_layer_order gpmt) (
      UILayout.separator layout [] ;;
      col <- UILayout.column layout [kw "align" true] ;;
      UILayout.prop col gpmt "layer_order_compare" [] ;;
      UILayout.prop col gpmt "layer_order_value" [kw "text" " "; kw "slider" true])
  end.
End DATA_PT_gpencil_morph_targets.

Module DATA_PT_gpencil_strokes.
Definition poll := DataButtonsPanel.poll.

Definition draw (self : Self) : M unit :=
  context <- context ;;
  let layout := layout self in
  setattr layout "use_property_split" true ;;
  setattr layout "use_property_decorate" false ;;

  let ob := object context in
  let gpd := gpencil context in

  col <- UILayout.column layout [kw "align" true] ;;
  UILayout.prop col gpd "stroke_depth_order" [] ;;

  match ob with
  | Some ob => setattr col "enabled" (negb (show_in_front ob))
  | None => ret tt
  end ;;

  col <- UILayout.column layout [kw "align" true] ;;
  UILayout.prop col gpd "stroke_thickness_space" [] ;;
  sub <- UILayout.column col [] ;;
  gpd_stroke_thickness_space <-
    getattr gpd "stroke_thickness_space" stroke_thickness_space ;;
  setattr sub "active" (String.eqb gpd_stroke_thickness_space "WORLDSPACE") ;;
  UILayout.prop sub gpd "pixel_factor" [kw "text" "Thickness Scale"] ;;

  UILayout.prop col gpd "edit_curve_resolution" [].
End DATA_PT_gpencil_strokes.

Module DATA_PT_gpencil_display.
Definition poll := DataButtonsPanel.poll.

Definition draw (self : Self) : M unit :=
  context <- context ;;
  let layout := layout self in
  setattr layout "use_property_split" true ;;
  setattr layout "use_property_decorate" false ;;

  let gpd := gpencil context in

  UILayout.prop layout gpd "edit_line_color" [kw "text" "Edit Line Color"].
End DATA_PT_gpencil_display.

Module DATA_PT_gpencil_canvas.
Definition poll := DataButtonsPanel.poll.

Definition draw (self : Self) : M unit :=
  context <- context ;;
  let layout := layout self in
  setattr layout "use_property_split" true ;;
  setattr layout "use_property_decorate" false ;;
  let gpd := gpencil context in
  grid <- getattr gpd "grid" grid ;;

  row <- UILayout.row layout [kw "align" true] ;;
  col <- UILayout.column row [] ;;
  UILayout.prop col grid "color" [kw "text" "Color"] ;;
  UILayout.prop col grid "scale" [kw "text" "Scale"] ;;
  UILayout.prop col grid "offset" [] ;;
  row <- UILayout.row layout [kw "align" true] ;;
  col <- UILayout.column row [] ;;
  UILayout.prop col grid "lines" [kw "text" "Subdivisions"].
End DATA_PT_gpencil_canvas.

(** The layer sub-panels whose [draw] comes from mix-ins of
    [bl_ui.properties_grease_pencil_common]; [LayerDataButtonsPanel] is the
    first base, so its [poll] is the one the class has. *)
Module DATA_PT_gpencil_layer_masks.
Definition poll := LayerDataButtonsPanel.poll.
End DATA_PT_gpencil_layer_masks.

Module DATA_PT_gpencil_layer_transform.
Definition poll := LayerDataButtonsPanel.poll.
End DATA_PT_gpencil_layer_transform.

Module DATA_PT_gpencil_layer_adjustments.
Definition poll := LayerDataButtonsPanel.poll.
End DATA_PT_gpencil_layer_adjustments.

Module DATA_PT_gpencil_layer_relations.
Definition poll := LayerDataButtonsPanel.poll.
End DATA_PT_gpencil_layer_relations.

Module DATA_PT_gpencil_layer_display.
Definition poll := LayerDataButtonsPanel.poll.
End DATA_PT_gpencil_layer_display.

Module DATA_PT_custom_props_gpencil.
Definition poll := DataButtonsPanel.poll.
End DATA_PT_custom_props_gpencil.

(** ** properties_material_gpencil.py *)

Module GPENCIL_MT_material_context_menu.
Definition draw (self : Self) : M unit :=
  let layout := layout self in
  UILayout.operator layout "grease_pencil.material_reveal"
    [kw "icon" "RESTRICT_VIEW_OFF"; kw "text" "Show All"] ;;
  op <- UILayout.operator layout "grease_pencil.material_hide"
          [kw "icon" "RESTRICT_VIEW_ON"; kw "text" "Hide Others"] ;;
  setattr op "invert" true ;;

  UILayout.separator layout [] ;;

  UILayout.operator layout "grease_pencil.material_lock_all"
    [kw "icon" "LOCKED"; kw "text" "Lock All"] ;;
  UILayout.operator layout "grease_pencil.material_unlock_all"
    [kw "icon" "UNLOCKED"; kw "text" "Unlock All"] ;;
  UILayout.operator layout "grease_pencil.material_lock_unselected"
    [kw "text" "Lock Unselected"] ;;
  UILayout.operator layout "grease_pencil.material_lock_unused"
    [kw "text" "Lock Unused"] ;;

  UILayout.separator layout [] ;;

  op <- UILayout.operator layout "grease_pencil.material_copy_to_object"
          [kw "text" "Copy Material to Selected"] ;;
  setattr op "only_active" true ;;
  op <- UILayout.operator layout "grease_pencil.material_copy_to_object"
          [kw "text" "Copy All Materials to Selected"] ;;
  setattr op "only_active" false ;;

  UILayout.operator layout "object.material_slot_remove_unused" [] ;;
  ret tt.
End GPENCIL_MT_material_context_menu.

Module GPENCIL_UL_matslots.
Definition draw_item (self : Self) (layout : handle) (item : MaterialSlot)
    (icon : Z) : M unit :=
  let slot := item in
  let ma := material slot in

  if String.eqb (layout_type self) "DEFAULT"
     || String.eqb (layout_type self) "COMPACT" then
    row <- UILayout.row layout [kw "align" true] ;;
    UILayout.label row [kw "text" ""; kw "icon_value" icon] ;;

    match ma with
    | None => ret tt
    | Some ma =>
      match grease_pencil ma with
      | None => ret tt
      | Some gpcolor =>
        row <- UILayout.row layout [kw "align" true] ;;
        setattr row "enabled" (negb (lock gpcolor)) ;;
        UILayout.prop row ma "name"
          [kw "text" ""; kw "emboss" false; kw "icon" "NONE"] ;;

        row <- UILayout.row layout [kw "align" true] ;;

        let icon := if ghost gpcolor then "ONIONSKIN_OFF" else "ONIONSKIN_ON" in
        UILayout.prop row gpcolor "ghost"
          [kw "text" ""; kw "icon" icon; kw "emboss" false] ;;
        UILayout.prop row gpcolor "hide" [kw "text" ""; kw "emboss" false] ;;
        UILayout.prop row gpcolor "lock" [kw "text" ""; kw "emboss" false]
      end
    end
  else if String.eqb (layout_type self) "GRID" then
    setattr layout "alignment" "CENTER" ;;
    UILayout.label layout [kw "text" ""; kw "icon_value" icon]
  else ret tt.
End GPENCIL_UL_matslots.

Module GPMaterialButtonsPanel.
Definition poll : M PyVal :=
  context <- context ;;
  let ma := ctx_material context in
  ret (and_then ma (fun ma => to_py (grease_pencil ma))).
End GPMaterialButtonsPanel.

Module MATERIAL_PT_gpencil_slots.
Definition poll : M PyVal :=
  context <- context ;;
  let ma := ctx_material context in
  let found_material := and_then ma (fun ma => to_py (grease_pencil ma)) in
  let found_object :=
    and_then (object context)
             (fun ob => VBool (String.eqb (type ob) "GREASEPENCIL")) in
  ret (py_or found_material found_object).
End MATERIAL_PT_gpencil_slots.

Module MATERIAL_PT_gpencil_surface.
Definition poll := GPMaterialButtonsPanel.poll.

Definition draw (self : Self) : M unit :=
  context <- context ;;
  let layout := layout self in
  setattr layout "use_property_split" true ;;

  let ma := ctx_material context in
  match ma with
  | None => ret tt
  | Some ma =>
    match grease_pencil ma with
    | None => ret tt
    | Some ma_grease_pencil =>
        UILayout.prop layout ma_grease_pencil "stroke_wetness" []
    end
  end.
End MATERIAL_PT_gpencil_surface.

Module GPMaterialColorPalettePanel.
Definition set_shaded_color_palette_width (self : Self) (layout : handle)
    (paint : option Paint) : M unit :=
  palette <- getattr paint "palette" palette ;;
  match palette with
  | None => ret tt
  | Some palette =>
      if shader_count palette =? 0 then ret tt
      else
        setattr layout "ui_units_x"
          (if shader_count palette >=? 10 then shader_count palette
           else 2 * shader_count palette)
  end.

(** The three palette pop-overs differ only in [target_property]. *)
Definition draw_palette (target_property : string) (self : Self) : M unit :=
  context <- context ;;
  let layout := layout self in
  let paint := gpencil_paint (tool_settings (scene context)) in
  gpcolor <- getattr (ctx_material context) "grease_pencil" grease_pencil ;;
  set_shaded_color_palette_width self layout paint ;;

  UILayout.template_ID layout paint "palette" [kw "new" "palette.new"] ;;
  paint_palette <- getattr paint "palette" palette ;;
  when (truthy paint_palette) (
    UILayout.template_palette layout paint "palette"
      [kw "target" gpcolor; kw "target_property" target_property]).
End GPMaterialColorPalettePanel.

Module MATERIAL_PT_gpencil_strokecolor_palette.
Definition draw := GPMaterialColorPalettePanel.draw_palette "color".
End MATERIAL_PT_gpencil_strokecolor_palette.

Module MATERIAL_PT_gpencil_fillcolor_palette.
Definition draw := GPMaterialColorPalettePanel.draw_palette "fill_color".
End MATERIAL_PT_gpencil_fillcolor_palette.

Module MATERIAL_PT_gpencil_mixcolor_palette.
Definition draw := GPMaterialColorPalettePanel.draw_palette "mix_color".
End MATERIAL_PT_gpencil_mixcolor_palette.

Module MATERIAL_PT_gpencil_strokecolor.
Definition poll := GPMaterialButtonsPanel.poll.

Definition draw_header (self : Self) : M unit :=
  context <- context ;;
  let ma := ctx_material context in
  match ma with
  | None => ret tt
  | Some ma =>
    match grease_pencil ma with
    | None => ret tt
    | Some gpcolor =>
        UILayout.prop (layout self) gpcolor "show_stroke" [kw "text" ""]
    end
  end.

Definition draw (self : Self) : M unit :=
  context <- context ;;
  let layout := layout self in
  setattr layout "use_property_split" true ;;

  let ma := ctx_material context in
  match ma with
  | None => ret tt
  | Some ma =>
    match grease_pencil ma with
    | None => ret tt
    | Some gpcolor =>
      col <- UILayout.column layout [] ;;

      UILayout.prop col gpcolor "mode" [] ;;

      UILayout.prop col gpcolor "stroke_style" [kw "text" "Style"] ;;

      row <- UILayout.row col [kw "heading" "Base Color"; kw "align" true] ;;
      UILayout.popover row
        [kw "panel" "MATERIAL_PT_gpencil_strokecolor_palette";
         kw "icon" "COLOR"; kw "text" ""] ;;
      row2 <- UILayout.row row [kw "align" true] ;;
      UILayout.prop row2 gpcolor "color" [kw "text" ""] ;;
      UILayout.prop_decorator row2 gpcolor "color" ;;

      when (String.eqb (stroke_style gpcolor) "TEXTURE") (
        UILayout.separator layout [] ;;
        col <- UILayout.column layout [] ;;
        row <- UILayout.row col [] ;;
        col <- UILayout.column row [kw "align" true] ;;
        UILayout.template_ID col gpcolor "stroke_image" [kw "open" "image.open"] ;;

        col <- UILayout.column layout [] ;;
        setattr col "enabled" (negb (lock gpcolor)) ;;
        UILayout.prop col gpcolor "mix_stroke_factor"
          [kw "text" "Blend"; kw "slider" true] ;;
        UILayout.prop col gpcolor "texture_density" [kw "slider" true] ;;

        UILayout.separator col [] ;;
        UILayout.prop col gpcolor "alignment_rotation" [kw "text" "Angle"] ;;
        UILayout.prop col gpcolor "texture_angle_variation" [] ;;
        UILayout.prop col gpcolor "smooth_texture" [])
    end
  end.
End MATERIAL_PT_gpencil_strokecolor.

Module MATERIAL_PT_gpencil_strokecolor_default.
Definition poll := GPMaterialButtonsPanel.poll.

Definition draw (self : Self) : M unit :=
  context <- context ;;
  let layout := layout self in
  setattr layout "use_property_split" true ;;

  let ma := ctx_material context in
  match ma with
  | None => ret tt
  | Some ma =>
    match grease_pencil ma with
    | None => ret tt
    | Some gpcolor =>
      col <- UILayout.column layout [] ;;
      setattr col "enabled" (negb (lock gpcolor)) ;;

      when (String.eqb (mode gpcolor) "DOTS" || String.eqb (mode gpcolor) "BOX") (
        UILayout.prop col gpcolor "alignment_mode" []) ;;

      when (String.eqb (stroke_style gpcolor) "TEXTURE"
            && String.eqb (mode gpcolor) "LINE") (
        UILayout.prop col gpcolor "pixel_size" [kw "text" "UV Factor"]) ;;

      UILayout.prop col gpcolor "use_stroke_holdout" [] ;;

      when (String.eqb (mode gpcolor) "LINE") (
        UILayout.prop col gpcolor "use_overlap_strokes" [])
    end
  end.
End MATERIAL_PT_gpencil_strokecolor_default.

Module MATERIAL_PT_gpencil_fillcolor.
Definition poll := GPMaterialButtonsPanel.poll.

Definition draw_header (self : Self) : M unit :=
  context <- context ;;
  let ma := ctx_material context in
  gpcolor <- getattr ma "grease_pencil" grease_pencil ;;
  UILayout.prop (layout self) gpcolor "show_fill" [kw "text" ""].

Definition draw (self : Self) : M unit :=
  context <- context ;;
  let layout := layout self in
  setattr layout "use_property_split" true ;;

  let ma := ctx_material context in
  gpcolor <- getattr ma "grease_pencil" grease_pencil ;;

  (* color settings *)
  col <- UILayout.column layout [] ;;
  UILayout.prop col gpcolor "fill_style" [kw "text" "Style"] ;;

  gpcolor_fill_style <- getattr gpcolor "fill_style" fill_style ;;
  when (String.eqb gpcolor_fill_style "GRADIENT") (
    UILayout.prop col gpcolor "gradient_type" []) ;;

  gpcolor_fill_style <- getattr gpcolor "fill_style" fill_style ;;
  when (String.eqb gpcolor_fill_style "GRADIENT"
        || String.eqb gpcolor_fill_style "SOLID") (
    row <- UILayout.row col [kw "heading" "Base Color"; kw "align" true] ;;
    UILayout.popover row
      [kw "panel" "MATERIAL_PT_gpencil_fillcolor_palette";
       kw "icon" "COLOR"; kw "text" ""] ;;
    row2 <- UILayout.row row [kw "align" true] ;;
    UILayout.prop row2 gpcolor "fill_color" [kw "text" ""] ;;
    UILayout.prop_decorator row2 gpcolor "fill_color") ;;

  gpcolor_fill_style <- getattr gpcolor "fill_style" fill_style ;;
  when (String.eqb gpcolor_fill_style "GRADIENT") (
    row <- UILayout.row col [kw "heading" "Secondary Color"; kw "align" true] ;;
    UILayout.popover row
      [kw "panel" "MATERIAL_PT_gpencil_mixcolor_palette";
       kw "icon" "COLOR"; kw "text" ""] ;;
    row2 <- UILayout.row row [kw "align" true] ;;
    UILayout.prop row2 gpcolor "mix_color" [kw "text" ""] ;;
    UILayout.prop_decorator row2 gpcolor "mix_color" ;;

    UILayout.prop col gpcolor "mix_factor" [kw "text" "Blend"; kw "slider" true] ;;
    UILayout.prop col gpcolor "flip" [kw "text" "Flip Colors"]).
End MATERIAL_PT_gpencil_fillcolor.

Module MATERIAL_PT_gpencil_fillcolor_ondine.
Definition poll : M PyVal :=
  context <- context ;;
  let ma := ctx_material context in
  match ma with
  | None => ret (VBool false)
  | Some ma =>
    match grease_pencil ma with
    | None => ret (VBool false)
    | Some gpcolor => ret (VBool (String.eqb (fill_style gpcolor) "GRADIENT"))
    end
  end.

Definition draw (self : Self) : M unit :=
  context <- context ;;
  let layout := layout self in
  setattr layout "use_property_split" true ;;

  let ma := ctx_material context in
  gpcolor <- getattr ma "grease_pencil" grease_pencil ;;

  col <- UILayout.column layout [] ;;
  gpcolor_lock <- getattr gpcolor "lock" lock ;;
  setattr col "enabled" (negb gpcolor_lock) ;;

  gpcolor_fill_style <- getattr gpcolor "fill_style" fill_style ;;
  when (String.eqb gpcolor_fill_style "GRADIENT") (
    gpcolor_gradient_type <- getattr gpcolor "gradient_type" gradient_type ;;
    if String.eqb gpcolor_gradient_type "LINEAR" then
      UILayout.prop col gpcolor "texture_angle" [kw "text" "Rotation"] ;;

      col <- UILayout.column layout [kw "align" true] ;;
      gpcolor_lock <- getattr gpcolor "lock" lock ;;
      setattr col "enabled" (negb gpcolor_lock) ;;
      UILayout.prop col gpcolor "ondine_gradient_offset"
        [kw "text" "Base Offset"; kw "index" 0] ;;
      UILayout.prop col gpcolor "ondine_gradient_offset"
        [kw "text" "Secondary"; kw "index" 1]
    else
      UILayout.prop col gpcolor "ondine_gradient_offset" [kw "text" "Offset"] ;;
      UILayout.prop col gpcolor "ondine_gradient_scale" [kw "text" "Scale"]).
End MATERIAL_PT_gpencil_fillcolor_ondine.

Module MATERIAL_PT_gpencil_fillcolor_default.
Definition poll := GPMaterialButtonsPanel.poll.

Definition draw (self : Self) : M unit :=
  context <- context ;;
  let layout := layout self in
  setattr layout "use_property_split" true ;;

  let ma := ctx_material context in
  match ma with
  | None => ret tt
  | Some ma =>
    match grease_pencil ma with
    | None => ret tt
    | Some gpcolor =>
      col <- UILayout.column layout [] ;;
      setattr col "enabled" (negb (lock gpcolor)) ;;

      if String.eqb (fill_style gpcolor) "GRADIENT" then
        UILayout.prop col gpcolor "texture_offset" [kw "text" "Location"] ;;

        row <- UILayout.row col [] ;;
        setattr row "enabled" (String.eqb (gradient_type gpcolor) "LINEAR") ;;
        UILayout.prop row gpcolor "texture_angle" [kw "text" "Rotation"] ;;
        UILayout.prop col gpcolor "texture_scale" [kw "text" "Scale"] ;;
        UILayout.prop col gpcolor "use_fill_holdout" []

      else if String.eqb (fill_style gpcolor) "SOLID" then
        UILayout.prop col gpcolor "use_fill_holdout" []

      else if String.eqb (fill_style gpcolor) "TEXTURE" then
        row <- UILayout.row col [kw "heading" "Base Color"; kw "align" true] ;;
        UILayout.popover row
          [kw "panel" "MATERIAL_PT_gpencil_fillcolor_palette";
           kw "icon" "COLOR"; kw "text" ""] ;;
        row2 <- UILayout.row row [kw "align" true] ;;
        UILayout.prop row2 gpcolor "fill_color" [kw "text" ""] ;;
        UILayout.prop_decorator row2 gpcolor "fill_color" ;;

        UILayout.prop col gpcolor "use_fill_holdout" [] ;;

        UILayout.separator col [] ;;
        UILayout.template_ID col gpcolor "fill_image" [kw "open" "image.open"] ;;

        UILayout.prop col gpcolor "mix_factor" [kw "text" "Blend"; kw "slider" true] ;;

        UILayout.prop col gpcolor "texture_offset" [kw "text" "Location"] ;;
        UILayout.prop col gpcolor "texture_angle" [kw "text" "Rotation"] ;;
        UILayout.prop col gpcolor "texture_scale" [kw "text" "Scale"] ;;
        UILayout.prop col gpcolor "texture_clamp" [kw "text" "Clip Image"]
      else ret tt
    end
  end.
End MATERIAL_PT_gpencil_fillcolor_default.

Module MATERIAL_PT_gpencil_preview.
Definition poll := GPMaterialButtonsPanel.poll.

Definition draw (self : Self) : M unit :=
  context <- context ;;
  let ma := ctx_material context in
  UILayout.template_preview (layout self) ma.
End MATERIAL_PT_gpencil_preview.

Module MATERIAL_PT_gpencil_settings.
Definition poll := GPMaterialButtonsPanel.poll.

Definition draw (self : Self) : M unit :=
  context <- context ;;
  let layout := layout self in
  setattr layout "use_property_split" true ;;

  let ma := ctx_material context in
  gpcolor <- getattr ma "grease_pencil" grease_pencil ;;
  UILayout.prop layout gpcolor "pass_index" [].
End MATERIAL_PT_gpencil_settings.

(** Panels whose [draw] comes from [PropertyPanel] / the animation mix-in. *)
Module MATERIAL_PT_gpencil_animation.
Definition poll := GPMaterialButtonsPanel.poll.
End MATERIAL_PT_gpencil_animation.

Module MATERIAL_PT_gpencil_custom_props.
Definition poll := GPMaterialButtonsPanel.poll.
End MATERIAL_PT_gpencil_custom_props.

(** ** The registered classes *)

(** A panel or menu class as the host sees it: the [poll] it resolves to
    (if the class has one) and the draw methods defined in these files. *)
Record Class := {
  bl_name : string;
  cls_poll : option (M PyVal);
  cls_draw : option (Self -> M unit);
  cls_draw_header : option (Self -> M unit)
}.

Definition panel (name : string) (poll : M PyVal) (draw : Self -> M unit) : Class :=
  {| bl_name := name; cls_poll := Some poll; cls_draw := Some draw;
     cls_draw_header := None |}.

Definition panel_with_header (name : string) (poll : M PyVal)
    (draw_header draw : Self -> M unit) : Class :=
  {| bl_name := name; cls_poll := Some poll; cls_draw := Some draw;
     cls_draw_header := Some draw_header |}.

(** A panel whose [draw] is inherited from a mix-in defined elsewhere. *)
Definition panel_external_draw (name : string) (poll : M PyVal) : Class :=
  {| bl_name := name; cls_poll := Some poll; cls_draw := None;
     cls_draw_header := None |}.

(** A menu or pop-over: no [poll]. *)
Definition unpolled (name : string) (draw : Self -> M unit) : Class :=
  {| bl_name := name; cls_poll := None; cls_draw := Some draw;
     cls_draw_header := None |}.

Definition layer_sub_panels : list Class :=
  [ panel_external_draw "DATA_PT_gpencil_layer_masks"
      DATA_PT_gpencil_layer_masks.poll;
    panel "DATA_PT_gpencil_layer_default_render"
      DATA_PT_gpencil_layer_default_render.poll
      DATA_PT_gpencil_layer_default_render.draw;
    panel_external_draw "DATA_PT_gpencil_layer_transform"
      DATA_PT_gpencil_layer_transform.poll;
    panel_external_draw "DATA_PT_gpencil_layer_adjustments"
      DATA_PT_gpencil_layer_adjustments.poll;
    panel_external_draw "DATA_PT_gpencil_layer_relations"
      DATA_PT_gpencil_layer_relations.poll;
    panel_external_draw "DATA_PT_gpencil_layer_display"
      DATA_PT_gpencil_layer_display.poll ].

(** [classes] of properties_data_gpencil.py, without the list type. *)
Definition data_classes : list Class :=
  [ panel "DATA_PT_context_gpencil"
      DATA_PT_context_gpencil.poll DATA_PT_context_gpencil.draw;
    panel "DATA_PT_gpencil_layers"
      DATA_PT_gpencil_layers.poll DATA_PT_gpencil_layers.draw;
    panel "DATA_PT_gpencil_onion_skinning"
      DATA_PT_gpencil_onion_skinning.poll DATA_PT_gpencil_onion_skinning.draw;
    panel_with_header "DATA_PT_gpencil_onion_skinning_custom_colors"
      DATA_PT_gpencil_onion_skinning_custom_colors.poll
      DATA_PT_gpencil_onion_skinning_custom_colors.draw_header
      DATA_PT_gpencil_onion_skinning_custom_colors.draw;
    panel "DATA_PT_gpencil_onion_skinning_display"
      DATA_PT_gpencil_onion_skinning_display.poll
      DATA_PT_gpencil_onion_skinning_display.draw ]
  ++ layer_sub_panels ++
  [ panel "DATA_PT_gpencil_vertex_groups"
      DATA_PT_gpencil_vertex_groups.poll DATA_PT_gpencil_vertex_groups.draw;
    panel "DATA_PT_gpencil_morph_targets"
      DATA_PT_gpencil_morph_targets.poll DATA_PT_gpencil_morph_targets.draw;
    panel "DATA_PT_gpencil_strokes"
      DATA_PT_gpencil_strokes.poll DATA_PT_gpencil_strokes.draw;
    panel "DATA_PT_gpencil_display"
      DATA_PT_gpencil_display.poll DATA_PT_gpencil_display.draw;
    panel "DATA_PT_gpencil_canvas"
      DATA_PT_gpencil_canvas.poll DATA_PT_gpencil_canvas.draw;
    panel_external_draw "DATA_PT_custom_props_gpencil"
      DATA_PT_custom_props_gpencil.poll;
    unpolled "GPENCIL_MT_layer_context_menu" GPENCIL_MT_layer_context_menu.draw;
    unpolled "GPENCIL_MT_gpencil_vertex_group" GPENCIL_MT_gpencil_vertex_group.draw;
    unpolled "DATA_MT_morph_targets_context_menu"
      DATA_MT_morph_targets_context_menu.draw ].

(** [classes] of properties_material_gpencil.py, without the list type and
    the preset panel, which defines no method of its own. *)
Definition material_classes : list Class :=
  [ unpolled "GPENCIL_MT_material_context_menu"
      GPENCIL_MT_material_context_menu.draw;
    panel_external_draw "MATERIAL_PT_gpencil_slots" MATERIAL_PT_gpencil_slots.poll;
    panel "MATERIAL_PT_gpencil_preview"
      MATERIAL_PT_gpencil_preview.poll MATERIAL_PT_gpencil_preview.draw;
    panel "MATERIAL_PT_gpencil_surface"
      MATERIAL_PT_gpencil_surface.poll MATERIAL_PT_gpencil_surface.draw;
    panel_with_header "MATERIAL_PT_gpencil_strokecolor"
      MATERIAL_PT_gpencil_strokecolor.poll
      MATERIAL_PT_gpencil_strokecolor.draw_header
      MATERIAL_PT_gpencil_strokecolor.draw;
    panel "MATERIAL_PT_gpencil_strokecolor_default"
      MATERIAL_PT_gpencil_strokecolor_default.poll
      MATERIAL_PT_gpencil_strokecolor_default.draw;
    unpolled "MATERIAL_PT_gpencil_strokecolor_palette"
      MATERIAL_PT_gpencil_strokecolor_palette.draw;
    panel_with_header "MATERIAL_PT_gpencil_fillcolor"
      MATERIAL_PT_gpencil_fillcolor.poll
      MATERIAL_PT_gpencil_fillcolor.draw_header
      MATERIAL_PT_gpencil_fillcolor.draw;
    panel "MATERIAL_PT_gpencil_fillcolor_ondine"
      MATERIAL_PT_gpencil_fillcolor_ondine.poll
      MATERIAL_PT_gpencil_fillcolor_ondine.draw;
    panel "MATERIAL_PT_gpencil_fillcolor_default"
      MATERIAL_PT_gpencil_fillcolor_default.poll
      MATERIAL_PT_gpencil_fillcolor_default.draw;
    unpolled "MATERIAL_PT_gpencil_fillcolor_palette"
      MATERIAL_PT_gpencil_fillcolor_palette.draw;
    unpolled "MATERIAL_PT_gpencil_mixcolor_palette"
      MATERIAL_PT_gpencil_mixcolor_palette.draw;
    panel "MATERIAL_PT_gpencil_settings"
      MATERIAL_PT_gpencil_settings.poll MATERIAL_PT_gpencil_settings.draw;
    panel_external_draw "MATERIAL_PT_gpencil_animation"
      MATERIAL_PT_gpencil_animation.poll;
    panel_external_draw "MATERIAL_PT_gpencil_custom_props"
      MATERIAL_PT_gpencil_custom_props.poll ].

Definition morph_targets_classes : list Class :=
  [ panel "GPENCIL_PT_MorphTargetsNPanel"
      GPENCIL_PT_MorphTargetsNPanel.poll GPENCIL_PT_MorphTargetsNPanel.draw ].

Definition shape_keys_classes : list Class :=
  [ panel "GREASE_PENCIL_PT_ShapeKeysNPanel"
      GREASE_PENCIL_PT_ShapeKeysNPanel.poll GREASE_PENCIL_PT_ShapeKeysNPanel.draw ].

Definition all_classes : list Class :=
  morph_targets_classes ++ shape_keys_classes ++ data_classes ++ material_classes.

(** Every [draw] and [draw_header] defined in the four files. *)
Definition draw_methods_of (c : Class) : list (Self -> M unit) :=
  match cls_draw c with Some d => [d] | None => [] end
  ++ match cls_draw_header c with Some d => [d] | None => [] end.

Definition all_draw_methods : list (Self -> M unit) :=
  flat_map draw_methods_of all_classes.

(** ** Running a method *)

(** The layout the host hands to a draw method: empty, with handle 0. *)
Definition root_layout : Item := ILayout 0%nat "layout" [] [].

Definition fresh (ctx : Context) : World :=
  {| model := ctx; ui := [root_layout] |}.

Definition self0 : Self := {| layout := 0%nat; layout_type := "DEFAULT" |}.

Definition result {A} (m : M A) (ctx : Context) : Res A := fst (m (fresh ctx)).

(** What a method has put into the fresh layout. *)
Definition drawn {A} (m : M A) (ctx : Context) : list Item :=
  skipn 1 (ui (snd (m (fresh ctx)))).

(** The host draws a panel when its [poll] returns a true value; a class
    without [poll] is not filtered. *)
Definition visible (c : Class) (ctx : Context) : bool :=
  match cls_poll c with
  | None => true
  | Some poll => match result poll ctx with
                 | Ok v => truthy v
                 | Raise _ => false
                 end
  end.

(** Projections of the drawn items that the statements below talk about. *)
Definition filter_map {A B} (f : A -> option B) (l : list A) : list B :=
  flat_map (fun a => match f a with Some b => [b] | None => [] end) l.

(** [(idname, assigned properties)] of an operator button. *)
Definition as_operator (it : Item) : option (string * Kwargs) :=
  match it with
  | IOperator _ idname _ props => Some (idname, props)
  | _ => None
  end.

Definition operators_of := filter_map as_operator.

(** [(data, property, text)] of a [prop] widget. *)
Definition as_prop (it : Item) : option (PyVal * string * option PyVal) :=
  match it with
  | IWidget _ "prop" [d; VStr property] kw => Some (d, property, get_kw "text" kw)
  | _ => None
  end.

Definition props_of := filter_map as_prop.

(** The data of a [prop] widget for property [property]. *)
Definition as_prop_named (property : string) (it : Item) : option PyVal :=
  match as_prop it with
  | Some (d, p, _) => if String.eqb p property then Some d else None
  | None => None
  end.

Definition props_named (property : string) := filter_map (as_prop_named property).

(** * Vocabulary of the properties *)

(** Ascending order of the sort keys. *)
Definition key_le {A} (key : A -> Z) (a b : A) : Prop := key a <= key b.

(** The three situations in which the claim says the Morph Targets N-panel
    is hidden. *)
Definition no_morph_targets_to_show (ctx : Context) : Prop :=
  object ctx = None
  \/ (exists ob, object ctx = Some ob /\ type ob <> "GPENCIL")
  \/ (exists ob gpd, object ctx = Some ob /\ data ob = GPencilData gpd
                     /\ elems (morph_targets gpd) = []).

(** The first item of the store stays the layout the host created. *)
Definition starts_with_layout (l : list Item) : Prop :=
  match l with
  | ILayout _ _ _ _ :: _ => True
  | _ => False
  end.

Definition preserves_model {A} (m : M A) : Prop :=
  forall w, model (snd (m w)) = model w.



(** The host fills [context.grease_pencil] from the context object.  What
    the panels need of that: the member is set whenever the context object
    is a Grease Pencil v3 object. *)
Definition grease_pencil_member_set (ctx : Context) : Prop :=
  forall ob, object ctx = Some ob -> type ob = "GREASEPENCIL" ->
             ctx_grease_pencil ctx <> None.

(** Two invocations of a method may be handed different layouts, in stores
    of different size.  [b1], [b2] are the sizes of the two stores at the
    start, [r1], [r2] the layouts handed over. *)
Section TwoRunsVocabulary.
Variables b1 b2 r1 r2 : nat.

(** The handle in the second run that corresponds to [h] in the first. *)
Definition ren (h : handle) : handle :=
if (h <? b1)%nat then r2 else (h - b1 + b2)%nat.

Definition ren_item (it : Item) : Item :=
match it with
| ILayout p kind kw0 attrs => ILayout (ren p) kind kw0 attrs
| IOperator p idname kw0 props => IOperator (ren p) idname kw0 props
| IWidget p m args kw0 => IWidget (ren p) m args kw0
end.

(** Handles created during the runs, at the same position. *)
Definition new_handles (h1 h2 : handle) : Prop :=
(b1 <= h1)%nat /\ h2 = (h1 - b1 + b2)%nat.

Definition same_layout (h1 h2 : handle) : Prop :=
(h1 = r1 /\ h2 = r2) \/ new_handles h1 h2.

(** Same scene data, and the items added so far correspond. *)
Definition same_drawing (w1 w2 : World) : Prop :=
model w1 = model w2
/\ (b1 <= List.length (ui w1))%nat
/\ (b2 <= List.length (ui w2))%nat
/\ skipn b2 (ui w2) = map ren_item (skipn b1 (ui w1)).

Definition same_result {A} (R : A -> A -> Prop) (x y : Res A) : Prop :=
match x, y with
| Ok a, Ok b => R a b
| Raise e, Raise e' => e = e'
| _, _ => False
end.

Definition rel {A} (R : A -> A -> Prop) (m1 m2 : M A) : Prop :=
forall w1 w2, same_drawing w1 w2 ->
  same_drawing (snd (m1 w1)) (snd (m2 w2))
  /\ same_result R (fst (m1 w1)) (fst (m2 w2)).

End TwoRunsVocabulary.

(** An item as seen from the method that added it: the layout it was
    handed is 0, and the [k]-th item it adds is [k]. *)
Definition relative (b : nat) (it : Item) : Item :=
  let rel_handle p := if (p <? b)%nat then 0%nat else (p - b + 1)%nat in
  match it with
  | ILayout p kind kw0 attrs => ILayout (rel_handle p) kind kw0 attrs
  | IOperator p idname kw0 props => IOperator (rel_handle p) idname kw0 props
  | IWidget p m args kw0 => IWidget (rel_handle p) m args kw0
  end.

(** The sequence of items a method, started in [w], has added in [w']. *)
Definition added (w w' : World) : list Item :=
  map (relative (List.length (ui w))) (skipn (List.length (ui w)) (ui w')).

(** ** Vocabulary for the panels beyond the claims *)

(** [bl_parent_id] of the classes that declare one. *)
Definition bl_parent_ids : list (string * string) :=
  [ ("DATA_PT_gpencil_layer_masks", "DATA_PT_gpencil_layers");
    ("DATA_PT_gpencil_layer_default_render", "DATA_PT_gpencil_layers");
    ("DATA_PT_gpencil_layer_transform", "DATA_PT_gpencil_layers");
    ("DATA_PT_gpencil_layer_adjustments", "DATA_PT_gpencil_layers");
    ("DATA_PT_gpencil_layer_relations", "DATA_PT_gpencil_layers");
    ("DATA_PT_gpencil_layer_display", "DATA_PT_gpencil_layers");
    ("DATA_PT_gpencil_onion_skinning_custom_colors",
     "DATA_PT_gpencil_onion_skinning");
    ("DATA_PT_gpencil_onion_skinning_display", "DATA_PT_gpencil_onion_skinning");
    ("DATA_PT_gpencil_canvas", "DATA_PT_gpencil_display");
    ("MATERIAL_PT_gpencil_strokecolor", "MATERIAL_PT_gpencil_surface");
    ("MATERIAL_PT_gpencil_strokecolor_default", "MATERIAL_PT_gpencil_strokecolor");
    ("MATERIAL_PT_gpencil_fillcolor", "MATERIAL_PT_gpencil_surface");
    ("MATERIAL_PT_gpencil_fillcolor_ondine", "MATERIAL_PT_gpencil_fillcolor");
    ("MATERIAL_PT_gpencil_fillcolor_default", "MATERIAL_PT_gpencil_fillcolor") ].

Definition bl_parent_id (name : string) : option string :=
  option_map snd (find (fun p => String.eqb (fst p) name) bl_parent_ids).

Definition class_named (name : string) : option Class :=
  find (fun c => String.eqb (bl_name c) name) all_classes.

(** The layout store a method leaves behind when run on a fresh layout. *)
Definition store_after {A} (m : M A) (ctx : Context) : list Item :=
  ui (snd (m (fresh ctx))).

(** The properties shown, by name, and the operators, by name. *)
Definition prop_names (l : list Item) : list string :=
  map (fun x => snd (fst x)) (props_of l).

Definition operator_names (l : list Item) : list string :=
  map fst (operators_of l).

(** The names of the layout methods called, sub-layouts left out. *)
Definition as_widget_method (it : Item) : option string :=
  match it with
  | IWidget _ m _ _ => Some m
  | _ => None
  end.

Definition widget_methods := filter_map as_widget_method.

(** Is [it] the [prop] widget for [property], the button of operator
    [idname]? *)
Definition is_prop (property : string) (it : Item) : bool :=
  match as_prop it with
  | Some (_, p, _) => String.eqb p property
  | None => false
  end.

Definition is_operator (idname : string) (it : Item) : bool :=
  match it with
  | IOperator _ n _ _ => String.eqb n idname
  | _ => false
  end.

Definition item_parent (it : Item) : handle :=
  match it with
  | ILayout p _ _ _ => p
  | IOperator p _ _ _ => p
  | IWidget p _ _ _ => p
  end.

(** The attribute [attr] assigned on the layout that holds the first item
    selected by [sel]; [None] when nothing is selected or the attribute was
    never assigned. *)
Definition layout_attr_of (sel : Item -> bool) (attr : string)
    (store : list Item) : option PyVal :=
  match find sel store with
  | Some it => match nth_error store (item_parent it) with
               | Some lay => get_kw attr (item_attrs lay)
               | None => None
               end
  | None => None
  end.

(** For every [prop] widget of the store, in order: the attribute [attr]
    assigned on the layout that holds it. *)
Definition is_any_prop (it : Item) : bool :=
  match as_prop it with Some _ => true | None => false end.

Definition prop_layout_attrs (attr : string) (store : list Item)
    : list (option PyVal) :=
  map (fun it => match nth_error store (item_parent it) with
                 | Some lay => get_kw attr (item_attrs lay)
                 | None => None
                 end)
      (filter is_any_prop store).

(** The attribute [attr] assigned on the layout the host handed over. *)
Definition root_attr (attr : string) (store : list Item) : option PyVal :=
  match store with
  | lay :: _ => get_kw attr (item_attrs lay)
  | [] => None
  end.

(** Between [w] and [w'] nothing was removed from the store, and no item of
    [w] other than the layout [r] was changed. *)
Definition untouched_outside (r : handle) (w w' : World) : Prop :=
  (List.length (ui w) <= List.length (ui w'))%nat
  /\ forall h, (h < List.length (ui w))%nat -> h <> r ->
               nth_error (ui w') h = nth_error (ui w) h.

(** A run that started in a store [l0] of size [b] on the layout [r]:
    the store it has reached, the handles it may write to, and the methods
    that keep to them. *)
Section StoreFrameVocabulary.
Variable l0 : list Item.
Variable r : handle.

Definition store_kept (w : World) : Prop :=
  (List.length l0 <= List.length (ui w))%nat
  /\ forall h, (h < List.length l0)%nat -> h <> r ->
               nth_error (ui w) h = nth_error l0 h.

Definition own_handle (h : handle) : Prop :=
  h = r \/ (List.length l0 <= h)%nat.

Definition keeps_store {A} (P : A -> Prop) (m : M A) : Prop :=
  forall w, store_kept w ->
    store_kept (snd (m w)) /\ forall a, fst (m w) = Ok a -> P a.

End StoreFrameVocabulary.

(** The class a widget opens: the menu of [layout.menu(name)], the panel of
    [layout.popover(panel=name)]. *)
Definition opens (it : Item) : option string :=
  match it with
  | IWidget _ "menu" (VStr name :: _) _ => Some name
  | IWidget _ "popover" _ kw =>
      match get_kw "panel" kw with
      | Some (VStr name) => Some name
      | _ => None
      end
  | _ => None
  end.

Definition opened := filter_map opens.

(** [name] is a class of these files that defines [draw] and has no
    [poll]. *)
Definition draws_unpolled (name : string) : bool :=
  match class_named name with
  | Some c => match cls_draw c, cls_poll c with
              | Some _, None => true
              | _, _ => false
              end
  | None => false
  end.

Definition opens_ok (it : Item) : Prop :=
  match opens it with
  | Some name => draws_unpolled name = true
  | None => True
  end.

(** A method that leaves every item of the store in [P], given that the
    items it found were. *)
Definition keeps_items (P : Item -> Prop) {A} (m : M A) : Prop :=
  forall w, Forall P (ui w) -> Forall P (ui (snd (m w))).

Definition ctx_with_object (ob : option Object) : Context :=
  {| object := ob; active_object := ob; gpencil := None;
     ctx_grease_pencil := None; ctx_material := None; space_data := None;
     scene := {| tool_settings := {| gpencil_paint := None |} |};
     ctx_tool_settings := {| gpencil_paint := None |} |}.

(** ** Sample scene data *)

Definition gpd_no_layers : GPData :=
  {| layers := {| elems := []; active := None |};
     morph_targets := {| elems := []; active := None |};
     watercolor := false; onion_mode := "ABSOLUTE"; users := 1;
     use_ghost_custom_colors := false; in_morph_edit_mode := false;
     stroke_thickness_space := "WORLDSPACE"; grid := {| grid_id := 0 |} |}.

Definition ctx_of_gpencil (gpd : GPData) : Context :=
  {| object := None; active_object := None; gpencil := Some gpd;
     ctx_grease_pencil := None; ctx_material := None; space_data := None;
     scene := {| tool_settings := {| gpencil_paint := None |} |};
     ctx_tool_settings := {| gpencil_paint := None |} |}.

Definition ctx_no_active_layer : Context :=
  {| object := None; active_object := None;
     gpencil := Some {| layers := {| elems := [ {| stroke_dryness := 0 |} ];
                                     active := None |};
                        morph_targets := {| elems := []; active := None |};
                        watercolor := false; onion_mode := "ABSOLUTE"; users := 1;
                        use_ghost_custom_colors := false;
                        in_morph_edit_mode := false;
                        stroke_thickness_space := "WORLDSPACE";
                        grid := {| grid_id := 0 |} |};
     ctx_grease_pencil := None; ctx_material := None; space_data := None;
     scene := {| tool_settings := {| gpencil_paint := None |} |};
     ctx_tool_settings := {| gpencil_paint := None |} |}.

Definition mt_late : MorphTarget :=
  {| mt_name := "smile"; order_nr := 2; morphed_layer_order := false |}.
Definition mt_early : MorphTarget :=
  {| mt_name := "frown"; order_nr := 1; morphed_layer_order := false |}.

Definition gpd_two_morphs : GPData :=
  {| layers := {| elems := []; active := None |};
     morph_targets := {| elems := [mt_late; mt_early]; active := None |};
     watercolor := false; onion_mode := "ABSOLUTE"; users := 1;
     use_ghost_custom_colors := false; in_morph_edit_mode := false;
     stroke_thickness_space := "WORLDSPACE"; grid := {| grid_id := 0 |} |}.

Definition ob_two_morphs : Object :=
  {| data := GPencilData gpd_two_morphs;
     vertex_groups := {| elems := []; active := None |};
     show_in_front := false |}.

Definition gp_two_keys : GreasePencil :=
  {| shape_keys := [ {| sk_name := "b" |}; {| sk_name := "a" |} ];
     gp_layers := {| elems := []; active := None |} |}.

Definition ctx_two_morphs : Context :=
  {| object := Some ob_two_morphs; active_object := Some ob_two_morphs;
     gpencil := Some gpd_two_morphs; ctx_grease_pencil := Some gp_two_keys;
     ctx_material := None; space_data := None;
     scene := {| tool_settings := {| gpencil_paint := None |} |};
     ctx_tool_settings := {| gpencil_paint := None |} |}.

Definition gpd_editing : GPData :=
  {| layers := {| elems := []; active := None |};
     morph_targets := {| elems := [mt_late]; active := Some mt_late |};
     watercolor := false; onion_mode := "SELECTED"; users := 1;
     use_ghost_custom_colors := false; in_morph_edit_mode := true;
     stroke_thickness_space := "WORLDSPACE"; grid := {| grid_id := 0 |} |}.

Definition layer_wet : GPencilLayer := {| stroke_dryness := 0 |}.

Definition gpd_watercolor : GPData :=
  {| layers := {| elems := [layer_wet]; active := Some layer_wet |};
     morph_targets := {| elems := []; active := None |};
     watercolor := true; onion_mode := "ABSOLUTE"; users := 1;
     use_ghost_custom_colors := false; in_morph_edit_mode := false;
     stroke_thickness_space := "WORLDSPACE"; grid := {| grid_id := 0 |} |}.

Definition ob_watercolor : Object :=
  {| data := GPencilData gpd_watercolor;
     vertex_groups := {| elems := []; active := None |};
     show_in_front := false |}.

Definition gpcolor_gradient : GPColor :=
  {| lock := false; ghost := false; mode := "LINE"; stroke_style := "SOLID";
     fill_style := "GRADIENT"; gradient_type := "LINEAR" |}.

Definition gpcolor_plain : GPColor :=
  {| lock := false; ghost := false; mode := "LINE"; stroke_style := "SOLID";
     fill_style := "SOLID"; gradient_type := "LINEAR" |}.

Definition ctx_of_material (ma : option Material) : Context :=
  {| object := None; active_object := None; gpencil := None;
     ctx_grease_pencil := None; ctx_material := ma; space_data := None;
     scene := {| tool_settings := {| gpencil_paint := None |} |};
     ctx_tool_settings := {| gpencil_paint := None |} |}.

(** A context in which the active object is a Grease Pencil v3 object with
    a shape key, while [context.grease_pencil] is not set. *)
Definition ctx_shape_keys_unset : Context :=
  {| object := Some {| data := GreasePencilData gp_two_keys;
                       vertex_groups := {| elems := []; active := None |};
                       show_in_front := false |};
     active_object := None; gpencil := None;
     ctx_grease_pencil := None; ctx_material := None; space_data := None;
     scene := {| tool_settings := {| gpencil_paint := None |} |};
     ctx_tool_settings := {| gpencil_paint := None |} |}.


Definition world_in_use : World :=
  {| model := ctx_two_morphs;
     ui := [ root_layout; IWidget 0%nat "label" [] [("text", VStr "header")];
             ILayout 0%nat "column" [] [] ] |}.

(** * Properties *)

(** ** Polls *)

Lemma type_gpencil_data : forall ob,
  type ob = "GPENCIL" <-> exists gpd, data ob = GPencilData gpd.
Proof.
  intros ob; unfold type; split.
  - destruct (data ob) as [gpd | gp | k]; intros H.
    + now exists gpd.
    + discriminate.
    + destruct k; discriminate.
  - intros [gpd ->]; reflexivity.
Qed.

(** C1: a data-block without active layer makes the poll shared by the six
    layer sub-panels return [None], a false value, so none of them is
    visible. *)
Theorem layer_sub_panels_hidden_without_active_layer :
  forall ctx gpd c,
    gpencil ctx = Some gpd ->
    active (layers gpd) = None ->
    In c layer_sub_panels ->
    cls_poll c = Some LayerDataButtonsPanel.poll
    /\ result LayerDataButtonsPanel.poll ctx = Ok VNone
    /\ truthy VNone = false
    /\ visible c ctx = false.
Proof.
  intros ctx gpd c Hg Ha Hc.
  assert (Hres : result LayerDataButtonsPanel.poll ctx = Ok VNone).
  { unfold result, LayerDataButtonsPanel.poll, bind, context, ret; simpl.
    rewrite Hg; simpl. rewrite Ha; reflexivity. }
  assert (Hpoll : cls_poll c = Some LayerDataButtonsPanel.poll).
  { simpl in Hc. repeat destruct Hc as [<- | Hc]; try reflexivity. contradiction. }
  repeat split; auto.
  unfold visible. rewrite Hpoll, Hres. reflexivity.
Qed.

Lemma layer_sub_panels_hidden_witness :
  visible (panel_external_draw "DATA_PT_gpencil_layer_masks"
             DATA_PT_gpencil_layer_masks.poll) ctx_no_active_layer = false.
Proof.
  refine (proj2 (proj2 (proj2
    (@layer_sub_panels_hidden_without_active_layer ctx_no_active_layer _ _
       eq_refl eq_refl _)))).
  simpl; left; reflexivity.
Defined.

(** C2: [GPENCIL_PT_MorphTargetsNPanel.poll] never raises and returns a
    boolean, which is [False] exactly when there is no object, the object is
    not of type ['GPENCIL'], or its data has no morph targets; the panel is
    visible exactly in the remaining case. *)
Theorem morph_targets_npanel_poll :
  forall ctx, exists b,
    result GPENCIL_PT_MorphTargetsNPanel.poll ctx = Ok (VBool b)
    /\ (b = false <-> no_morph_targets_to_show ctx)
    /\ (b = true <-> ~ no_morph_targets_to_show ctx)
    /\ visible (panel "GPENCIL_PT_MorphTargetsNPanel"
                  GPENCIL_PT_MorphTargetsNPanel.poll
                  GPENCIL_PT_MorphTargetsNPanel.draw) ctx = b.
Proof.
  intros ctx.
  assert (H : exists b,
    result GPENCIL_PT_MorphTargetsNPanel.poll ctx = Ok (VBool b)
    /\ (b = false <-> no_morph_targets_to_show ctx)).
  { unfold result, GPENCIL_PT_MorphTargetsNPanel.poll, bind, context; simpl.
    unfold no_morph_targets_to_show.
    destruct (object ctx) as [ob |] eqn:Hob.
    - destruct (String.eqb (type ob) "GPENCIL") eqn:Hty; simpl.
      + apply String.eqb_eq in Hty.
        destruct (proj1 (type_gpencil_data ob) Hty) as [gpd Hd].
        rewrite Hd; simpl. unfold ret, len.
        destruct (elems (morph_targets gpd)) as [| mt l] eqn:Hl.
        * exists false; split; [reflexivity |].
          split; [intros _ | reflexivity].
          right; right. exists ob, gpd. auto.
        * exists true; split; [reflexivity |].
          split; [discriminate |].
          intros [Hn | [(ob' & Ho & Hne) | (ob' & gpd' & Ho & Hd' & He)]].
          -- discriminate.
          -- injection Ho as <-. contradiction.
          -- injection Ho as <-. rewrite Hd in Hd'. injection Hd' as <-.
             rewrite Hl in He. discriminate.
      + apply String.eqb_neq in Hty.
        exists false; split; [reflexivity |].
        split; [intros _ | reflexivity].
        right; left. exists ob; auto.
    - exists false; split; [reflexivity |].
      split; [intros _; now left | reflexivity]. }
  destruct H as (b & Hres & Hb).
  exists b. split; [exact Hres |]. split; [exact Hb |]. split.
  - destruct b; split; intros H; try reflexivity.
    + intros Hn. apply Hb in Hn. discriminate.
    + discriminate.
    + exfalso. apply H. apply Hb. reflexivity.
  - unfold visible; simpl. rewrite Hres. reflexivity.
Qed.

(** ** What single methods draw *)

(** C7: the material context menu adds exactly these operator buttons, in
    this order and with these property assignments, whatever the context. *)
Theorem material_context_menu_operators :
  forall ctx,
    result (GPENCIL_MT_material_context_menu.draw self0) ctx = Ok tt
    /\ operators_of (drawn (GPENCIL_MT_material_context_menu.draw self0) ctx) =
       [ ("grease_pencil.material_reveal", []);
         ("grease_pencil.material_hide", [("invert", VBool true)]);
         ("grease_pencil.material_lock_all", []);
         ("grease_pencil.material_unlock_all", []);
         ("grease_pencil.material_lock_unselected", []);
         ("grease_pencil.material_lock_unused", []);
         ("grease_pencil.material_copy_to_object", [("only_active", VBool true)]);
         ("grease_pencil.material_copy_to_object", [("only_active", VBool false)]);
         ("object.material_slot_remove_unused", []) ].
Proof.
  intros ctx; split; reflexivity.
Qed.

(** C10: with a data-block whose [layers] collection is empty the Layers
    panel is visible, and its [draw] puts exactly one item into the layout:
    the [gpencil.layer_add] button labelled "New Layer". *)
Theorem layers_panel_without_layers :
  forall ctx gpd,
    gpencil ctx = Some gpd ->
    elems (layers gpd) = [] ->
    visible (panel "DATA_PT_gpencil_layers"
               DATA_PT_gpencil_layers.poll DATA_PT_gpencil_layers.draw) ctx = true
    /\ result (DATA_PT_gpencil_layers.draw self0) ctx = Ok tt
    /\ drawn (DATA_PT_gpencil_layers.draw self0) ctx =
       [ IOperator 0%nat "gpencil.layer_add" [("text", VStr "New Layer")] [] ].
Proof.
  intros ctx gpd Hg Hl.
  unfold visible, result, drawn; simpl.
  unfold DATA_PT_gpencil_layers.poll, DataButtonsPanel.poll,
    DATA_PT_gpencil_layers.draw, bind, context; simpl.
  rewrite Hg; simpl.
  unfold truthy, truthy_collection, truthy, truthy_list. rewrite Hl; simpl.
  repeat split.
Qed.

Lemma layers_panel_without_layers_witness :
  drawn (DATA_PT_gpencil_layers.draw self0) (ctx_of_gpencil gpd_no_layers) =
  [ IOperator 0%nat "gpencil.layer_add" [("text", VStr "New Layer")] [] ].
Proof.
  exact (proj2 (proj2 (@layers_panel_without_layers
                         (ctx_of_gpencil gpd_no_layers) gpd_no_layers
                         eq_refl eq_refl))).
Defined.

(** C3: the onion skinning panel always shows [onion_mode], [onion_factor]
    and [onion_keyframe_type] of the data-block; after them come the two
    ghost range properties labelled "Frames ..." exactly when [onion_mode]
    is ['ABSOLUTE'], labelled "Keyframes ..." exactly when it is
    ['RELATIVE'], and nothing for any other mode. *)
Theorem onion_skinning_draw_props :
  forall ctx gpd,
    gpencil ctx = Some gpd ->
    let g := VObj (OGPData gpd) in
    result (DATA_PT_gpencil_onion_skinning.draw self0) ctx = Ok tt
    /\ exists rest,
        props_of (drawn (DATA_PT_gpencil_onion_skinning.draw self0) ctx) =
          ([ (g, "onion_mode", None);
             (g, "onion_factor", Some (VStr "Opacity"));
             (g, "onion_keyframe_type", None) ] ++ rest)%list
        /\ (rest = [ (g, "ghost_before_range", Some (VStr "Frames Before"));
                     (g, "ghost_after_range", Some (VStr "Frames After")) ]
            <-> onion_mode gpd = "ABSOLUTE")
        /\ (rest = [ (g, "ghost_before_range", Some (VStr "Keyframes Before"));
                     (g, "ghost_after_range", Some (VStr "Keyframes After")) ]
            <-> onion_mode gpd = "RELATIVE")
        /\ (rest = [] <-> onion_mode gpd <> "ABSOLUTE" /\ onion_mode gpd <> "RELATIVE").
Proof.
  intros ctx gpd Hg g.
  unfold result, drawn, DATA_PT_gpencil_onion_skinning.draw, bind, context; simpl.
  rewrite Hg; simpl.
  destruct (String.eqb (onion_mode gpd) "ABSOLUTE") eqn:Ha.
  - apply String.eqb_eq in Ha. simpl. split; [reflexivity |].
    eexists; split; [reflexivity |]. rewrite Ha.
    repeat split; intros; try discriminate; try reflexivity.
    destruct H as [H _]; now elim H.
  - apply String.eqb_neq in Ha.
    destruct (String.eqb (onion_mode gpd) "RELATIVE") eqn:Hr.
    + apply String.eqb_eq in Hr. simpl. split; [reflexivity |].
      eexists; split; [reflexivity |].
      repeat split; intros; try discriminate; try reflexivity; try assumption.
      * rewrite Hr in H; discriminate.
      * destruct H as [_ H]; now elim H.
    + apply String.eqb_neq in Hr. simpl. split; [reflexivity |].
      exists []; split; [reflexivity |].
      repeat split; intros; try discriminate; try reflexivity; try assumption.
      * now elim Ha.
      * now elim Hr.
Qed.

Lemma onion_skinning_draw_props_witness :
  result (DATA_PT_gpencil_onion_skinning.draw self0)
         (ctx_of_gpencil gpd_no_layers) = Ok tt.
Proof.
  exact (proj1 (@onion_skinning_draw_props (ctx_of_gpencil gpd_no_layers)
                  gpd_no_layers eq_refl)).
Defined.

(** C9: in the ['DEFAULT'] and ['COMPACT'] layouts [draw_item] of the
    material slot list draws only the icon label (in its row) when the slot
    has no material or the material has no Grease Pencil settings; otherwise
    it goes on with the name in a row whose [enabled] is [not lock], and a
    row with the [ghost], [hide] and [lock] toggles. *)
Theorem matslots_draw_item :
  forall ctx self item icon,
    layout_type self = "DEFAULT" \/ layout_type self = "COMPACT" ->
    let d := drawn (GPENCIL_UL_matslots.draw_item self 0%nat item icon) ctx in
    let icon_label :=
      [ ILayout 0%nat "row" [("align", VBool true)] [];
        IWidget 1%nat "label" [] [("text", VStr ""); ("icon_value", VInt icon)] ] in
    result (GPENCIL_UL_matslots.draw_item self 0%nat item icon) ctx = Ok tt
    /\ (material item = None
        \/ (exists ma, material item = Some ma /\ grease_pencil ma = None) ->
        d = icon_label /\ props_of d = [])
    /\ (forall ma gpcolor,
          material item = Some ma -> grease_pencil ma = Some gpcolor ->
          d = (icon_label ++
              [ ILayout 0%nat "row" [("align", VBool true)]
                  [("enabled", VBool (negb (lock gpcolor)))];
                IWidget 3%nat "prop" [VObj (OMaterial ma); VStr "name"]
                  [("text", VStr ""); ("emboss", VBool false); ("icon", VStr "NONE")];
                ILayout 0%nat "row" [("align", VBool true)] [];
                IWidget 5%nat "prop" [VObj (OGPColor gpcolor); VStr "ghost"]
                  [("text", VStr "");
                   ("icon", VStr (if ghost gpcolor then "ONIONSKIN_OFF"
                                  else "ONIONSKIN_ON"));
                   ("emboss", VBool false)];
                IWidget 5%nat "prop" [VObj (OGPColor gpcolor); VStr "hide"]
                  [("text", VStr ""); ("emboss", VBool false)];
                IWidget 5%nat "prop" [VObj (OGPColor gpcolor); VStr "lock"]
                  [("text", VStr ""); ("emboss", VBool false)] ])%list).
Proof.
  intros ctx self item icon Hlt d icon_label; subst d icon_label.
  unfold result, drawn, GPENCIL_UL_matslots.draw_item.
  assert (Hc : (String.eqb (layout_type self) "DEFAULT"
                || String.eqb (layout_type self) "COMPACT")%bool = true).
  { destruct Hlt as [-> | ->]; reflexivity. }
  rewrite Hc. unfold bind; simpl.
  destruct (material item) as [ma |].
  - destruct (grease_pencil ma) as [gpcolor |] eqn:Hgp.
    + split; [reflexivity |]. split.
      * intros [H | (ma' & H & H')]; [discriminate |].
        injection H as <-. rewrite Hgp in H'. discriminate.
      * intros ma' gpcolor' H H'. injection H as <-. rewrite Hgp in H'.
        injection H' as <-. reflexivity.
    + split; [reflexivity |]. split.
      * intros _. split; reflexivity.
      * intros ma' gpcolor' H H'. injection H as <-. rewrite Hgp in H'.
        discriminate.
  - split; [reflexivity |]. split.
    + intros _; split; reflexivity.
    + intros; discriminate.
Qed.

Lemma matslots_draw_item_witness :
  result (GPENCIL_UL_matslots.draw_item self0 0%nat {| material := None |} 7)
         (ctx_of_gpencil gpd_no_layers) = Ok tt.
Proof.
  exact (proj1 (@matslots_draw_item (ctx_of_gpencil gpd_no_layers) self0
                  {| material := None |} 7 (or_introl eq_refl))).
Defined.

(** The Morph Targets panel reads [sub.active] back after assigning it:
    while a morph target is being edited the "Finish Edit" button is drawn
    depressed and the note appears. *)
Example morph_targets_panel_while_editing :
  filter_map
    (fun it => match it with
               | IOperator _ "gpencil.morph_target_edit_finish" kw0 _ =>
                   Some (get_kw "depress" kw0)
               | IWidget _ "label" _ kw0 => Some (get_kw "text" kw0)
               | _ => None
               end)
    (drawn (DATA_PT_gpencil_morph_targets.draw self0) (ctx_of_gpencil gpd_editing))
  = [ Some (VBool true);
      Some (VStr "Note: do not add or remove points while editing.") ].
Proof.
  reflexivity.
Qed.

(** ** Facts about the layout store *)

Lemma filter_map_app : forall A B (f : A -> option B) l1 l2,
  filter_map f (l1 ++ l2) = (filter_map f l1 ++ filter_map f l2)%list.
Proof.
  intros; unfold filter_map; apply flat_map_app.
Qed.

Lemma filter_map_update_nth : forall A B (f : A -> option B) (g : A -> A) n l,
  (forall a, f (g a) = f a) ->
  filter_map f (update_nth n g l) = filter_map f l.
Proof.
  intros A B f g n l Hfg; revert n; unfold filter_map.
  induction l as [| a l IH]; intros [| n]; simpl; try reflexivity.
  - now rewrite Hfg.
  - now rewrite IH.
Qed.

Lemma as_prop_setattr : forall k v it, as_prop (item_setattr k v it) = as_prop it.
Proof.
  intros k v [p kind kw0 attrs | p idname kw0 props | p m args kw0]; reflexivity.
Qed.

Lemma props_named_app : forall p l1 l2,
  props_named p (l1 ++ l2) = (props_named p l1 ++ props_named p l2)%list.
Proof.
  intros; apply filter_map_app.
Qed.

Lemma props_named_setattr : forall p h k v l,
  props_named p (update_nth h (item_setattr k v) l) = props_named p l.
Proof.
  intros; apply filter_map_update_nth.
  intros a; unfold as_prop_named. now rewrite as_prop_setattr.
Qed.

Lemma update_nth_length : forall A (f : A -> A) n l,
  List.length (update_nth n f l) = List.length l.
Proof.
  intros A f n l; revert n.
  induction l as [| a l IH]; intros [| n]; simpl; auto.
Qed.

(** A loop whose body keeps an invariant indexed by the elements done. *)
Lemma for_each_invariant :
  forall A (P : list A -> World -> Prop) (body : A -> M unit) l,
    (forall done x w, P done w ->
       exists w', body x w = (Ok tt, w') /\ P (done ++ [x])%list w') ->
    forall w, P [] w ->
    exists w', for_each l body w = (Ok tt, w') /\ P l w'.
Proof.
  intros A P body l Hstep.
  enough (H : forall done w, P done w ->
            exists w', for_each l body w = (Ok tt, w') /\ P (done ++ l)%list w').
  { intros w Hw. exact (H [] w Hw). }
  induction l as [| x l IH]; intros done w Hw; simpl.
  - exists w. rewrite app_nil_r. split; [reflexivity | assumption].
  - destruct (Hstep done x w Hw) as (w1 & E1 & H1).
    destruct (IH _ _ H1) as (w2 & E2 & H2).
    exists w2. unfold bind. rewrite E1. split; [exact E2 |].
    now rewrite <- app_assoc in H2.
Qed.

(** ** Python's [sorted] *)

Section SortedFacts.
Variable A : Type.
Variable key : A -> Z.

Lemma insert_by_perm : forall x l, Permutation (insert_by key x l) (x :: l).
Proof.
  intros x l; induction l as [| y l IH]; simpl.
  - apply Permutation_refl.
  - destruct (key x <=? key y).
    + apply Permutation_refl.
    + eapply perm_trans; [apply perm_skip, IH | apply perm_swap].
Qed.

Lemma sorted_perm : forall l, Permutation (sorted key l) l.
Proof.
  induction l as [| x l IH]; simpl.
  - apply perm_nil.
  - eapply perm_trans; [apply insert_by_perm | now apply perm_skip].
Qed.

Lemma insert_by_hdrel : forall a x l,
  key_le key a x -> HdRel (key_le key) a l ->
  HdRel (key_le key) a (insert_by key x l).
Proof.
  intros a x [| y l] Hax Hal; simpl.
  - now constructor.
  - destruct (key x <=? key y); constructor; auto.
    now inversion Hal.
Qed.

Lemma insert_by_sorted : forall x l,
  Sorted (key_le key) l -> Sorted (key_le key) (insert_by key x l).
Proof.
  intros x l; induction 1 as [| y l Hs IH Hhd]; simpl.
  - repeat constructor.
  - destruct (key x <=? key y) eqn:E.
    + apply Z.leb_le in E. repeat constructor; auto.
    + apply Z.leb_gt in E. constructor; auto.
      apply insert_by_hdrel; auto. unfold key_le; lia.
Qed.

Lemma sorted_sorted : forall l, Sorted (key_le key) (sorted key l).
Proof.
  induction l as [| x l IH]; simpl.
  - constructor.
  - now apply insert_by_sorted.
Qed.

(** Stability: elements with one and the same key keep their order. *)
Lemma insert_by_filter : forall k x l,
  filter (fun a => key a =? k) (insert_by key x l) =
  filter (fun a => key a =? k) (x :: l).
Proof.
  intros k x l; induction l as [| y l IH]; simpl; [reflexivity |].
  destruct (key x <=? key y) eqn:E; [reflexivity |].
  apply Z.leb_gt in E. simpl in *. rewrite IH.
  destruct (key x =? k) eqn:Ex, (key y =? k) eqn:Ey; try reflexivity.
  apply Z.eqb_eq in Ex, Ey. lia.
Qed.

Lemma sorted_stable : forall k l,
  filter (fun a => key a =? k) (sorted key l) = filter (fun a => key a =? k) l.
Proof.
  intros k l; induction l as [| x l IH]; simpl; [reflexivity |].
  rewrite insert_by_filter.
  simpl. now rewrite IH.
Qed.
(** With pairwise different keys the result does not depend on the order
    the elements come in. *)
Lemma insert_by_swap : forall x y l,
  key x <> key y ->
  insert_by key x (insert_by key y l) = insert_by key y (insert_by key x l).
Proof.
  intros x y l Hxy; induction l as [| z l IH]; simpl.
  - destruct (Z.leb_spec (key x) (key y)), (Z.leb_spec (key y) (key x));
      try reflexivity; lia.
  - destruct (Z.leb_spec (key y) (key z)), (Z.leb_spec (key x) (key z)); simpl;
      repeat match goal with
             | |- context [key ?a <=? key ?b] =>
                 destruct (Z.leb_spec (key a) (key b))
             end; try reflexivity; try lia.
    now rewrite IH.
Qed.

Lemma sorted_perm_unique : forall l l',
  Permutation l l' -> NoDup (map key l) -> sorted key l = sorted key l'.
Proof.
  intros l l' Hp; induction Hp as [| x l l' Hp IH | x y l | l l' l'' Hp1 IH1 Hp2 IH2];
    intros Hnd; simpl.
  - reflexivity.
  - inversion Hnd; subst. now rewrite IH.
  - inversion Hnd as [| ? ? Hy Hnd']; subst.
    apply insert_by_swap. intros E. apply Hy. simpl. now left.
  - rewrite IH1 by assumption. apply IH2.
    eapply Permutation_NoDup; [| exact Hnd]. now apply Permutation_map.
Qed.
End SortedFacts.

Lemma starts_with_layout_app : forall l l',
  starts_with_layout l -> starts_with_layout (l ++ l').
Proof.
  intros [| [] l] l'; simpl; tauto.
Qed.

Lemma starts_with_layout_setattr : forall h k v l,
  starts_with_layout l -> starts_with_layout (update_nth h (item_setattr k v) l).
Proof.
  intros [| h] k v [| [] l]; simpl; tauto.
Qed.

Lemma props_named_drawn : forall p l,
  starts_with_layout l -> props_named p (skipn 1 l) = props_named p l.
Proof.
  intros p [| [] l]; simpl; intros H; try contradiction. reflexivity.
Qed.

Create HintDb ui.
#[local] Hint Resolve starts_with_layout_app starts_with_layout_setattr : ui.

(** ** The two N-panels *)

(** The rows the Morph Targets N-panel adds for a list of morph targets, as
    seen through the [value] sliders. *)
Lemma morph_target_rows_value_props :
  forall l col w,
    starts_with_layout (ui w) ->
    exists w',
      for_each l (fun mt =>
        sub <- UILayout.split col [kw "factor" (9 # 10)%Q; kw "align" true] ;;
        UILayout.prop sub mt "value" [kw "text" (mt_name mt)] ;;
        row <- UILayout.row sub [kw "align" true] ;;
        setattr row "use_property_decorate" false ;;
        setattr row "emboss" "NONE" ;;
        UILayout.prop row mt "mute" []) w = (Ok tt, w')
      /\ starts_with_layout (ui w')
      /\ props_named "value" (ui w') =
         (props_named "value" (ui w) ++ map to_py l)%list.
Proof.
  intros l col w Hw.
  apply (for_each_invariant
           (fun done w' => starts_with_layout (ui w') /\
                           props_named "value" (ui w') =
                           (props_named "value" (ui w) ++ map to_py done)%list)).
  - intros done x w0 [Hs Hw0]. eexists; split; [reflexivity |].
    simpl. split; [auto 10 with ui |].
    rewrite !props_named_app, !props_named_setattr, !props_named_app.
    simpl. rewrite Hw0, map_app, !app_nil_r, <- app_assoc. reflexivity.
  - simpl. now rewrite app_nil_r.
Qed.

Lemma shape_key_rows_value_props :
  forall l col w,
    starts_with_layout (ui w) ->
    exists w',
      for_each l (fun shape_key =>
        sub <- UILayout.split col [kw "factor" (9 # 10)%Q; kw "align" true] ;;
        UILayout.prop sub shape_key "value"
          [kw "text" (sk_name shape_key); kw "slider" true] ;;
        row <- UILayout.row sub [kw "align" true] ;;
        setattr row "use_property_decorate" false ;;
        setattr row "emboss" "NONE" ;;
        UILayout.prop row shape_key "mute" []) w = (Ok tt, w')
      /\ starts_with_layout (ui w')
      /\ props_named "value" (ui w') =
         (props_named "value" (ui w) ++ map to_py l)%list.
Proof.
  intros l col w Hw.
  apply (for_each_invariant
           (fun done w' => starts_with_layout (ui w') /\
                           props_named "value" (ui w') =
                           (props_named "value" (ui w) ++ map to_py done)%list)).
  - intros done x w0 [Hs Hw0]. eexists; split; [reflexivity |].
    simpl. split; [auto 10 with ui |].
    rewrite !props_named_app, !props_named_setattr, !props_named_app.
    simpl. rewrite Hw0, map_app, !app_nil_r, <- app_assoc. reflexivity.
  - simpl. now rewrite app_nil_r.
Qed.

Lemma morph_targets_npanel_draw_values :
  forall ctx ob gpd,
    object ctx = Some ob ->
    data ob = GPencilData gpd ->
    exists w',
      GPENCIL_PT_MorphTargetsNPanel.draw self0 (fresh ctx) = (Ok tt, w')
      /\ starts_with_layout (ui w')
      /\ props_named "value" (ui w') =
         map to_py (sorted order_nr (elems (morph_targets gpd))).
Proof.
  intros ctx ob gpd Hob Hd.
  unfold GPENCIL_PT_MorphTargetsNPanel.draw, bind, context.
  simpl. rewrite Hob; simpl. rewrite Hd; simpl.
  match goal with |- context [for_each ?l ?b ?w] =>
    destruct (@morph_target_rows_value_props l 1%nat w I) as (w' & E & Hs & Hp);
    change (for_each l b w = (Ok tt, w')) in E; rewrite E
  end.
  eexists; split; [reflexivity |].
  cbn [ui]. split; [auto with ui |].
  rewrite props_named_app, Hp. simpl. now rewrite app_nil_r.
Qed.

Lemma shape_keys_npanel_draw_values :
  forall ctx gp,
    ctx_grease_pencil ctx = Some gp ->
    exists w',
      GREASE_PENCIL_PT_ShapeKeysNPanel.draw self0 (fresh ctx) = (Ok tt, w')
      /\ starts_with_layout (ui w')
      /\ props_named "value" (ui w') = map to_py (shape_keys gp).
Proof.
  intros ctx gp Hgp.
  unfold GREASE_PENCIL_PT_ShapeKeysNPanel.draw, bind, context.
  simpl. rewrite Hgp; simpl.
  match goal with |- context [for_each ?l ?b ?w] =>
    destruct (@shape_key_rows_value_props l 1%nat w I) as (w' & E & Hs & Hp);
    change (for_each l b w = (Ok tt, w')) in E; rewrite E
  end.
  eexists; split; [reflexivity |].
  cbn [ui]. split; [auto with ui |].
  rewrite props_named_app, Hp. simpl. now rewrite app_nil_r.
Qed.

(** C8: the Morph Targets N-panel shows one [value] slider per morph
    target, in ascending order of [order_nr] (Python's stable [sorted]:
    a sorted permutation of the collection that keeps equal [order_nr] in
    collection order), whatever the order of the collection, and the same
    list for every order of the collection when the [order_nr] are pairwise
    different; the Shape Keys N-panel shows one per shape key, in the order
    of the collection. *)
Theorem npanels_display_order :
  forall ctx ob gpd ctx' gp,
    object ctx = Some ob ->
    data ob = GPencilData gpd ->
    ctx_grease_pencil ctx' = Some gp ->
    let shown :=
      props_named "value" (drawn (GPENCIL_PT_MorphTargetsNPanel.draw self0) ctx) in
    let stored := elems (morph_targets gpd) in
    (result (GPENCIL_PT_MorphTargetsNPanel.draw self0) ctx = Ok tt
     /\ shown = map to_py (sorted order_nr stored)
     /\ Sorted (key_le order_nr) (sorted order_nr stored)
     /\ Permutation (sorted order_nr stored) stored
     /\ (forall k, filter (fun mt => order_nr mt =? k) (sorted order_nr stored)
                   = filter (fun mt => order_nr mt =? k) stored)
     /\ (forall stored',
           Permutation stored stored' -> NoDup (map order_nr stored) ->
           shown = map to_py (sorted order_nr stored')))
    /\ (result (GREASE_PENCIL_PT_ShapeKeysNPanel.draw self0) ctx' = Ok tt
        /\ props_named "value"
             (drawn (GREASE_PENCIL_PT_ShapeKeysNPanel.draw self0) ctx')
           = map to_py (shape_keys gp)).
Proof.
  intros ctx ob gpd ctx' gp Hob Hd Hgp shown stored. subst shown stored.
  destruct (morph_targets_npanel_draw_values ctx Hob Hd) as (w1 & E1 & Hs1 & Hp1).
  destruct (shape_keys_npanel_draw_values ctx' Hgp) as (w2 & E2 & Hs2 & Hp2).
  unfold result, drawn. rewrite E1, E2. cbn [fst snd].
  rewrite !props_named_drawn by assumption.
  repeat split; auto using sorted_sorted, sorted_perm, sorted_stable.
  intros stored' Hperm Hnd. rewrite Hp1. f_equal.
  now apply sorted_perm_unique.
Qed.

Lemma npanels_display_order_witness :
  props_named "value"
    (drawn (GPENCIL_PT_MorphTargetsNPanel.draw self0) ctx_two_morphs)
  = map to_py (sorted order_nr [mt_late; mt_early]).
Proof.
  exact (proj1 (proj2 (proj1
    (@npanels_display_order ctx_two_morphs ob_two_morphs gpd_two_morphs
       ctx_two_morphs gp_two_keys eq_refl eq_refl eq_refl)))).
Defined.

(** ** No draw method writes to the scene data *)

Section PreservesModel.

Lemma pm_ret : forall A (a : A), preserves_model (ret a).
Proof. intros A a w; reflexivity. Qed.

Lemma pm_raise : forall A e, preserves_model (@raise A e).
Proof. intros A e w; reflexivity. Qed.

Lemma pm_bind : forall A B (m : M A) (k : A -> M B),
  preserves_model m -> (forall a, preserves_model (k a)) ->
  preserves_model (bind m k).
Proof.
  intros A B m k Hm Hk w. unfold bind.
  specialize (Hm w). destruct (m w) as [[a | e] w1]; simpl in *.
  - now rewrite Hk.
  - assumption.
Qed.

Lemma pm_context : preserves_model context.
Proof. intros w; reflexivity. Qed.

Lemma pm_getattr : forall A B (x : option A) attr (f : A -> B),
  preserves_model (getattr x attr f).
Proof. intros A B [a |] attr f w; reflexivity. Qed.

Lemma pm_add_item : forall it, preserves_model (add_item it).
Proof. intros it w; reflexivity. Qed.

Lemma pm_setattr : forall V (T : ToPy V) h attr (v : V),
  preserves_model (setattr h attr v).
Proof. intros V T h attr v w; reflexivity. Qed.

Lemma pm_readattr : forall h attr, preserves_model (readattr h attr).
Proof. intros h attr w; reflexivity. Qed.

Lemma pm_widget : forall m p args kw0, preserves_model (UILayout.widget m p args kw0).
Proof. intros m p args kw0 w; reflexivity. Qed.

Lemma pm_for_each : forall A (l : list A) body,
  (forall x, preserves_model (body x)) -> preserves_model (for_each l body).
Proof.
  intros A l body Hb; induction l as [| x l IH]; simpl.
  - apply pm_ret.
  - apply pm_bind; auto.
Qed.

Lemma pm_data_morph_targets : forall d, preserves_model (data_morph_targets d).
Proof. intros [] w; reflexivity. Qed.

Lemma pm_data_shape_keys : forall d, preserves_model (data_shape_keys d).
Proof. intros [] w; reflexivity. Qed.

Lemma pm_data_layers : forall d, preserves_model (data_layers d).
Proof. intros [] w; reflexivity. Qed.

End PreservesModel.

Ltac unfold_layout_calls :=
  unfold UILayout.prop, UILayout.label, UILayout.separator, UILayout.menu,
    UILayout.popover, UILayout.prop_decorator, UILayout.template_ID,
    UILayout.template_palette, UILayout.template_preview,
    UILayout.template_list, UILayout.operator_menu_enum,
    UILayout.row, UILayout.column, UILayout.split, UILayout.grid_flow,
    UILayout.sublayout, UILayout.operator, when.

Ltac pm_step :=
  lazymatch goal with
  | |- preserves_model (bind _ _) => apply pm_bind; [| intros ?]
  | |- preserves_model (ret _) => apply pm_ret
  | |- preserves_model (raise _) => apply pm_raise
  | |- preserves_model context => apply pm_context
  | |- preserves_model (getattr _ _ _) => apply pm_getattr
  | |- preserves_model (add_item _) => apply pm_add_item
  | |- preserves_model (setattr _ _ _) => apply pm_setattr
  | |- preserves_model (readattr _ _) => apply pm_readattr
  | |- preserves_model (UILayout.widget _ _ _ _) => apply pm_widget
  | |- preserves_model (for_each _ _) => apply pm_for_each; intros ?
  | |- preserves_model (data_morph_targets _) => apply pm_data_morph_targets
  | |- preserves_model (data_shape_keys _) => apply pm_data_shape_keys
  | |- preserves_model (data_layers _) => apply pm_data_layers
  | |- preserves_model (if ?c then _ else _) => destruct c
  | |- preserves_model (match ?x with _ => _ end) => destruct x
  end.

Ltac pm_solve := cbv zeta; unfold_layout_calls; repeat pm_step.

Ltac head_of t :=
  lazymatch t with
  | ?f _ => head_of f
  | _ => t
  end.

Ltac pm_method :=
  repeat first
    [ pm_step
    | lazymatch goal with
      | |- preserves_model ?m => let h := head_of m in unfold h; cbv zeta;
                                 unfold_layout_calls
      end ].

(** The frame property is a real restriction: a method that assigned to
    the scene data would not have it. *)
Remark preserves_model_excludes_writes :
  exists m : M unit, ~ preserves_model m.
Proof.
  exists (fun w => (Ok tt, {| model := ctx_two_morphs; ui := ui w |})).
  intros H. specialize (H (fresh ctx_no_active_layer)). discriminate H.
Qed.

(** C5: whatever the state they start in, and whether they finish or
    raise, the [draw] and [draw_header] methods of all classes and the two
    [draw_item] methods leave the scene data behind the context exactly as
    it was; they only change the layout store. *)
Theorem draw_methods_preserve_model :
  forall self,
    (forall d, In d all_draw_methods -> preserves_model (d self))
    /\ (forall layout item icon,
          preserves_model (GPENCIL_UL_matslots.draw_item self layout item icon))
    /\ (forall layout item icon,
          preserves_model (GPENCIL_UL_vgroups.draw_item self layout item icon)).
Proof.
  intros self. split; [| split].
  - intros d Hd. simpl in Hd.
    repeat (destruct Hd as [<- | Hd]; [pm_method |]).
    contradiction.
  - intros; pm_method.
  - intros; pm_method.
Qed.

(** ** A true [poll] and the attribute accesses of [draw] *)

Section RunsOk.
Variable c : Context.












End RunsOk.




Ltac is_method h :=
  lazymatch h with
  | @getattr => fail
  | @setattr => fail
  | readattr => fail
  | add_item => fail
  | @context => fail
  | @bind => fail
  | @ret => fail
  | @raise => fail
  | _ => idtac
  end.


(** Reading off what a true [poll] says about the context. *)
Ltac poll_facts Hv :=
  unfold visible, result in Hv; cbn in Hv;
  unfold type, data_morph_targets, data_shape_keys, and_then, py_or,
    to_py, to_py_option, truthy, truthy_val in Hv;
  cbn in Hv;
  repeat match type of Hv with
         | context [match ?x with _ => _ end] =>
             is_var x; destruct x; cbn in Hv; try discriminate Hv
         | context [match ?f ?x with _ => _ end] =>
             is_var x; destruct x; cbn in Hv; try discriminate Hv
         | context [if ?x then _ else _] =>
             destruct x eqn:?; cbn in Hv; try discriminate Hv
         end.



(** The assumption on [context.grease_pencil] is used: the Shape Keys
    N-panel polls [context.object.data] and draws from
    [context.grease_pencil], so in a state that had the object without the
    member its [draw] would stop at [grease_pencil.shape_keys]. *)
Example shape_keys_draw_raises :
  ~ grease_pencil_member_set ctx_shape_keys_unset
  /\ visible (panel "GREASE_PENCIL_PT_ShapeKeysNPanel"
                GREASE_PENCIL_PT_ShapeKeysNPanel.poll
                GREASE_PENCIL_PT_ShapeKeysNPanel.draw) ctx_shape_keys_unset = true
  /\ result (GREASE_PENCIL_PT_ShapeKeysNPanel.draw self0) ctx_shape_keys_unset
      = Raise (AttributeError "shape_keys").
Proof.
  split; [| split; reflexivity].
  intros H. exact (H _ eq_refl eq_refl eq_refl).
Qed.

(** The pop-overs and menus have no [poll] to rely on: the palette pop-over
    raises when there is no material in the context. *)
Example palette_popover_needs_material :
  result (MATERIAL_PT_gpencil_strokecolor_palette.draw self0)
         (ctx_of_material None)
  = Raise (AttributeError "grease_pencil").
Proof.
  reflexivity.
Qed.


(** ** Draw methods are functions of the context *)

Lemma skipn_app_le : forall A (l l' : list A) b,
  (b <= List.length l)%nat -> skipn b (l ++ l') = (skipn b l ++ l')%list.
Proof.
  intros A l l' b Hb. rewrite skipn_app.
  replace (b - List.length l)%nat with 0%nat by lia. reflexivity.
Qed.

Lemma skipn_update_nth_lt : forall A (f : A -> A) b h l,
  (h < b)%nat -> skipn b (update_nth h f l) = skipn b l.
Proof.
  intros A f b; induction b as [| b IH]; intros h l Hh; [lia |].
  destruct l as [| a l]; [now destruct h |].
  destruct h as [| h]; simpl; [reflexivity |].
  apply IH; lia.
Qed.

Lemma skipn_update_nth_ge : forall A (f : A -> A) b h l,
  (b <= h)%nat -> skipn b (update_nth h f l) = update_nth (h - b) f (skipn b l).
Proof.
  intros A f b; induction b as [| b IH]; intros h l Hh.
  - simpl. now rewrite Nat.sub_0_r.
  - destruct h as [| h]; [lia |].
    destruct l as [| a l]; simpl; [now destruct (h - b)%nat |].
    apply IH; lia.
Qed.

Lemma map_update_nth : forall A B (g : A -> B) (f : A -> A) (f' : B -> B) n l,
  (forall a, g (f a) = f' (g a)) ->
  map g (update_nth n f l) = update_nth n f' (map g l).
Proof.
  intros A B g f f' n l H; revert n.
  induction l as [| a l IH]; intros [| n]; simpl; try reflexivity.
  - now rewrite H.
  - now rewrite IH.
Qed.

Lemma nth_error_skipn_add : forall A b k (l : list A),
  nth_error (skipn b l) k = nth_error l (b + k).
Proof.
  intros A b; induction b as [| b IH]; intros k l; [reflexivity |].
  destruct l as [| a l]; simpl.
  - now destruct k.
  - apply IH.
Qed.

Lemma skipn_length_sub : forall A b (l : list A),
  List.length (skipn b l) = (List.length l - b)%nat.
Proof.
  intros A b; induction b as [| b IH]; intros l; simpl.
  - now rewrite Nat.sub_0_r.
  - destruct l as [| a l]; simpl; auto.
Qed.

(** The layout methods and the control structure of the scripts carry
    the correspondence of two runs along, provided each run was handed a
    layout of its own store. *)
Section TwoRuns.
Variables b1 b2 r1 r2 : nat.
Hypothesis Hr1 : (r1 < b1)%nat.
Hypothesis Hr2 : (r2 < b2)%nat.

Lemma ren_same_layout : forall h1 h2,
  same_layout b1 b2 r1 r2 h1 h2 -> ren b1 b2 r2 h1 = h2.
Proof.
  unfold same_layout, new_handles, ren. intros h1 h2 [[-> ->] | [Hb ->]].
  - destruct (Nat.ltb_spec r1 b1); [reflexivity | lia].
  - destruct (Nat.ltb_spec h1 b1); [lia | reflexivity].
Qed.

Lemma new_same_layout : forall h1 h2,
  new_handles b1 b2 h1 h2 -> same_layout b1 b2 r1 r2 h1 h2.
Proof. intros; now right. Qed.

Lemma same_drawing_lengths : forall w1 w2,
  same_drawing b1 b2 r2 w1 w2 ->
  new_handles b1 b2 (List.length (ui w1)) (List.length (ui w2)).
Proof.
  intros w1 w2 (_ & H1 & H2 & H). split; [exact H1 |].
  apply (f_equal (@List.length Item)) in H.
  rewrite length_map, !skipn_length_sub in H. lia.
Qed.

Lemma rel_ret : forall A (R : A -> A -> Prop) a b,
  R a b -> rel b1 b2 r2 R (ret a) (ret b).
Proof. intros A R a b H w1 w2 Hw. split; assumption. Qed.

Lemma rel_raise : forall A (R : A -> A -> Prop) e,
  rel b1 b2 r2 R (raise e) (raise e).
Proof. intros A R e w1 w2 Hw. split; [assumption | reflexivity]. Qed.

Lemma rel_bind : forall A B (R : A -> A -> Prop) (R' : B -> B -> Prop)
    (m1 m2 : M A) (k1 k2 : A -> M B),
  rel b1 b2 r2 R m1 m2 ->
  (forall a b, R a b -> rel b1 b2 r2 R' (k1 a) (k2 b)) ->
  rel b1 b2 r2 R' (bind m1 k1) (bind m2 k2).
Proof.
  intros A B R R' m1 m2 k1 k2 Hm Hk w1 w2 Hw.
  destruct (Hm w1 w2 Hw) as [Hw' Hr]. unfold bind.
  destruct (m1 w1) as [[a | e] w1'], (m2 w2) as [[b | e'] w2'];
    simpl in *; try contradiction.
  - exact (Hk a b Hr w1' w2' Hw').
  - split; assumption.
Qed.

Lemma rel_context : rel b1 b2 r2 eq context context.
Proof. intros w1 w2 Hw. split; [assumption | apply Hw]. Qed.

Lemma rel_getattr : forall A B (x : option A) attr (f : A -> B),
  rel b1 b2 r2 eq (getattr x attr f) (getattr x attr f).
Proof.
  intros A B [a |] attr f; [now apply rel_ret | apply rel_raise].
Qed.

Lemma rel_data_morph_targets : forall d,
  rel b1 b2 r2 eq (data_morph_targets d) (data_morph_targets d).
Proof. intros []; try apply rel_raise. now apply rel_ret. Qed.

Lemma rel_data_shape_keys : forall d,
  rel b1 b2 r2 eq (data_shape_keys d) (data_shape_keys d).
Proof. intros []; try apply rel_raise. now apply rel_ret. Qed.

Lemma rel_data_layers : forall d, rel b1 b2 r2 eq (data_layers d) (data_layers d).
Proof. intros []; try apply rel_raise; now apply rel_ret. Qed.

Lemma rel_add_item : forall it1 it2,
  it2 = ren_item b1 b2 r2 it1 ->
  rel b1 b2 r2 (new_handles b1 b2) (add_item it1) (add_item it2).
Proof.
  intros it1 it2 -> w1 w2 Hw.
  pose proof (same_drawing_lengths Hw) as Hl.
  destruct Hw as (Hm & H1 & H2 & H). unfold add_item; simpl.
  split; [| exact Hl].
  repeat split; simpl; try assumption.
  - rewrite length_app; lia.
  - rewrite length_app; lia.
  - rewrite !skipn_app_le by assumption. rewrite map_app, H. reflexivity.
Qed.

Lemma rel_sublayout : forall kind p1 p2 kw0,
  same_layout b1 b2 r1 r2 p1 p2 ->
  rel b1 b2 r2 (new_handles b1 b2)
    (UILayout.sublayout kind p1 kw0) (UILayout.sublayout kind p2 kw0).
Proof.
  intros kind p1 p2 kw0 Hp. apply rel_add_item. simpl.
  now rewrite (ren_same_layout Hp).
Qed.

Lemma rel_operator : forall idname p1 p2 kw0,
  same_layout b1 b2 r1 r2 p1 p2 ->
  rel b1 b2 r2 (new_handles b1 b2)
    (UILayout.operator p1 idname kw0) (UILayout.operator p2 idname kw0).
Proof.
  intros idname p1 p2 kw0 Hp. apply rel_add_item. simpl.
  now rewrite (ren_same_layout Hp).
Qed.

Lemma rel_widget : forall m p1 p2 args kw0,
  same_layout b1 b2 r1 r2 p1 p2 ->
  rel b1 b2 r2 eq (UILayout.widget m p1 args kw0) (UILayout.widget m p2 args kw0).
Proof.
  intros m p1 p2 args kw0 Hp. unfold UILayout.widget.
  eapply rel_bind.
  - apply rel_add_item. simpl. now rewrite (ren_same_layout Hp).
  - intros; now apply rel_ret.
Qed.

Lemma ren_item_setattr : forall k v it,
  ren_item b1 b2 r2 (item_setattr k v it) = item_setattr k v (ren_item b1 b2 r2 it).
Proof. intros k v []; reflexivity. Qed.

Lemma ren_item_attrs : forall it, item_attrs (ren_item b1 b2 r2 it) = item_attrs it.
Proof. intros []; reflexivity. Qed.

Lemma rel_setattr : forall V (T : ToPy V) h1 h2 attr (v : V),
  same_layout b1 b2 r1 r2 h1 h2 ->
  rel b1 b2 r2 eq (setattr h1 attr v) (setattr h2 attr v).
Proof.
  intros V T h1 h2 attr v Hh w1 w2 (Hm & H1 & H2 & H).
  unfold setattr; simpl. split; [| reflexivity].
  repeat split; simpl; try assumption;
    try (rewrite update_nth_length; assumption).
  destruct Hh as [[-> ->] | [Hb ->]].
  - now rewrite !skipn_update_nth_lt by assumption.
  - rewrite !skipn_update_nth_ge by lia.
    replace (h1 - b1 + b2 - b2)%nat with (h1 - b1)%nat by lia.
    rewrite H. symmetry. apply map_update_nth, ren_item_setattr.
Qed.

Lemma rel_readattr : forall h1 h2 attr,
  new_handles b1 b2 h1 h2 -> rel b1 b2 r2 eq (readattr h1 attr) (readattr h2 attr).
Proof.
  intros h1 h2 attr [Hb ->] w1 w2 Hw. split; [exact Hw |].
  destruct Hw as (Hm & H1 & H2 & H). unfold readattr; simpl.
  replace h1 with (b1 + (h1 - b1))%nat at 1 by lia.
  replace (h1 - b1 + b2)%nat with (b2 + (h1 - b1))%nat by lia.
  rewrite <- !nth_error_skipn_add, H, nth_error_map.
  destruct (nth_error (skipn b1 (ui w1)) (h1 - b1)) as [it |]; simpl;
    [| reflexivity].
  now rewrite ren_item_attrs.
Qed.

Lemma rel_for_each : forall A (l : list A) body1 body2,
  (forall x, rel b1 b2 r2 eq (body1 x) (body2 x)) ->
  rel b1 b2 r2 eq (for_each l body1) (for_each l body2).
Proof.
  intros A l body1 body2 Hb; induction l as [| x l IH]; simpl.
  - now apply rel_ret.
  - eapply rel_bind; [apply Hb | intros; apply IH].
Qed.
End TwoRuns.

Ltac rel_side :=
  first [ eassumption
        | apply new_same_layout; eassumption ].

Ltac rel_step :=
  lazymatch goal with
  | |- rel _ _ _ _ (bind (UILayout.sublayout _ _ _) _) _ =>
      eapply rel_bind; [ eapply rel_sublayout; rel_side | intros ? ? ? ]
  | |- rel _ _ _ _ (bind (UILayout.operator _ _ _) _) _ =>
      eapply rel_bind; [ eapply rel_operator; rel_side | intros ? ? ? ]
  | |- rel _ _ _ _ (bind _ _) _ =>
      eapply rel_bind with (R := eq);
      [ | let a := fresh "a" in let b := fresh "b" in let H := fresh "H" in
          intros a b H; subst b ]
  | |- rel _ _ _ _ (ret _) _ => apply rel_ret; reflexivity
  | |- rel _ _ _ _ (raise _) _ => apply rel_raise
  | |- rel _ _ _ _ (@context) _ => apply rel_context
  | |- rel _ _ _ _ (getattr _ _ _) _ => apply rel_getattr
  | |- rel _ _ _ _ (data_morph_targets _) _ => apply rel_data_morph_targets
  | |- rel _ _ _ _ (data_shape_keys _) _ => apply rel_data_shape_keys
  | |- rel _ _ _ _ (data_layers _) _ => apply rel_data_layers
  | |- rel _ _ _ _ (UILayout.widget _ _ _ _) _ => eapply rel_widget; rel_side
  | |- rel _ _ _ _ (setattr _ _ _) _ => eapply rel_setattr; rel_side
  | |- rel _ _ _ _ (readattr _ _) _ => eapply rel_readattr; rel_side
  | |- rel _ _ _ _ (for_each _ _) _ => apply rel_for_each; intros ?
  | |- rel _ _ _ _ (if ?c then _ else _) _ => destruct c
  | |- rel _ _ _ _ (match ?x with _ => _ end) _ => destruct x
  end.

Ltac unfold_layout_calls_keep :=
  unfold UILayout.prop, UILayout.label, UILayout.separator, UILayout.menu,
    UILayout.popover, UILayout.prop_decorator, UILayout.template_ID,
    UILayout.template_palette, UILayout.template_preview,
    UILayout.template_list, UILayout.operator_menu_enum,
    UILayout.row, UILayout.column, UILayout.split, UILayout.grid_flow, when.

Ltac is_method2 h :=
  lazymatch h with
  | UILayout.sublayout => fail
  | UILayout.operator => fail
  | UILayout.widget => fail
  | _ => is_method h
  end.

Ltac rel_method :=
  cbv zeta; unfold_layout_calls_keep;
  repeat first
    [ rel_step
    | lazymatch goal with
      | |- rel _ _ _ _ ?m _ => let h := head_of m in is_method2 h; unfold h;
                               cbv zeta; unfold_layout_calls_keep
      end ].

(** Two runs of a [draw] or [draw_header] method on layouts that
    correspond build corresponding items and end the same way. *)
Lemma draw_methods_rel :
  forall b1 b2 r1 r2, (r1 < b1)%nat -> (r2 < b2)%nat ->
  forall self1 self2,
    same_layout b1 b2 r1 r2 (layout self1) (layout self2) ->
  forall d, In d all_draw_methods ->
    rel b1 b2 r2 eq (d self1) (d self2).
Proof.
  intros b1 b2 r1 r2 Hr1 Hr2 self1 self2 Hroot d Hd. simpl in Hd.
  repeat (destruct Hd as [<- | Hd]; [solve [rel_method] |]).
  contradiction.
Qed.

Lemma relative_ren_item : forall b1 b2 r2 it,
  (r2 < b2)%nat -> relative b2 (ren_item b1 b2 r2 it) = relative b1 it.
Proof.
  intros b1 b2 r2 it Hr2.
  assert (H : forall p,
    (if (ren b1 b2 r2 p <? b2)%nat then 0%nat else (ren b1 b2 r2 p - b2 + 1)%nat)
    = (if (p <? b1)%nat then 0%nat else (p - b1 + 1)%nat)).
  { intros p. unfold ren. destruct (Nat.ltb_spec p b1).
    - destruct (Nat.ltb_spec r2 b2); [reflexivity | lia].
    - destruct (Nat.ltb_spec (p - b1 + b2) b2); lia. }
  destruct it; simpl; now rewrite H.
Qed.

Lemma same_result_eq : forall A (x y : Res A), same_result eq x y -> x = y.
Proof.
  intros A [a | e] [b | e']; simpl; intros H; try contradiction; now subst.
Qed.

(** C4: two invocations of any [draw] or [draw_header] method in states
    with the same scene data, each on some layout of its own store, end the
    same way (return, or raise the same exception) and add the same sequence
    of sub-layouts, widgets and operator buttons, with the same arguments
    and assigned attributes. *)
Theorem draw_deterministic :
  forall d w1 w2 self1 self2,
    In d all_draw_methods ->
    model w1 = model w2 ->
    (layout self1 < List.length (ui w1))%nat ->
    (layout self2 < List.length (ui w2))%nat ->
    fst (d self1 w1) = fst (d self2 w2)
    /\ added w1 (snd (d self1 w1)) = added w2 (snd (d self2 w2)).
Proof.
  intros d w1 w2 self1 self2 Hd Hm H1 H2.
  assert (Hroot : same_layout (List.length (ui w1)) (List.length (ui w2))
                    (layout self1) (layout self2) (layout self1) (layout self2))
    by (left; split; reflexivity).
  assert (Hw : same_drawing (List.length (ui w1)) (List.length (ui w2))
                 (layout self2) w1 w2).
  { repeat split; auto. now rewrite !skipn_all. }
  destruct (@draw_methods_rel _ _ _ _ H1 H2 _ _ Hroot d Hd w1 w2 Hw)
    as [(_ & _ & _ & Hs) Hr].
  split; [now apply same_result_eq |].
  unfold added. rewrite Hs, map_map.
  apply map_ext. intros it. symmetry. now apply relative_ren_item.
Qed.

Lemma draw_deterministic_witness :
  added (fresh ctx_two_morphs)
        (snd (GREASE_PENCIL_PT_ShapeKeysNPanel.draw self0 (fresh ctx_two_morphs)))
  = added world_in_use
        (snd (GREASE_PENCIL_PT_ShapeKeysNPanel.draw
                {| layout := 2%nat; layout_type := "DEFAULT" |} world_in_use)).
Proof.
  refine (proj2 (@draw_deterministic GREASE_PENCIL_PT_ShapeKeysNPanel.draw
                   (fresh ctx_two_morphs) world_in_use self0
                   {| layout := 2%nat; layout_type := "DEFAULT" |}
                   _ eq_refl _ _)).
  - simpl; tauto.
  - simpl; lia.
  - simpl; lia.
Defined.


(** * Further properties of the panels *)

(** ** Polls *)

Ltac destruct_scrutinee :=
  repeat match goal with
         | |- context [match ?x with _ => _ end] => is_var x; destruct x; cbn
         | |- context [match ?f ?x with _ => _ end] => is_var x; destruct x; cbn
         | |- context [if ?x then _ else _] => destruct x eqn:?; cbn
         end.

(** X1: no [poll] of any class raises, whatever the context: each returns
    a value the host can test. *)
Theorem polls_never_raise :
  forall c poll ctx,
    In c all_classes ->
    cls_poll c = Some poll ->
    exists v, result poll ctx = Ok v.
Proof.
  intros c poll ctx Hc Hp. simpl in Hc.
  repeat (destruct Hc as [<- | Hc];
    [ first
        [ discriminate Hp
        | injection Hp as <-; destruct ctx; unfold result; cbn;
          unfold type, other_kind_name, data_morph_targets, data_shape_keys;
          cbn;
          destruct_scrutinee;
          first [ solve [eexists; reflexivity] | simpl in *; congruence ] ]
    | ]).
  contradiction.
Qed.

Lemma polls_never_raise_witness :
  exists v, result GPENCIL_PT_MorphTargetsNPanel.poll ctx_shape_keys_unset = Ok v.
Proof.
  apply (@polls_never_raise
           (panel "GPENCIL_PT_MorphTargetsNPanel"
              GPENCIL_PT_MorphTargetsNPanel.poll
              GPENCIL_PT_MorphTargetsNPanel.draw)).
  - unfold all_classes. apply in_or_app; left. simpl; tauto.
  - reflexivity.
Defined.

(** X2: a visible sub-panel has a visible parent: for every class that
    declares a [bl_parent_id], the parent is one of the classes of these
    files, and a context that passes the child's [poll] passes the
    parent's. *)
Theorem sub_panel_visible_parent_visible :
  forall c parent ctx,
    In c all_classes ->
    bl_parent_id (bl_name c) = Some parent ->
    exists p, class_named parent = Some p
              /\ In p all_classes
              /\ (visible c ctx = true -> visible p ctx = true).
Proof.
  intros c parent ctx Hc Hparent. simpl in Hc.
  repeat (destruct Hc as [<- | Hc];
    [ first
        [ discriminate Hparent
        | injection Hparent as <-; eexists; split; [reflexivity |];
          split; [simpl; tauto |];
          intros Hv; destruct ctx; poll_facts Hv;
          unfold visible, result; cbn; reflexivity ]
    | ]).
  contradiction.
Qed.

Lemma sub_panel_visible_parent_visible_witness :
  let ondine := panel "MATERIAL_PT_gpencil_fillcolor_ondine"
                  MATERIAL_PT_gpencil_fillcolor_ondine.poll
                  MATERIAL_PT_gpencil_fillcolor_ondine.draw in
  let ctx := ctx_of_material (Some {| grease_pencil := Some gpcolor_gradient |}) in
  visible ondine ctx = true
  /\ exists p, class_named "MATERIAL_PT_gpencil_fillcolor" = Some p
               /\ In p all_classes
               /\ visible p ctx = true.
Proof.
  intros ondine ctx.
  assert (Hin : In ondine all_classes).
  { unfold all_classes.
    apply in_or_app; right. apply in_or_app; right. apply in_or_app; right.
    simpl; tauto. }
  assert (Hchild : visible ondine ctx = true) by reflexivity.
  destruct (@sub_panel_visible_parent_visible
              ondine "MATERIAL_PT_gpencil_fillcolor" ctx Hin eq_refl)
    as (p & Hp & Hpin & Hv).
  split; [exact Hchild |].
  exists p. split; [exact Hp |]. split; [exact Hpin |]. exact (Hv Hchild).
Defined.

(** X3: the material slots panel is visible exactly when the context has a
    material with Grease Pencil settings or an object of type
    ['GREASEPENCIL']; so it is visible whenever a panel polled by
    [GPMaterialButtonsPanel.poll] is. *)
Theorem material_slots_poll :
  forall ctx,
    let slots := panel_external_draw "MATERIAL_PT_gpencil_slots"
                   MATERIAL_PT_gpencil_slots.poll in
    (visible slots ctx = true <->
       (exists ma gpcolor,
           ctx_material ctx = Some ma /\ grease_pencil ma = Some gpcolor)
       \/ (exists ob, object ctx = Some ob /\ type ob = "GREASEPENCIL"))
    /\ (forall v, result GPMaterialButtonsPanel.poll ctx = Ok v ->
                  truthy v = true -> visible slots ctx = true).
Proof.
  intros ctx slots; subst slots.
  destruct ctx as [ob aob gp cgp ma sp sc ts].
  unfold visible, result; cbn. unfold py_or, and_then; cbn.
  destruct ma as [[[gpcolor |]] |]; cbn.
  - split; [| intros; reflexivity].
    split; [intros _; left; eexists _, _; split; reflexivity | reflexivity].
  - split.
    + destruct ob as [ob |]; cbn.
      * destruct (String.eqb (type ob) "GREASEPENCIL") eqn:E.
        -- apply String.eqb_eq in E. split; [intros _; right; eauto | reflexivity].
        -- apply String.eqb_neq in E. split; [discriminate |].
           intros [(ma & g & H & H') | (ob' & H & H')].
           ++ injection H as <-. discriminate H'.
           ++ injection H as <-. contradiction.
      * split; [discriminate |].
        intros [(ma & g & H & H') | (ob' & H & H')]; try discriminate.
        injection H as <-. discriminate H'.
    + intros v H; injection H as <-. discriminate.
  - split.
    + destruct ob as [ob |]; cbn.
      * destruct (String.eqb (type ob) "GREASEPENCIL") eqn:E.
        -- apply String.eqb_eq in E. split; [intros _; right; eauto | reflexivity].
        -- apply String.eqb_neq in E. split; [discriminate |].
           intros [(ma & g & H & H') | (ob' & H & H')]; [discriminate |].
           injection H as <-. contradiction.
      * split; [discriminate |].
        intros [(ma & g & H & H') | (ob' & H & H')]; discriminate.
    + intros v H; injection H as <-. discriminate.
Qed.

(** ** A draw method writes only to its own layout *)

Lemma nth_error_update_nth_neq : forall A (f : A -> A) h h' (l : list A),
  h' <> h -> nth_error (update_nth h f l) h' = nth_error l h'.
Proof.
  intros A f h; induction h as [| h IH]; intros h' l Hne.
  - destruct l as [| a l]; [reflexivity |].
    destruct h' as [| h']; [contradiction | reflexivity].
  - destruct l as [| a l]; [reflexivity |].
    destruct h' as [| h']; [reflexivity |]. simpl. apply IH. congruence.
Qed.

Section StoreFrame.
Variable l0 : list Item.
Variable r : handle.

Lemma own_root : own_handle l0 r r.
Proof. now left. Qed.

Lemma own_new : forall h, (List.length l0 <= h)%nat -> own_handle l0 r h.
Proof. intros; now right. Qed.

Lemma ks_ret : forall A (P : A -> Prop) a, P a -> keeps_store l0 r P (ret a).
Proof.
  intros A P a Ha w Hw. split; [exact Hw |].
  intros a' E. injection E as <-. exact Ha.
Qed.

Lemma ks_raise : forall A (P : A -> Prop) e, keeps_store l0 r P (raise e).
Proof. intros A P e w Hw. split; [exact Hw | discriminate]. Qed.

Lemma ks_bind : forall A B (P : A -> Prop) (Q : B -> Prop) (m : M A) (k : A -> M B),
  keeps_store l0 r P m ->
  (forall a, P a -> keeps_store l0 r Q (k a)) ->
  keeps_store l0 r Q (bind m k).
Proof.
  intros A B P Q m k Hm Hk w Hw.
  destruct (Hm w Hw) as [Hw' Ha]. unfold bind.
  destruct (m w) as [[a | e] w']; simpl in *.
  - exact (Hk a (Ha a eq_refl) w' Hw').
  - split; [exact Hw' | discriminate].
Qed.

Lemma ks_pure : forall A (m : M A),
  (forall w, snd (m w) = w) -> keeps_store l0 r (fun _ => True) m.
Proof.
  intros A m Hm w Hw. rewrite Hm. split; [exact Hw | trivial].
Qed.

Lemma ks_context : keeps_store l0 r (fun _ => True) context.
Proof. now apply ks_pure. Qed.

Lemma ks_getattr : forall A B (x : option A) attr (f : A -> B),
  keeps_store l0 r (fun _ => True) (getattr x attr f).
Proof. intros A B [a |] attr f; now apply ks_pure. Qed.

Lemma ks_readattr : forall h attr,
  keeps_store l0 r (fun _ => True) (readattr h attr).
Proof. intros; now apply ks_pure. Qed.

Lemma ks_data_morph_targets : forall d,
  keeps_store l0 r (fun _ => True) (data_morph_targets d).
Proof. intros []; now apply ks_pure. Qed.

Lemma ks_data_shape_keys : forall d,
  keeps_store l0 r (fun _ => True) (data_shape_keys d).
Proof. intros []; now apply ks_pure. Qed.

Lemma ks_data_layers : forall d,
  keeps_store l0 r (fun _ => True) (data_layers d).
Proof. intros []; now apply ks_pure. Qed.

Lemma ks_add_item : forall it,
  keeps_store l0 r (fun h => (List.length l0 <= h)%nat) (add_item it).
Proof.
  intros it w [Hl Hn]. unfold add_item; simpl. split.
  - split; simpl.
    + rewrite length_app; lia.
    + intros h Hh Hr. rewrite nth_error_app1 by lia. now apply Hn.
  - intros a E. injection E as <-. exact Hl.
Qed.

Lemma ks_widget : forall m p args kw0,
  keeps_store l0 r (fun _ => True) (UILayout.widget m p args kw0).
Proof.
  intros. unfold UILayout.widget.
  eapply ks_bind; [apply ks_add_item | intros; now apply ks_ret].
Qed.

Lemma ks_setattr : forall V (T : ToPy V) h attr (v : V),
  own_handle l0 r h -> keeps_store l0 r (fun _ => True) (setattr h attr v).
Proof.
  intros V T h attr v Hh w [Hl Hn]. unfold setattr; simpl.
  split; [| trivial]. split; simpl.
  - now rewrite update_nth_length.
  - intros h' Hh' Hr. rewrite nth_error_update_nth_neq; [now apply Hn |].
    destruct Hh as [-> | Hh]; [assumption | lia].
Qed.

Lemma ks_for_each : forall A (l : list A) body,
  (forall x, keeps_store l0 r (fun _ => True) (body x)) ->
  keeps_store l0 r (fun _ => True) (for_each l body).
Proof.
  intros A l body Hb; induction l as [| x l IH]; simpl.
  - now apply ks_ret.
  - eapply ks_bind; [apply Hb | intros; apply IH].
Qed.
End StoreFrame.

Ltac ks_side :=
  first [ eassumption | apply own_new; eassumption ].

Ltac ks_step :=
  lazymatch goal with
  | |- keeps_store _ _ _ (bind (UILayout.sublayout _ _ _) _) =>
      eapply ks_bind; [ apply ks_add_item | intros ? ? ]
  | |- keeps_store _ _ _ (bind (UILayout.operator _ _ _) _) =>
      eapply ks_bind; [ apply ks_add_item | intros ? ? ]
  | |- keeps_store _ _ _ (bind _ _) =>
      eapply ks_bind with (P := fun _ => True); [| intros ? _ ]
  | |- keeps_store _ _ _ (ret _) => apply ks_ret; exact I
  | |- keeps_store _ _ _ (raise _) => apply ks_raise
  | |- keeps_store _ _ _ (@context) => apply ks_context
  | |- keeps_store _ _ _ (getattr _ _ _) => apply ks_getattr
  | |- keeps_store _ _ _ (data_morph_targets _) => apply ks_data_morph_targets
  | |- keeps_store _ _ _ (data_shape_keys _) => apply ks_data_shape_keys
  | |- keeps_store _ _ _ (data_layers _) => apply ks_data_layers
  | |- keeps_store _ _ _ (UILayout.widget _ _ _ _) => apply ks_widget
  | |- keeps_store _ _ _ (setattr _ _ _) => apply ks_setattr; ks_side
  | |- keeps_store _ _ _ (readattr _ _) => apply ks_readattr
  | |- keeps_store _ _ _ (for_each _ _) => apply ks_for_each; intros ?
  | |- keeps_store _ _ _ (if ?c then _ else _) => destruct c
  | |- keeps_store _ _ _ (match ?x with _ => _ end) => destruct x
  end.

Ltac ks_method :=
  cbv zeta; unfold_layout_calls_keep;
  repeat first
    [ ks_step
    | lazymatch goal with
      | |- keeps_store _ _ _ ?m => let h := head_of m in is_method2 h; unfold h;
                                   cbv zeta; unfold_layout_calls_keep
      end ].

Lemma keeps_store_untouched : forall (m : M unit) r w,
  keeps_store (ui w) r (fun _ => True) m -> untouched_outside r w (snd (m w)).
Proof.
  intros m r w Hm. apply Hm. split; auto.
Qed.

(** X4: a [draw], [draw_header] or [draw_item] method, run in any store on
    any layout, removes nothing from the store and changes no item that was
    there other than the layout it was handed: it writes only to that
    layout and to what it creates. *)
Theorem draw_methods_touch_only_their_layout :
  forall self w,
    (forall d, In d all_draw_methods ->
               untouched_outside (layout self) w (snd (d self w)))
    /\ (forall layout item icon,
          untouched_outside layout w
            (snd (GPENCIL_UL_matslots.draw_item self layout item icon w)))
    /\ (forall layout item icon,
          untouched_outside layout w
            (snd (GPENCIL_UL_vgroups.draw_item self layout item icon w))).
Proof.
  intros self w. split; [| split].
  - intros d Hd. apply keeps_store_untouched.
    pose proof (own_root (ui w) (layout self)) as Hroot.
    simpl in Hd.
    repeat (destruct Hd as [<- | Hd]; [solve [ks_method] |]).
    contradiction.
  - intros layout item icon. apply keeps_store_untouched.
    pose proof (own_root (ui w) layout) as Hroot. ks_method.
  - intros layout item icon. apply keeps_store_untouched.
    pose proof (own_root (ui w) layout) as Hroot. ks_method.
Qed.

(** ** Material panels *)

Ltac eval_draw :=
  unfold result, drawn, store_after; cbn;
  repeat (progress (unfold when; cbn; destruct_scrutinee)).

(** X5: the Surface, Stroke (header and body), Stroke Default Render and
    Fill Default Render methods test the material themselves: they return
    normally in every context, and where there is no material with Grease
    Pencil settings they draw nothing. *)
Theorem guarded_material_draws :
  forall ctx d,
    In d [ MATERIAL_PT_gpencil_surface.draw;
           MATERIAL_PT_gpencil_strokecolor.draw_header;
           MATERIAL_PT_gpencil_strokecolor.draw;
           MATERIAL_PT_gpencil_strokecolor_default.draw;
           MATERIAL_PT_gpencil_fillcolor_default.draw ] ->
    result (d self0) ctx = Ok tt
    /\ (~ (exists ma gpcolor,
             ctx_material ctx = Some ma /\ grease_pencil ma = Some gpcolor) ->
        drawn (d self0) ctx = []).
Proof.
  intros ctx d Hd. destruct ctx as [ob aob gp cgp ma sp sc ts]. simpl in Hd.
  repeat (destruct Hd as [<- | Hd];
    [ destruct ma as [[[gpcolor |]] |];
      [ split; [eval_draw; reflexivity |];
        intros H; exfalso; apply H; eexists _, _; split; reflexivity
      | split; [reflexivity | intros _; reflexivity]
      | split; [reflexivity | intros _; reflexivity] ]
    | ]).
  contradiction.
Qed.

Lemma guarded_material_draws_witness :
  result (MATERIAL_PT_gpencil_strokecolor.draw self0) (ctx_of_material None)
  = Ok tt.
Proof.
  refine (proj1 (@guarded_material_draws (ctx_of_material None)
                   MATERIAL_PT_gpencil_strokecolor.draw _)).
  simpl; tauto.
Defined.

(** X6: the Fill and Ondine Render bodies, the Fill header and the
    Settings body read [context.material.grease_pencil] without testing
    the material.  The Fill and Ondine bodies go on to read attributes of
    the settings: they return normally exactly when the context has a
    material with Grease Pencil settings, which is when
    [GPMaterialButtonsPanel.poll] is true.  The Fill header and the
    Settings body raise on [ma.grease_pencil], with nothing drawn, when
    there is no material; when the material has settings they return
    normally with one property, of those settings.  (For a material
    without settings they go on to call [prop] with [None]; whether that
    returns is the host's to say.) *)
Theorem unguarded_material_draws :
  forall ctx,
    let polled_ok :=
      match result GPMaterialButtonsPanel.poll ctx with
      | Ok v => truthy v
      | Raise _ => false
      end in
    is_ok (result (MATERIAL_PT_gpencil_fillcolor.draw self0) ctx) = polled_ok
    /\ is_ok (result (MATERIAL_PT_gpencil_fillcolor_ondine.draw self0) ctx)
       = polled_ok
    /\ Forall (fun dp : (Self -> M unit) * string =>
                 let m := fst dp self0 in
                 match ctx_material ctx with
                 | None =>
                     result m ctx = Raise (AttributeError "grease_pencil")
                     /\ drawn m ctx = []
                 | Some ma =>
                     forall gpcolor, grease_pencil ma = Some gpcolor ->
                       result m ctx = Ok tt
                       /\ map (fun x => (fst (fst x), snd (fst x)))
                              (props_of (drawn m ctx))
                          = [ (VObj (OGPColor gpcolor), snd dp) ]
                 end)
         [ (MATERIAL_PT_gpencil_fillcolor.draw_header, "show_fill");
           (MATERIAL_PT_gpencil_settings.draw, "pass_index") ].
Proof.
  intros ctx polled_ok; subst polled_ok.
  destruct ctx as [ob aob gp cgp ma sp sc ts].
  split; [| split].
  - destruct ma as [[[gpcolor |]] |]; eval_draw; reflexivity.
  - destruct ma as [[[gpcolor |]] |]; eval_draw; reflexivity.
  - repeat constructor; cbn [fst snd ctx_material];
      (destruct ma as [[g] |];
       [ intros gpcolor Hg; cbn in Hg; subst g; split; reflexivity
       | split; reflexivity ]).
Qed.

Lemma unguarded_material_draws_witness :
  result (MATERIAL_PT_gpencil_fillcolor.draw_header self0)
         (ctx_of_material (Some {| grease_pencil := Some gpcolor_plain |}))
  = Ok tt.
Proof.
  exact (proj1 (Forall_inv
                  (proj2 (proj2 (@unguarded_material_draws
                                   (ctx_of_material
                                      (Some {| grease_pencil := Some gpcolor_plain |})))))
                  gpcolor_plain eq_refl)).
Defined.

Ltac eqb_hyps :=
  repeat match goal with
         | H : String.eqb _ _ = true |- _ => apply String.eqb_eq in H
         | H : String.eqb _ _ = false |- _ => apply String.eqb_neq in H
         | H : (_ || _)%bool = true |- _ => apply Bool.orb_true_iff in H
         | H : (_ || _)%bool = false |- _ =>
             apply Bool.orb_false_iff in H; destruct H
         | H : (_ && _)%bool = true |- _ =>
             apply Bool.andb_true_iff in H; destruct H
         | H : (_ && _)%bool = false |- _ => apply Bool.andb_false_iff in H
         end.

(** X7: each of the three palette pop-overs returns normally exactly when
    the context has a material and the scene has Grease Pencil paint
    settings; otherwise it raises before drawing anything.  When it
    returns it shows the palette selector, followed by the palette itself
    exactly when the paint settings have a palette. *)
Theorem palette_popovers :
  forall ctx d,
    In d [ MATERIAL_PT_gpencil_strokecolor_palette.draw;
           MATERIAL_PT_gpencil_fillcolor_palette.draw;
           MATERIAL_PT_gpencil_mixcolor_palette.draw ] ->
    let paint := gpencil_paint (tool_settings (scene ctx)) in
    is_ok (result (d self0) ctx) = (truthy (ctx_material ctx) && truthy paint)%bool
    /\ (is_ok (result (d self0) ctx) = false -> drawn (d self0) ctx = [])
    /\ (is_ok (result (d self0) ctx) = true ->
        widget_methods (drawn (d self0) ctx) =
        "template_ID"
        :: match paint with
           | Some p => if truthy (palette p) then ["template_palette"] else []
           | None => []
           end).
Proof.
  intros ctx d Hd paint; subst paint.
  destruct ctx as [ob aob gp cgp ma sp [[paint]] ts]. simpl in Hd.
  repeat (destruct Hd as [<- | Hd];
    [ destruct ma as [[gpcolor] |], paint as [[[[n] |]] |];
      repeat split; try discriminate; try reflexivity;
      unfold result, drawn; cbn;
      unfold GPMaterialColorPalettePanel.set_shaded_color_palette_width,
        bind, ret, getattr; cbn;
      repeat match goal with
             | |- context [?a =? 0] => destruct (a =? 0) eqn:?; cbn
             end;
      intros; try discriminate; reflexivity
    | ]).
  contradiction.
Qed.

Lemma palette_popovers_witness :
  is_ok (result (MATERIAL_PT_gpencil_mixcolor_palette.draw self0)
                (ctx_of_material None)) = false.
Proof.
  exact (proj1 (@palette_popovers (ctx_of_material None)
                  MATERIAL_PT_gpencil_mixcolor_palette.draw
                  (or_intror (or_intror (or_introl eq_refl))))).
Defined.

(** X8: [set_shaded_color_palette_width] raises when there are no paint
    settings, leaves the width alone when there is no palette or the
    palette has no shaders, and otherwise sets [ui_units_x] to the shader
    count from 10 on and to twice the count below 10; for a positive count
    the width is at least 2 and lies between the count and twice the
    count. *)
Theorem shaded_color_palette_width :
  forall ctx self paint,
    let m := GPMaterialColorPalettePanel.set_shaded_color_palette_width
               self 0%nat paint in
    let width := root_attr "ui_units_x" (store_after m ctx) in
    match paint with
    | None => result m ctx = Raise (AttributeError "palette")
    | Some p =>
        result m ctx = Ok tt
        /\ match palette p with
           | None => width = None
           | Some pal =>
               let n := shader_count pal in
               (n = 0 -> width = None)
               /\ (10 <= n -> width = Some (VInt n))
               /\ (n < 10 -> n <> 0 -> width = Some (VInt (2 * n)))
               /\ (1 <= n -> exists wd, width = Some (VInt wd)
                                       /\ 2 <= wd /\ n <= wd <= 2 * n)
           end
    end.
Proof.
  intros ctx self [[[[n] |]] |];
    unfold result, store_after, root_attr,
      GPMaterialColorPalettePanel.set_shaded_color_palette_width,
      bind, ret, getattr, setattr;
    remember Z.mul as mul eqn:Hmul; cbn; try (split; reflexivity);
    try reflexivity.
  destruct (Z.eqb_spec n 0) as [-> | Hn]; cbn.
  - subst mul. repeat split; intros; try reflexivity; try lia.
  - split; [reflexivity |].
    destruct (Z.geb_spec n 10) as [Hge | Hlt]; subst mul.
    + repeat split; intros; try reflexivity; try lia.
      exists n. repeat split; try reflexivity; lia.
    + repeat split; intros; try reflexivity; try lia.
      exists (2 * n). repeat split; try reflexivity; lia.
Qed.

Ltac split_cases :=
  repeat (progress (eqb_hyps;
                    repeat match goal with H : _ \/ _ |- _ => destruct H end));
  subst.

Ltac with_material ctx ma gpcolor Hma Hgp :=
  destruct ctx; cbn in Hma; subst; destruct ma; cbn in Hgp; subst;
  destruct gpcolor.

(** X9: for a material with Grease Pencil settings, the Fill panel and its
    Default Render sub-panel together offer the base colour ([fill_color])
    exactly once for each of the fill styles ['SOLID'], ['GRADIENT'] and
    ['TEXTURE'] (in the Fill panel for the first two, in the sub-panel for
    the third) and not at all for any other style. *)
Theorem fill_base_color_offered_once :
  forall ctx ma gpcolor,
    ctx_material ctx = Some ma ->
    grease_pencil ma = Some gpcolor ->
    let in_fill :=
      List.length (props_named "fill_color"
                     (drawn (MATERIAL_PT_gpencil_fillcolor.draw self0) ctx)) in
    let in_default :=
      List.length (props_named "fill_color"
                     (drawn (MATERIAL_PT_gpencil_fillcolor_default.draw self0) ctx)) in
    (fill_style gpcolor = "SOLID" \/ fill_style gpcolor = "GRADIENT" ->
     in_fill = 1%nat /\ in_default = 0%nat)
    /\ (fill_style gpcolor = "TEXTURE" -> in_fill = 0%nat /\ in_default = 1%nat)
    /\ (fill_style gpcolor <> "SOLID" -> fill_style gpcolor <> "GRADIENT" ->
        fill_style gpcolor <> "TEXTURE" -> in_fill = 0%nat /\ in_default = 0%nat).
Proof.
  intros ctx ma gpcolor Hma Hgp in_fill in_default; subst in_fill in_default.
  with_material ctx ma gpcolor Hma Hgp. cbn [fill_style].
  repeat split; intros; eval_draw; split_cases;
    try reflexivity; try congruence; cbn in *; congruence.
Qed.

Lemma fill_base_color_offered_once_witness :
  List.length (props_named "fill_color"
                 (drawn (MATERIAL_PT_gpencil_fillcolor.draw self0)
                    (ctx_of_material
                       (Some {| grease_pencil := Some gpcolor_plain |})))) = 1%nat.
Proof.
  exact (proj1 (proj1 (@fill_base_color_offered_once
                         (ctx_of_material
                            (Some {| grease_pencil := Some gpcolor_plain |}))
                         _ _ eq_refl eq_refl)
                      (or_introl eq_refl))).
Defined.

(** X10: for a material with Grease Pencil settings the Stroke Default
    Render sub-panel always offers [use_stroke_holdout]; it offers
    [alignment_mode] exactly for the modes ['DOTS'] and ['BOX'],
    [use_overlap_strokes] exactly for ['LINE'], and [pixel_size] exactly for
    a textured ['LINE'], so never the alignment together with the overlap
    or the UV factor. *)
Theorem stroke_default_render_props :
  forall ctx ma gpcolor,
    ctx_material ctx = Some ma ->
    grease_pencil ma = Some gpcolor ->
    let ps := prop_names
                (drawn (MATERIAL_PT_gpencil_strokecolor_default.draw self0) ctx) in
    In "use_stroke_holdout" ps
    /\ (In "alignment_mode" ps <-> mode gpcolor = "DOTS" \/ mode gpcolor = "BOX")
    /\ (In "use_overlap_strokes" ps <-> mode gpcolor = "LINE")
    /\ (In "pixel_size" ps <->
        stroke_style gpcolor = "TEXTURE" /\ mode gpcolor = "LINE")
    /\ ~ (In "alignment_mode" ps
          /\ (In "use_overlap_strokes" ps \/ In "pixel_size" ps)).
Proof.
  intros ctx ma gpcolor Hma Hgp ps; subst ps.
  with_material ctx ma gpcolor Hma Hgp. cbn [mode stroke_style].
  unfold prop_names. eval_draw; split_cases; cbn in *;
    intuition (try congruence; try discriminate).
Qed.

Lemma stroke_default_render_props_witness :
  In "use_stroke_holdout"
     (prop_names
        (drawn (MATERIAL_PT_gpencil_strokecolor_default.draw self0)
           (ctx_of_material (Some {| grease_pencil := Some gpcolor_plain |})))).
Proof.
  exact (proj1 (@stroke_default_render_props
                  (ctx_of_material
                     (Some {| grease_pencil := Some gpcolor_plain |}))
                  _ _ eq_refl eq_refl)).
Defined.

(** ** Data panels *)

Ltac with_gpencil ctx gpd Hg :=
  destruct ctx; cbn in Hg; subst;
  destruct gpd as [[lay_elems lay_active] [mt_elems mt_active]];
  cbn in *.

(** X11: with a non-empty [layers] collection the Layers panel shows the
    layer list and the add and remove buttons; the context menu appears
    exactly when there is an active layer, and the move-up, move-down and
    the two isolate buttons exactly when there is an active layer and more
    than one layer. *)
Theorem layers_panel_controls :
  forall ctx gpd,
    gpencil ctx = Some gpd ->
    elems (layers gpd) <> [] ->
    let d := drawn (DATA_PT_gpencil_layers.draw self0) ctx in
    result (DATA_PT_gpencil_layers.draw self0) ctx = Ok tt
    /\ operators_of d =
       ([ ("gpencil.layer_add", []); ("gpencil.layer_remove", []) ]
        ++ if (truthy (active (layers gpd))
               && (len (elems (layers gpd)) >? 1))%bool
           then [ ("gpencil.layer_move", [("type", VStr "UP")]);
                  ("gpencil.layer_move", [("type", VStr "DOWN")]);
                  ("gpencil.layer_isolate", [("affect_visibility", VBool true)]);
                  ("gpencil.layer_isolate", [("affect_visibility", VBool false)]) ]
           else [])%list
    /\ List.length (filter (fun m => String.eqb m "template_list")
                           (widget_methods d)) = 1%nat
    /\ List.length (filter (fun m => String.eqb m "menu") (widget_methods d))
       = (if truthy (active (layers gpd)) then 1 else 0)%nat.
Proof.
  intros ctx gpd Hg Hl d; subst d.
  with_gpencil ctx gpd Hg.
  destruct lay_elems as [| l0 ls]; [contradiction |].
  repeat split; eval_draw; reflexivity.
Qed.

Lemma layers_panel_controls_witness :
  result (DATA_PT_gpencil_layers.draw self0) ctx_no_active_layer = Ok tt.
Proof.
  refine (proj1 (@layers_panel_controls ctx_no_active_layer _ eq_refl _)).
  simpl; discriminate.
Defined.

(** X12: the per-layer properties of the Layers panel are all properties
    of the active layer: none without an active layer; [blend_mode],
    [opacity] and [use_lights] for an ordinary data-block; the eleven
    watercolor properties for a watercolor data-block.  [opacity] is among
    them exactly once either way. *)
Theorem layers_panel_layer_props :
  forall ctx gpd,
    gpencil ctx = Some gpd ->
    elems (layers gpd) <> [] ->
    let d := drawn (DATA_PT_gpencil_layers.draw self0) ctx in
    map (fun x => (fst (fst x), snd (fst x))) (props_of d) =
    match active (layers gpd) with
    | None => []
    | Some gpl =>
        map (fun p => (VObj (OLayer gpl), p))
            (if watercolor gpd
             then [ "clear_underlying"; "mix_with_underlying";
                    "limit_to_underlying"; "gouache_style";
                    "scale_pigment_flow"; "is_wetted"; "opacity";
                    "watercolor_alpha_variation"; "watercolor_color_variation";
                    "stroke_wetness"; "stroke_dryness" ]
             else [ "blend_mode"; "opacity"; "use_lights" ])
    end.
Proof.
  intros ctx gpd Hg Hl d; subst d.
  with_gpencil ctx gpd Hg.
  destruct lay_elems as [| l0 ls]; [contradiction |].
  eval_draw; reflexivity.
Qed.

Lemma layers_panel_layer_props_witness :
  List.length
    (props_of (drawn (DATA_PT_gpencil_layers.draw self0)
                     (ctx_of_gpencil gpd_watercolor))) = 11%nat.
Proof.
  assert (Hne : elems (layers gpd_watercolor) <> []) by (simpl; discriminate).
  pose proof (@layers_panel_layer_props (ctx_of_gpencil gpd_watercolor)
                gpd_watercolor eq_refl Hne) as H.
  apply (f_equal (@List.length _)) in H.
  rewrite length_map in H. exact H.
Defined.

(** X13: in a watercolor data-block with an active layer, the columns
    holding [scale_pigment_flow], [is_wetted] and [stroke_wetness] are
    enabled exactly when the layer's [stroke_dryness] is 0, the column of
    [stroke_dryness] is always enabled, the other columns are left as they
    are, and the panel ends with property split switched on again. *)
Theorem layers_panel_watercolor_enabled :
  forall ctx gpd gpl,
    gpencil ctx = Some gpd ->
    elems (layers gpd) <> [] ->
    active (layers gpd) = Some gpl ->
    watercolor gpd = true ->
    let store := store_after (DATA_PT_gpencil_layers.draw self0) ctx in
    let wet := Some (VBool (Qeq_bool (stroke_dryness gpl) 0)) in
    layout_attr_of (is_prop "scale_pigment_flow") "enabled" store = wet
    /\ layout_attr_of (is_prop "is_wetted") "enabled" store = wet
    /\ layout_attr_of (is_prop "stroke_wetness") "enabled" store = wet
    /\ layout_attr_of (is_prop "stroke_dryness") "enabled" store
       = Some (VBool true)
    /\ layout_attr_of (is_prop "gouache_style") "enabled" store = None
    /\ layout_attr_of (is_prop "opacity") "enabled" store = None
    /\ root_attr "use_property_split" store = Some (VBool true).
Proof.
  intros ctx gpd gpl Hg Hl Ha Hw store wet; subst store wet.
  with_gpencil ctx gpd Hg. subst.
  destruct lay_elems as [| l0 ls]; [contradiction |].
  repeat split; eval_draw; reflexivity.
Qed.

Lemma layers_panel_watercolor_enabled_witness :
  layout_attr_of (is_prop "stroke_wetness") "enabled"
    (store_after (DATA_PT_gpencil_layers.draw self0)
                 (ctx_of_gpencil gpd_watercolor))
  = Some (VBool true).
Proof.
  refine (proj1 (proj2 (proj2
    (@layers_panel_watercolor_enabled (ctx_of_gpencil gpd_watercolor)
       gpd_watercolor layer_wet eq_refl _ eq_refl eq_refl)))).
  simpl; discriminate.
Defined.

(** X14: the Morph Targets panel of the data tab.  Without an active morph
    target it offers only add and remove and shows no property.  With one
    it adds the two move buttons and the Edit and Finish Edit buttons, of
    which exactly one sits in an active column: Edit outside edit mode,
    Finish Edit (drawn depressed) inside; the note appears exactly in edit
    mode, and the layer order properties exactly when the target morphs the
    layer order. *)
Theorem morph_targets_panel_editing :
  forall ctx gpd,
    gpencil ctx = Some gpd ->
    let m := DATA_PT_gpencil_morph_targets.draw self0 in
    let d := drawn m ctx in
    let store := store_after m ctx in
    let editing := in_morph_edit_mode gpd in
    result m ctx = Ok tt
    /\ match active (morph_targets gpd) with
       | None =>
           operator_names d =
             [ "gpencil.morph_target_add"; "gpencil.morph_target_remove" ]
           /\ props_of d = []
       | Some gpmt =>
           operators_of d =
             [ ("gpencil.morph_target_add", []);
               ("gpencil.morph_target_remove", []);
               ("gpencil.morph_target_move", [("direction", VStr "UP")]);
               ("gpencil.morph_target_move", [("direction", VStr "DOWN")]);
               ("gpencil.morph_target_edit", []);
               ("gpencil.morph_target_edit_finish", []) ]
           /\ layout_attr_of (is_operator "gpencil.morph_target_edit")
                "active" store = Some (VBool (negb editing))
           /\ layout_attr_of (is_operator "gpencil.morph_target_edit_finish")
                "active" store = Some (VBool editing)
           /\ filter_map
                (fun it => match it with
                           | IOperator _ "gpencil.morph_target_edit_finish" kw0 _
                             => get_kw "depress" kw0
                           | _ => None
                           end) d = [VBool editing]
           /\ List.length (filter (fun m => String.eqb m "label")
                                  (widget_methods d))
              = (if editing then 1 else 0)%nat
           /\ map (fun x => (fst (fst x), snd (fst x))) (props_of d) =
              map (fun p => (VObj (OMorphTarget gpmt), p))
                  ([ "value"; "slider_min"; "slider_max" ]
                   ++ if morphed_layer_order gpmt
                      then [ "layer_order_compare"; "layer_order_value" ]
                      else [])
       end.
Proof.
  intros ctx gpd Hg m d store editing; subst m d store editing.
  with_gpencil ctx gpd Hg.
  destruct mt_active as [gpmt |]; repeat split; eval_draw; reflexivity.
Qed.

Lemma morph_targets_panel_editing_witness :
  result (DATA_PT_gpencil_morph_targets.draw self0) (ctx_of_gpencil gpd_editing)
  = Ok tt.
Proof.
  exact (proj1 (@morph_targets_panel_editing (ctx_of_gpencil gpd_editing)
                  gpd_editing eq_refl)).
Defined.

(** X15: the Vertex Groups panel raises, before drawing anything, when
    there is no object.  With an object it shows the list with 4 rows when
    a group is active and 2 otherwise, the add and remove buttons, the two
    move buttons exactly when a group is active, and the assign, remove,
    select and deselect buttons with the weight exactly when the object has
    vertex groups. *)
Theorem vertex_groups_panel :
  forall ctx,
    let m := DATA_PT_gpencil_vertex_groups.draw self0 in
    let d := drawn m ctx in
    match object ctx with
    | None => result m ctx = Raise (AttributeError "vertex_groups") /\ d = []
    | Some ob =>
        let group := truthy (active (vertex_groups ob)) in
        let any := truthy (vertex_groups ob) in
        result m ctx = Ok tt
        /\ filter_map
             (fun it => match it with
                        | IWidget _ "template_list" _ kw0 => get_kw "rows" kw0
                        | _ => None
                        end) d = [VInt (if group then 4 else 2)]
        /\ operator_names d =
           ([ "object.vertex_group_add"; "object.vertex_group_remove" ]
            ++ (if group
                then [ "object.vertex_group_move"; "object.vertex_group_move" ]
                else [])
            ++ (if any
                then [ "gpencil.vertex_group_assign";
                       "gpencil.vertex_group_remove_from";
                       "gpencil.vertex_group_select";
                       "gpencil.vertex_group_deselect" ]
                else []))%list
        /\ prop_names d = (if any then ["vertex_group_weight"] else [])
    end.
Proof.
  intros ctx m d; subst m d.
  destruct ctx as [[[dat [vgs [g |]] sif] |] aob gp cgp ma sp sc ts]; cbn;
    try (split; reflexivity);
    destruct vgs as [| v vs]; repeat split; reflexivity.
Qed.

(** X16: the vertex group menu adds [object.vertex_group_add] before it
    looks at the active object: without an active object it raises with
    that one button already drawn.  With an active object it returns, and
    the six further operators appear exactly when a vertex group is
    active. *)
Theorem vertex_group_menu :
  forall ctx,
    let m := GPENCIL_MT_gpencil_vertex_group.draw self0 in
    let d := drawn m ctx in
    root_attr "operator_context" (store_after m ctx) = Some (VStr "EXEC_AREA")
    /\ match active_object ctx with
       | None =>
           result m ctx = Raise (AttributeError "vertex_groups")
           /\ operators_of d = [ ("object.vertex_group_add", []) ]
       | Some ob =>
           result m ctx = Ok tt
           /\ operators_of d =
              ("object.vertex_group_add", [])
              :: if truthy (active (vertex_groups ob))
                 then [ ("gpencil.vertex_group_assign", []);
                        ("gpencil.vertex_group_remove_from", []);
                        ("object.vertex_group_remove", [("all", VBool false)]);
                        ("object.vertex_group_remove", [("all", VBool true)]);
                        ("gpencil.vertex_group_select", []);
                        ("gpencil.vertex_group_deselect", []) ]
                 else []
       end.
Proof.
  intros ctx m d; subst m d.
  destruct ctx as [ob [[dat [vgs [g |]] sif] |] gp cgp ma sp sc ts]; cbn;
    repeat split; reflexivity.
Qed.

(** X17: the layer context menu reads [context.object.data.layers.active]
    without testing any of it.  Without a context object it raises on
    [ob.data] before drawing anything.  For a ['GPENCIL'] object with an
    active layer it returns normally and shows these ten operator buttons
    with these settings, the autolock toggle of the data-block and the
    [lock_material] toggle of the active layer. *)
Theorem layer_context_menu :
  forall ctx,
    let m := GPENCIL_MT_layer_context_menu.draw self0 in
    (object ctx = None ->
     result m ctx = Raise (AttributeError "data") /\ drawn m ctx = [])
    /\ (forall ob gpd gpl,
          object ctx = Some ob ->
          data ob = GPencilData gpd ->
          active (layers gpd) = Some gpl ->
          result m ctx = Ok tt
          /\ operators_of (drawn m ctx) =
             [ ("gpencil.layer_duplicate", [("mode", VStr "ALL")]);
               ("gpencil.layer_duplicate", [("mode", VStr "EMPTY")]);
               ("gpencil.reveal", []);
               ("gpencil.hide", [("unselected", VBool true)]);
               ("gpencil.lock_all", []);
               ("gpencil.unlock_all", []);
               ("gpencil.layer_merge", [("mode", VStr "ACTIVE")]);
               ("gpencil.layer_merge", [("mode", VStr "ALL")]);
               ("gpencil.layer_duplicate_object", [("only_active", VBool true)]);
               ("gpencil.layer_duplicate_object", [("only_active", VBool false)]) ]
          /\ props_of (drawn m ctx) =
             [ (VObj (OGPData gpd), "use_autolock_layers",
                Some (VStr "Autolock Inactive Layers"));
               (VObj (OLayer gpl), "lock_material", None) ]).
Proof.
  intros ctx m; subst m.
  destruct ctx as [ob aob gp cgp ma sp sc ts]; cbn [object].
  split.
  - intros ->. split; reflexivity.
  - intros ob' gpd gpl -> Hd Ha.
    destruct ob' as [d vgs sif]; cbn in Hd; subst d.
    destruct gpd as [[lay_elems lay_active] mts wc om us gc me sts gr];
      cbn in Ha; subst lay_active.
    repeat split; reflexivity.
Qed.

Lemma layer_context_menu_witness :
  result (GPENCIL_MT_layer_context_menu.draw self0)
         (ctx_with_object (Some ob_watercolor)) = Ok tt.
Proof.
  exact (proj1 (proj2 (@layer_context_menu (ctx_with_object (Some ob_watercolor)))
                      ob_watercolor gpd_watercolor layer_wet
                      eq_refl eq_refl eq_refl)).
Defined.

(** ** List types *)

(** X18: both list types return normally for every item, icon and layout
    type.  In the ['GRID'] layout each draws one icon label and centres the
    layout; for a layout type that is none of ['DEFAULT'], ['COMPACT'] and
    ['GRID'] each draws nothing.  The vertex group list shows, in the
    ['DEFAULT'] and ['COMPACT'] layouts, the name and the weight lock, the
    latter with the icon ['LOCKED'] exactly when the weight is locked. *)
Theorem list_types_draw_item :
  forall ctx self slot vgroup icon,
    let lt := layout_type self in
    let mat := GPENCIL_UL_matslots.draw_item self 0%nat slot icon in
    let vg := GPENCIL_UL_vgroups.draw_item self 0%nat vgroup icon in
    let icon_label :=
      [ IWidget 0%nat "label" [] [("text", VStr ""); ("icon_value", VInt icon)] ] in
    result mat ctx = Ok tt
    /\ result vg ctx = Ok tt
    /\ (lt = "GRID" ->
        drawn mat ctx = icon_label /\ drawn vg ctx = icon_label
        /\ root_attr "alignment" (store_after mat ctx) = Some (VStr "CENTER")
        /\ root_attr "alignment" (store_after vg ctx) = Some (VStr "CENTER"))
    /\ (lt <> "DEFAULT" -> lt <> "COMPACT" -> lt <> "GRID" ->
        drawn mat ctx = [] /\ drawn vg ctx = [])
    /\ (lt = "DEFAULT" \/ lt = "COMPACT" ->
        drawn vg ctx =
        [ IWidget 0%nat "prop" [VObj (OVertexGroup vgroup); VStr "name"]
            [("text", VStr ""); ("emboss", VBool false); ("icon_value", VInt icon)];
          IWidget 0%nat "prop" [VObj (OVertexGroup vgroup); VStr "lock_weight"]
            [("text", VStr "");
             ("icon", VStr (if lock_weight vgroup then "LOCKED" else "UNLOCKED"));
             ("emboss", VBool false)] ]).
Proof.
  intros ctx [lay lt] [ma] [lw] icon; cbn [layout_type].
  unfold result, drawn, store_after, root_attr,
    GPENCIL_UL_matslots.draw_item, GPENCIL_UL_vgroups.draw_item;
    cbn [layout_type material lock_weight].
  destruct (String.eqb lt "DEFAULT") eqn:Ed;
    destruct (String.eqb lt "COMPACT") eqn:Ec;
    destruct (String.eqb lt "GRID") eqn:Eg;
    eqb_hyps; subst; cbn;
    repeat match goal with
           | |- context [match ?x with _ => _ end] => is_var x; destruct x; cbn
           | |- context [match grease_pencil ?x with _ => _ end] =>
               destruct x as [[?|]]; cbn
           end;
    repeat split; intros; try congruence; try reflexivity;
    repeat match goal with H : _ \/ _ |- _ => destruct H end; congruence.
Qed.

(** ** The two N-panels, once more *)

(** The rows of the Morph Targets N-panel, seen through all their
    properties: per morph target the [value] slider labelled with the
    target's name, then its [mute] toggle. *)
Lemma morph_target_rows_props :
  forall l col w,
    starts_with_layout (ui w) ->
    exists w',
      for_each l (fun mt =>
        sub <- UILayout.split col [kw "factor" (9 # 10)%Q; kw "align" true] ;;
        UILayout.prop sub mt "value" [kw "text" (mt_name mt)] ;;
        row <- UILayout.row sub [kw "align" true] ;;
        setattr row "use_property_decorate" false ;;
        setattr row "emboss" "NONE" ;;
        UILayout.prop row mt "mute" []) w = (Ok tt, w')
      /\ starts_with_layout (ui w')
      /\ props_of (ui w') =
         (props_of (ui w)
          ++ flat_map (fun mt => [ (VObj (OMorphTarget mt), "value",
                                     Some (VStr (mt_name mt)));
                                   (VObj (OMorphTarget mt), "mute", None) ]) l)%list.
Proof.
  intros l col w Hw.
  apply (for_each_invariant
           (fun done w' =>
              starts_with_layout (ui w') /\
              props_of (ui w') =
              (props_of (ui w)
               ++ flat_map (fun mt => [ (VObj (OMorphTarget mt), "value",
                                          Some (VStr (mt_name mt)));
                                        (VObj (OMorphTarget mt), "mute", None) ])
                           done)%list)).
  - intros done x w0 [Hs Hw0]. eexists; split; [reflexivity |].
    simpl. split; [auto 10 with ui |].
    unfold props_of in *.
    rewrite !filter_map_app, !(filter_map_update_nth _ _ _ _ (as_prop_setattr _ _)),
      !filter_map_app.
    simpl. rewrite Hw0, flat_map_app, !app_nil_r, <- !app_assoc. reflexivity.
  - simpl. now rewrite app_nil_r.
Qed.

Lemma props_of_drawn : forall l,
  starts_with_layout l -> props_of (skipn 1 l) = props_of l.
Proof.
  intros [| [] l]; simpl; intros H; try contradiction. reflexivity.
Qed.

(** X19: for a ['GPENCIL'] object the Morph Targets N-panel shows, per
    morph target and in ascending [order_nr], the [value] slider labelled
    with the target's name followed by its [mute] toggle, and no other
    property. *)
Theorem morph_targets_npanel_rows :
  forall ctx ob gpd,
    object ctx = Some ob ->
    data ob = GPencilData gpd ->
    props_of (drawn (GPENCIL_PT_MorphTargetsNPanel.draw self0) ctx) =
    flat_map (fun mt => [ (VObj (OMorphTarget mt), "value",
                           Some (VStr (mt_name mt)));
                          (VObj (OMorphTarget mt), "mute", None) ])
             (sorted order_nr (elems (morph_targets gpd))).
Proof.
  intros ctx ob gpd Hob Hd.
  unfold drawn, GPENCIL_PT_MorphTargetsNPanel.draw, bind, context.
  simpl. rewrite Hob; simpl. rewrite Hd; simpl.
  match goal with |- context [for_each ?l ?b ?w] =>
    destruct (@morph_target_rows_props l 1%nat w I) as (w' & E & Hs & Hp);
    change (for_each l b w = (Ok tt, w')) in E; rewrite E
  end.
  cbn [snd ui UILayout.separator UILayout.widget add_item bind ret fst model].
  change (props_of (skipn 1 (ui w' ++
            [IWidget (layout self0) "separator" [] [kw "factor" (2 # 10)%Q]]))
          = flat_map (fun mt => [ (VObj (OMorphTarget mt), "value",
                                   Some (VStr (mt_name mt)));
                                  (VObj (OMorphTarget mt), "mute", None) ])
                     (sorted order_nr (elems (morph_targets gpd)))).
  rewrite props_of_drawn by auto with ui.
  unfold props_of in *. rewrite filter_map_app, Hp. simpl.
  now rewrite app_nil_r.
Qed.

Lemma morph_targets_npanel_rows_witness :
  props_of (drawn (GPENCIL_PT_MorphTargetsNPanel.draw self0) ctx_two_morphs) =
  [ (VObj (OMorphTarget mt_early), "value", Some (VStr "frown"));
    (VObj (OMorphTarget mt_early), "mute", None);
    (VObj (OMorphTarget mt_late), "value", Some (VStr "smile"));
    (VObj (OMorphTarget mt_late), "mute", None) ].
Proof.
  exact (@morph_targets_npanel_rows ctx_two_morphs ob_two_morphs gpd_two_morphs
           eq_refl eq_refl).
Defined.

(** X20: the [draw] of the Morph Targets N-panel returns exactly when the
    context object is a ['GPENCIL'] object, also when that object has no
    morph targets; the [draw] of the Shape Keys N-panel returns exactly
    when [context.grease_pencil] is set, whatever the context object is. *)
Theorem npanels_draw_returns :
  forall ctx,
    is_ok (result (GPENCIL_PT_MorphTargetsNPanel.draw self0) ctx) =
      match object ctx with
      | Some ob => String.eqb (type ob) "GPENCIL"
      | None => false
      end
    /\ is_ok (result (GREASE_PENCIL_PT_ShapeKeysNPanel.draw self0) ctx)
       = truthy (ctx_grease_pencil ctx).
Proof.
  intros ctx. split.
  - unfold result, GPENCIL_PT_MorphTargetsNPanel.draw, bind, context, type.
    simpl.
    destruct (object ctx) as [[[gpd | gp | k] vgs sif] |]; simpl;
      try reflexivity; [| destruct k; reflexivity].
    match goal with |- context [for_each ?l ?b ?w] =>
      destruct (@morph_target_rows_value_props l 1%nat w I) as (w' & E & _);
      change (for_each l b w = (Ok tt, w')) in E; rewrite E
    end.
    reflexivity.
  - unfold result, GREASE_PENCIL_PT_ShapeKeysNPanel.draw, bind, context.
    simpl. destruct (ctx_grease_pencil ctx) as [gp |]; simpl; [| reflexivity].
    match goal with |- context [for_each ?l ?b ?w] =>
      destruct (@shape_key_rows_value_props l 1%nat w I) as (w' & E & _);
      change (for_each l b w = (Ok tt, w')) in E; rewrite E
    end.
    reflexivity.
Qed.

(** ** Onion skinning, strokes and the context panel *)

(** X21: for a data-block, the Custom Colors panel is enabled exactly when
    the data-block has at most one user and custom ghost colours are
    switched on; the Display panel is enabled exactly when the data-block
    has at most one user, and its "Show Start Frame" column is active
    exactly for the onion modes ['RELATIVE'] and ['SELECTED']. *)
Theorem onion_skinning_enabled :
  forall ctx gpd,
    gpencil ctx = Some gpd ->
    let colors := DATA_PT_gpencil_onion_skinning_custom_colors.draw self0 in
    let display := DATA_PT_gpencil_onion_skinning_display.draw self0 in
    result colors ctx = Ok tt
    /\ result display ctx = Ok tt
    /\ root_attr "enabled" (store_after colors ctx) =
       Some (VBool ((users gpd <=? 1) && use_ghost_custom_colors gpd))
    /\ root_attr "enabled" (store_after display ctx) =
       Some (VBool (users gpd <=? 1))
    /\ layout_attr_of (is_prop "use_onion_loop") "active"
         (store_after display ctx) =
       Some (VBool (String.eqb (onion_mode gpd) "RELATIVE"
                    || String.eqb (onion_mode gpd) "SELECTED")).
Proof.
  intros ctx gpd Hg colors display; subst colors display.
  destruct ctx; cbn in Hg; subst. destruct gpd; cbn.
  unfold result, store_after, root_attr, layout_attr_of; cbn.
  repeat split; try (destruct (users0 <=? 1); reflexivity).
Qed.

Lemma onion_skinning_enabled_witness :
  root_attr "enabled"
    (store_after (DATA_PT_gpencil_onion_skinning_display.draw self0)
                 (ctx_of_gpencil gpd_editing))
  = Some (VBool true).
Proof.
  exact (proj1 (proj2 (proj2 (proj2
    (@onion_skinning_enabled (ctx_of_gpencil gpd_editing) gpd_editing eq_refl))))).
Defined.

(** X22: the Strokes panel, for a data-block: the column of
    [stroke_depth_order] gets [enabled = not show_in_front] when there is a
    context object and is left alone when there is none; the thickness
    scale is active exactly for the thickness space ['WORLDSPACE']; and the
    four properties shown do not depend on either. *)
Theorem strokes_panel :
  forall ctx gpd,
    gpencil ctx = Some gpd ->
    let m := DATA_PT_gpencil_strokes.draw self0 in
    let store := store_after m ctx in
    result m ctx = Ok tt
    /\ prop_names (drawn m ctx) =
       [ "stroke_depth_order"; "stroke_thickness_space"; "pixel_factor";
         "edit_curve_resolution" ]
    /\ layout_attr_of (is_prop "stroke_depth_order") "enabled" store =
       match object ctx with
       | Some ob => Some (VBool (negb (show_in_front ob)))
       | None => None
       end
    /\ layout_attr_of (is_prop "pixel_factor") "active" store =
       Some (VBool (String.eqb (stroke_thickness_space gpd) "WORLDSPACE")).
Proof.
  intros ctx gpd Hg m store; subst m store.
  destruct ctx as [[[dat vgs sif] |] ? ? ? ? ? ? ?]; cbn in Hg; subst;
    destruct gpd; repeat split; reflexivity.
Qed.

Lemma strokes_panel_witness :
  result (DATA_PT_gpencil_strokes.draw self0) (ctx_of_gpencil gpd_editing) = Ok tt.
Proof.
  exact (proj1 (@strokes_panel (ctx_of_gpencil gpd_editing) gpd_editing eq_refl)).
Defined.


(** ** Material panels: what the lock and the styles switch *)

(** X24: for a material with Grease Pencil settings, the Stroke panel shows
    the image selector and the five texture properties exactly when the
    stroke style is ['TEXTURE'].  The texture properties sit in a column
    with [enabled = not lock]; the mode, the style and the base colour sit
    in layouts whose [enabled] is never assigned, so locking the material
    does not disable them. *)
Theorem stroke_texture_controls :
  forall ctx ma gpcolor,
    ctx_material ctx = Some ma ->
    grease_pencil ma = Some gpcolor ->
    let m := MATERIAL_PT_gpencil_strokecolor.draw self0 in
    let textured := String.eqb (stroke_style gpcolor) "TEXTURE" in
    prop_names (drawn m ctx) =
      ([ "mode"; "stroke_style"; "color" ]
       ++ if textured
          then [ "mix_stroke_factor"; "texture_density"; "alignment_rotation";
                 "texture_angle_variation"; "smooth_texture" ]
          else [])%list
    /\ (In "template_ID" (widget_methods (drawn m ctx)) <->
        stroke_style gpcolor = "TEXTURE")
    /\ prop_layout_attrs "enabled" (store_after m ctx) =
       ([ None; None; None ]
        ++ if textured
           then repeat (Some (VBool (negb (lock gpcolor)))) 5
           else [])%list.
Proof.
  intros ctx ma gpcolor Hma Hgp m textured; subst m textured.
  with_material ctx ma gpcolor Hma Hgp. cbn [stroke_style lock].
  unfold prop_names, widget_methods, prop_layout_attrs.
  eval_draw; split_cases; cbn in *; repeat split;
    intuition (try congruence; try discriminate).
Qed.

Lemma stroke_texture_controls_witness :
  prop_names
    (drawn (MATERIAL_PT_gpencil_strokecolor.draw self0)
       (ctx_of_material (Some {| grease_pencil := Some gpcolor_plain |})))
  = [ "mode"; "stroke_style"; "color" ].
Proof.
  exact (proj1 (@stroke_texture_controls
                  (ctx_of_material
                     (Some {| grease_pencil := Some gpcolor_plain |}))
                  _ _ eq_refl eq_refl)).
Defined.

(** X25: for a material with Grease Pencil settings, the Ondine Render
    body shows properties exactly when the fill style is ['GRADIENT'],
    that is when the panel's own [poll] is true: the rotation and the two
    offsets of a ['LINEAR'] gradient, the offset and the scale of any
    other.  Every property it shows sits in a column with
    [enabled = not lock]. *)
Theorem ondine_render_props :
  forall ctx ma gpcolor,
    ctx_material ctx = Some ma ->
    grease_pencil ma = Some gpcolor ->
    let m := MATERIAL_PT_gpencil_fillcolor_ondine.draw self0 in
    let ps := prop_names (drawn m ctx) in
    result MATERIAL_PT_gpencil_fillcolor_ondine.poll ctx =
      Ok (VBool (String.eqb (fill_style gpcolor) "GRADIENT"))
    /\ ps =
       (if String.eqb (fill_style gpcolor) "GRADIENT"
        then if String.eqb (gradient_type gpcolor) "LINEAR"
             then [ "texture_angle"; "ondine_gradient_offset";
                    "ondine_gradient_offset" ]
             else [ "ondine_gradient_offset"; "ondine_gradient_scale" ]
        else [])
    /\ prop_layout_attrs "enabled" (store_after m ctx) =
       repeat (Some (VBool (negb (lock gpcolor)))) (List.length ps).
Proof.
  intros ctx ma gpcolor Hma Hgp m ps; subst m ps.
  with_material ctx ma gpcolor Hma Hgp. cbn [fill_style gradient_type lock].
  unfold prop_names, prop_layout_attrs.
  repeat split; eval_draw; reflexivity.
Qed.

Lemma ondine_render_props_witness :
  prop_names
    (drawn (MATERIAL_PT_gpencil_fillcolor_ondine.draw self0)
       (ctx_of_material (Some {| grease_pencil := Some gpcolor_plain |})))
  = [].
Proof.
  exact (proj1 (proj2 (@ondine_render_props
                         (ctx_of_material
                            (Some {| grease_pencil := Some gpcolor_plain |}))
                         _ _ eq_refl eq_refl))).
Defined.

(** X26: for a material with Grease Pencil settings, the Fill Default
    Render sub-panel offers the holdout flag exactly for the fill styles
    ['GRADIENT'], ['SOLID'] and ['TEXTURE'] and shows no widget at all for
    any other style.  The rotation of a gradient sits in a row of its own
    that is enabled exactly for the gradient type ['LINEAR']; the rotation
    of a texture sits in the panel's column, with [enabled = not lock]. *)
Theorem fill_default_render_props :
  forall ctx ma gpcolor,
    ctx_material ctx = Some ma ->
    grease_pencil ma = Some gpcolor ->
    let m := MATERIAL_PT_gpencil_fillcolor_default.draw self0 in
    let style := fill_style gpcolor in
    let rotation_enabled :=
      layout_attr_of (is_prop "texture_angle") "enabled" (store_after m ctx) in
    (In "use_fill_holdout" (prop_names (drawn m ctx)) <->
     style = "GRADIENT" \/ style = "SOLID" \/ style = "TEXTURE")
    /\ (style <> "GRADIENT" -> style <> "SOLID" -> style <> "TEXTURE" ->
        widget_methods (drawn m ctx) = [])
    /\ (style = "GRADIENT" ->
        rotation_enabled =
          Some (VBool (String.eqb (gradient_type gpcolor) "LINEAR")))
    /\ (style = "TEXTURE" ->
        rotation_enabled = Some (VBool (negb (lock gpcolor)))).
Proof.
  intros ctx ma gpcolor Hma Hgp m style rotation_enabled;
    subst m style rotation_enabled.
  with_material ctx ma gpcolor Hma Hgp. cbn [fill_style gradient_type lock].
  unfold prop_names, widget_methods, layout_attr_of.
  eval_draw; split_cases; cbn in *;
    intuition (try congruence; try discriminate).
Qed.

Lemma fill_default_render_props_witness :
  In "use_fill_holdout"
     (prop_names
        (drawn (MATERIAL_PT_gpencil_fillcolor_default.draw self0)
           (ctx_of_material (Some {| grease_pencil := Some gpcolor_plain |})))).
Proof.
  exact (proj2 (proj1 (@fill_default_render_props
                         (ctx_of_material
                            (Some {| grease_pencil := Some gpcolor_plain |}))
                         _ _ eq_refl eq_refl))
               (or_intror (or_introl eq_refl))).
Defined.

(** ** Menus and pop-overs *)

Lemma Forall_update_nth : forall A (P : A -> Prop) (f : A -> A) h (l : list A),
  (forall a, P a -> P (f a)) -> Forall P l -> Forall P (update_nth h f l).
Proof.
  intros A P f h; induction h as [| h IH]; intros l Hf Hl;
    destruct l as [| a l]; simpl; try constructor;
    inversion Hl; subst; auto.
Qed.

Section ItemsInvariant.
Variable P : Item -> Prop.
Hypothesis P_setattr : forall k v it, P it -> P (item_setattr k v it).

Lemma ki_ret : forall A (a : A), keeps_items P (ret a).
Proof. intros A a w Hw. exact Hw. Qed.

Lemma ki_raise : forall A e, keeps_items P (@raise A e).
Proof. intros A e w Hw. exact Hw. Qed.

Lemma ki_bind : forall A B (m : M A) (k : A -> M B),
  keeps_items P m -> (forall a, keeps_items P (k a)) -> keeps_items P (bind m k).
Proof.
  intros A B m k Hm Hk w Hw. specialize (Hm w Hw). unfold bind.
  destruct (m w) as [[a | e] w']; simpl in *.
  - exact (Hk a w' Hm).
  - exact Hm.
Qed.

Lemma ki_pure : forall A (m : M A),
  (forall w, snd (m w) = w) -> keeps_items P m.
Proof. intros A m Hm w Hw. now rewrite Hm. Qed.

Lemma ki_getattr : forall A B (x : option A) attr (f : A -> B),
  keeps_items P (getattr x attr f).
Proof. intros A B [a |] attr f; now apply ki_pure. Qed.

Lemma ki_data_morph_targets : forall d, keeps_items P (data_morph_targets d).
Proof. intros []; now apply ki_pure. Qed.

Lemma ki_data_shape_keys : forall d, keeps_items P (data_shape_keys d).
Proof. intros []; now apply ki_pure. Qed.

Lemma ki_data_layers : forall d, keeps_items P (data_layers d).
Proof. intros []; now apply ki_pure. Qed.

Lemma ki_add_item : forall it, P it -> keeps_items P (add_item it).
Proof.
  intros it Hit w Hw. unfold add_item; simpl.
  apply Forall_app; split; [exact Hw | now constructor].
Qed.

Lemma ki_widget : forall m p args kw0,
  P (IWidget p m args kw0) -> keeps_items P (UILayout.widget m p args kw0).
Proof.
  intros. unfold UILayout.widget.
  apply ki_bind; [now apply ki_add_item | intros; apply ki_ret].
Qed.

Lemma ki_setattr : forall V (T : ToPy V) h attr (v : V),
  keeps_items P (setattr h attr v).
Proof.
  intros V T h attr v w Hw. unfold setattr; simpl.
  apply Forall_update_nth; [apply P_setattr | exact Hw].
Qed.

Lemma ki_for_each : forall A (l : list A) body,
  (forall x, keeps_items P (body x)) -> keeps_items P (for_each l body).
Proof.
  intros A l body Hb; induction l as [| x l IH]; simpl.
  - apply ki_ret.
  - apply ki_bind; [apply Hb | intros; apply IH].
Qed.
End ItemsInvariant.

Lemma opens_ok_setattr : forall k v it, opens_ok it -> opens_ok (item_setattr k v it).
Proof. intros k v [p kind kw0 attrs | p idname kw0 props | p m args kw0] H; exact H. Qed.

Ltac ki_step :=
  lazymatch goal with
  | |- keeps_items _ (bind _ _) => apply ki_bind; [| intros ? ]
  | |- keeps_items _ (ret _) => apply ki_ret
  | |- keeps_items _ (raise _) => apply ki_raise
  | |- keeps_items _ (@context) => apply ki_pure; reflexivity
  | |- keeps_items _ (getattr _ _ _) => apply ki_getattr
  | |- keeps_items _ (data_morph_targets _) => apply ki_data_morph_targets
  | |- keeps_items _ (data_shape_keys _) => apply ki_data_shape_keys
  | |- keeps_items _ (data_layers _) => apply ki_data_layers
  | |- keeps_items _ (UILayout.sublayout _ _ _) => apply ki_add_item; exact I
  | |- keeps_items _ (UILayout.operator _ _ _) => apply ki_add_item; exact I
  | |- keeps_items _ (UILayout.widget _ _ _ _) =>
      apply ki_widget; first [ exact I | reflexivity ]
  | |- keeps_items _ (setattr _ _ _) => apply ki_setattr; apply opens_ok_setattr
  | |- keeps_items _ (readattr _ _) => apply ki_pure; reflexivity
  | |- keeps_items _ (for_each _ _) => apply ki_for_each; intros ?
  | |- keeps_items _ (if ?c then _ else _) => destruct c
  | |- keeps_items _ (match ?x with _ => _ end) => destruct x
  end.

Ltac ki_method :=
  cbv zeta; unfold_layout_calls_keep;
  repeat first
    [ ki_step
    | lazymatch goal with
      | |- keeps_items _ ?m => let h := head_of m in is_method2 h; unfold h;
                               cbv zeta; unfold_layout_calls_keep
      end ].

Lemma draw_methods_keep_opens_ok : forall self d,
  In d all_draw_methods -> keeps_items opens_ok (d self).
Proof.
  intros self d Hd. simpl in Hd.
  repeat (destruct Hd as [<- | Hd]; [solve [ki_method] |]).
  contradiction.
Qed.

(** X27: whatever the context, every menu and every pop-over a [draw] or
    [draw_header] method of the four files puts into its layout names a
    class of these files that defines its own [draw] and has no [poll]:
    the scripts never open a menu or pop-over that is missing or that the
    host could filter out. *)
Theorem opened_menus_are_defined :
  forall ctx d name,
    In d all_draw_methods ->
    In name (opened (drawn (d self0) ctx)) ->
    exists c draw,
      class_named name = Some c /\ In c all_classes
      /\ cls_draw c = Some draw /\ cls_poll c = None.
Proof.
  intros ctx d name Hd Hn.
  pose proof (@draw_methods_keep_opens_ok self0 d Hd (fresh ctx)) as H.
  assert (H0 : Forall opens_ok (ui (fresh ctx))) by (repeat constructor).
  specialize (H H0). unfold drawn in Hn.
  unfold opened, filter_map in Hn. apply in_flat_map in Hn.
  destruct Hn as (it & Hit & Hname).
  assert (Hin : In it (ui (snd (d self0 (fresh ctx))))).
  { destruct (ui (snd (d self0 (fresh ctx)))); [exact Hit | now right]. }
  rewrite Forall_forall in H. specialize (H it Hin).
  unfold opens_ok in H. destruct (opens it) as [n |]; [| contradiction].
  destruct Hname as [<- | []].
  unfold draws_unpolled in H.
  destruct (class_named n) as [c |] eqn:Ec; [| discriminate].
  destruct (cls_draw c) as [draw |] eqn:Edraw; [| discriminate].
  destruct (cls_poll c) eqn:Epoll; [discriminate |].
  exists c, draw. repeat split; try assumption.
  unfold class_named in Ec. apply find_some in Ec. exact (proj1 Ec).
Qed.

Lemma opened_menus_are_defined_witness :
  exists c draw,
    class_named "MATERIAL_PT_gpencil_strokecolor_palette" = Some c
    /\ In c all_classes
    /\ cls_draw c = Some draw /\ cls_poll c = None.
Proof.
  apply (@opened_menus_are_defined
           (ctx_of_material (Some {| grease_pencil := Some gpcolor_plain |}))
           MATERIAL_PT_gpencil_strokecolor.draw).
  - unfold all_draw_methods, all_classes.
    rewrite !flat_map_app. do 3 (apply in_or_app; right). simpl; tauto.
  - vm_compute. left; reflexivity.
Defined.
